(** * WEEE classification pipeline: a shallow embedding and its properties

    The development follows the Python sources
    - [app/agents/weee_classifier.py]: keyword tables, the non-EEE filter,
      the object selector, the size estimator, the rule classifier, the
      optional arbiter and [classify_image_bytes];
    - [app/services/vision.py]: [_resize_to_valid], [_crop_regions], [_iou]
      and [analyze_image_bytes];
    - [app/routes.py]: [_bbox_iou].

    Conventions.
    - A Python [str] is the list of its Unicode code points.
    - A Python [int] is a [Z].
    - A finite Python [float] that is only stored, compared or produced by the
      true division of two ints is the rational it denotes ([Q]); the float
      arithmetic of [_resize_to_valid] (division, product, [round]) is on
      binary64 primitive floats.
    - A dict with a fixed set of string keys is a record whose optional keys
      are [option] fields; a dict that is iterated is an association list in
      insertion order.
    - Calls to the vision provider, to the arbiter, to the file system and to
      [uuid4] go through a state and error monad over an explicit [World]. *)

From Stdlib Require Import ZArith NArith QArith Qreduction List String Ascii Bool Lia.
From Stdlib Require Import Floats Uint63.
Import ListNotations.

Local Open Scope Z_scope.

(* ================================================================== *)
(** * Python strings *)
(* ================================================================== *)

Module PyStr.

(** A string is its sequence of code points. *)
Definition pystr := list N.

(** ** Reading the UTF-8 literals of this file *)

Definition byte_of (a : ascii) : N := N_of_ascii a.

Definition is_cont (b : N) : bool := ((128 <=? b) && (b <? 192))%N.

(** [take_cont n bs acc]: read [n] continuation bytes after a lead byte. *)
Fixpoint take_cont (n : nat) (bs : list N) (acc : N) : option (N * list N) :=
  match n with
  | O => Some (acc, bs)
  | S n' =>
      match bs with
      | b :: bs' =>
          if is_cont b then take_cont n' bs' (acc * 64 + (b - 128))%N
          else None
      | [] => None
      end
  end.

Definition replacement : N := 65533%N.

Fixpoint utf8_decode (fuel : nat) (bs : list N) : pystr :=
  match fuel with
  | O => []
  | S fuel' =>
      match bs with
      | [] => []
      | b :: bs' =>
          if (b <? 128)%N then b :: utf8_decode fuel' bs'
          else
            let k := if (b <? 224)%N then 1%nat
                     else if (b <? 240)%N then 2%nat else 3%nat in
            let lead := if (b <? 224)%N then (b - 192)%N
                        else if (b <? 240)%N then (b - 224)%N
                        else (b - 240)%N in
            match take_cont k bs' lead with
            | Some (cp, rest) => cp :: utf8_decode fuel' rest
            | None => replacement :: utf8_decode fuel' bs'
            end
      end
  end.

Definition bytes_of_string (s : string) : list N :=
  List.map byte_of (list_ascii_of_string s).

(** [u "text"] is the Python string written ["text"]. *)
Definition u (s : string) : pystr :=
  let bs := bytes_of_string s in utf8_decode (List.length bs) bs.

(** ** Equality and the [in] operator *)

Fixpoint eqb (a b : pystr) : bool :=
  match a, b with
  | [], [] => true
  | x :: a', y :: b' => N.eqb x y && eqb a' b'
  | _, _ => false
  end.

Fixpoint startswith (s p : pystr) : bool :=
  match p, s with
  | [], _ => true
  | x :: p', y :: s' => N.eqb x y && startswith s' p'
  | _ :: _, [] => false
  end.

(** [contains k t] is Python's [k in t] on strings. *)
Fixpoint contains (k t : pystr) : bool :=
  startswith t k ||
  match t with
  | [] => false
  | _ :: t' => contains k t'
  end.

(** ** [str.strip()] *)

(** The code points for which [str.isspace] holds. *)
Definition is_space (c : N) : bool :=
  (((9 <=? c) && (c <=? 13)) || ((28 <=? c) && (c <=? 32))
   || (c =? 133) || (c =? 160) || (c =? 5760)
   || ((8192 <=? c) && (c <=? 8202))
   || (c =? 8232) || (c =? 8233) || (c =? 8239) || (c =? 8287)
   || (c =? 12288))%N.

Fixpoint lstrip (s : pystr) : pystr :=
  match s with
  | c :: s' => if is_space c then lstrip s' else s
  | [] => []
  end.

Definition rstrip (s : pystr) : pystr := rev (lstrip (rev s)).

Definition strip (s : pystr) : pystr := rstrip (lstrip s).

(** ** [str.lower()] *)

Definition is_ascii (c : N) : bool := (c <? 128)%N.

Definition ascii_lower (c : N) : N :=
  if ((65 <=? c) && (c <=? 90))%N then (c + 32)%N else c.

(** On a string of ASCII code points [str.lower] maps [A-Z] to [a-z] and
    keeps the rest.  On any other string the result comes from the Unicode
    database of the interpreter, which is a parameter of the development:
    [unicode_lower]. *)
Definition lower (unicode_lower : pystr -> pystr) (s : pystr) : pystr :=
  if forallb is_ascii s then List.map ascii_lower s else unicode_lower s.

(** One possible [unicode_lower], used to run examples: the simple case
    mapping of the Latin-1 Supplement block (the accented letters of the
    keyword tables), other code points unchanged. *)
Definition latin1_lower_cp (c : N) : N :=
  if ((65 <=? c) && (c <=? 90))%N then (c + 32)%N
  else if ((192 <=? c) && (c <=? 214))%N then (c + 32)%N
  else if ((216 <=? c) && (c <=? 222))%N then (c + 32)%N
  else c.

Definition latin1_lower (s : pystr) : pystr := List.map latin1_lower_cp s.

(** ** [sep.join(parts)], [str(n)] and ["%03d"] *)

Fixpoint join (sep : pystr) (parts : list pystr) : pystr :=
  match parts with
  | [] => []
  | [p] => p
  | p :: rest => p ++ sep ++ join sep rest
  end.

Definition digit (d : N) : N := (48 + d)%N.

Fixpoint digits_fuel (fuel : nat) (n : N) (acc : pystr) : pystr :=
  match fuel with
  | O => acc
  | S fuel' =>
      let acc' := digit (n mod 10) :: acc in
      if (n <? 10)%N then acc' else digits_fuel fuel' (n / 10)%N acc'
  end.

(** [str(n)] for a natural number. *)
Definition of_N (n : N) : pystr := digits_fuel (S (N.to_nat (N.log2 n))) n [].

(** [str(z)] for an int. *)
Definition of_Z (z : Z) : pystr :=
  if z <? 0 then 45%N :: of_N (Z.to_N (- z)) else of_N (Z.to_N z).

(** [f"{n:03d}"]: at least three digits, padded with zeros. *)
Definition format_03d (n : N) : pystr :=
  let d := of_N n in
  repeat (digit 0) (3 - List.length d) ++ d.

(** Truthiness of an optional string: [None] and [""] are falsy. *)
Definition truthy (s : option pystr) : bool :=
  match s with
  | Some (_ :: _) => true
  | _ => false
  end.

(** [s or ""] *)
Definition or_empty (s : option pystr) : pystr :=
  match s with
  | Some v => v
  | None => []
  end.

(** ** [str.lstrip(chars)], [str.rstrip(chars)] and [str.replace] *)

(** [c in chars]: the argument of [lstrip] and [rstrip] is a set of
    characters, not a prefix. *)
Definition mem (c : N) (chars : pystr) : bool := existsb (N.eqb c) chars.

Fixpoint lstrip_chars (chars s : pystr) : pystr :=
  match s with
  | c :: s' => if mem c chars then lstrip_chars chars s' else s
  | [] => []
  end.

Definition rstrip_chars (chars s : pystr) : pystr :=
  rev (lstrip_chars chars (rev s)).

(** [s.replace(old, new)]: the occurrences of [old] are replaced from left
    to right, without overlap; an empty [old] matches between any two
    characters and at both ends. *)
Fixpoint replace_fuel (fuel : nat) (old new s : pystr) : pystr :=
  match fuel with
  | O => s
  | S fuel' =>
      if startswith s old then
        new ++ replace_fuel fuel' old new (skipn (List.length old) s)
      else
        match s with
        | [] => []
        | c :: s' => c :: replace_fuel fuel' old new s'
        end
  end.

Definition str_replace (old new s : pystr) : pystr :=
  match old with
  | [] => new ++ flat_map (fun c => c :: new) s
  | _ :: _ => replace_fuel (S (List.length s)) old new s
  end.

End PyStr.

Import PyStr.

(* ================================================================== *)
(** * Exceptions and floats *)
(* ================================================================== *)

(** The exceptions the modelled code can raise. *)
Inductive exn :=
| ZeroDivisionError
| OverflowError
| ValueError
| StopIteration
| IndexError
| UnidentifiedImageError           (* PIL cannot parse the bytes *)
| ProviderError (code : N).        (* raised by [client.analyze] *)

Inductive result (A : Type) :=
| Ok (a : A)
| Raise (e : exn).

Arguments Ok {A} a.
Arguments Raise {A} e.

Module PyFloat.

(** [float(z)] for an int below 2^63 in absolute value. *)
Definition of_int (z : Z) : float :=
  if z <? 0 then PrimFloat.opp (PrimFloat.of_uint63 (Uint63.of_Z (- z)))
  else PrimFloat.of_uint63 (Uint63.of_Z z).

(** Python's [max(a, b)] and [min(a, b)] keep the first argument unless the
    second is strictly better. *)
Definition fmax (a b : float) : float := if PrimFloat.ltb a b then b else a.
Definition fmin (a b : float) : float := if PrimFloat.ltb b a then b else a.

(** The integer nearest to [m * 2^e], ties to the even one. *)
Definition round_half_even (m e : Z) : Z :=
  if 0 <=? e then m * 2 ^ e
  else
    let d := 2 ^ (- e) in
    let q := m / d in
    let r := m mod d in
    if 2 * r <? d then q
    else if d <? 2 * r then q + 1
    else if Z.even q then q else q + 1.

(** [int(round(x))]: [round] of a float with one argument returns the nearest
    int, ties to even; it raises on infinities and NaN. *)
Definition round (x : float) : result Z :=
  match Prim2SF x with
  | S754_zero _ => Ok 0
  | S754_finite s m e =>
      let v := round_half_even (Zpos m) e in
      Ok (if s then - v else v)
  | S754_infinity _ => Raise OverflowError
  | S754_nan => Raise ValueError
  end.

(** [a / b] for two ints ("true division") is the float nearest to the exact
    quotient.  The model keeps the exact quotient, in lowest terms so that
    equal quotients are equal values: it is an idealisation of the binary64
    result.  What is stated of it below is either kept by rounding to
    nearest (an order between quotients, the values 0 and 1) or is stated
    for operands up to [2 ^ 53], which binary64 holds exactly and for which
    the tests [>= 0.2] and [== 1] of the rounded quotient give what they
    give on the exact one.  Every division of the modelled code has a
    divisor that was tested or built to be positive. *)
Definition truediv (a b : Z) : Q := Qred (Qmake a (Z.to_pos b)).

(** Comparisons of floats. *)
Definition gtb (a b : Q) : bool := negb (Qle_bool a b).
Definition geb (a b : Q) : bool := Qle_bool b a.
Definition eqb (a b : Q) : bool := Qeq_bool a b.

End PyFloat.

(* ================================================================== *)
(** * app/services/vision.py: images, boxes, IoU *)
(* ================================================================== *)

Module Vision.

(** Pixel contents are symbolic: a raster records how it was obtained. *)
Inductive Raster :=
| Source (id : N)
| Bicubic (src : Raster) (w h : Z)
| Crop (src : Raster) (x1 y1 x2 y2 : Z)
| Jpeg (src : Raster) (quality : Z).

(** A PIL image: its [size] and its pixels. *)
Record Image := mkImage { img_w : Z; img_h : Z; raster : Raster }.

(** [img.resize((w, h), Image.BICUBIC)] *)
Definition resize (img : Image) (w h : Z) : Image :=
  mkImage w h (Bicubic (raster img) w h).

(** [img.crop((x1, y1, x2, y2))] *)
Definition crop (img : Image) (x1 y1 x2 y2 : Z) : Image :=
  mkImage (x2 - x1) (y2 - y1) (Crop (raster img) x1 y1 x2 y2).

(** Bytes handed to the pipeline: an image file, or something PIL rejects. *)
Inductive ImageBytes :=
| NotAnImage (id : N)
| ImageFile (img : Image).

(** [Image.open(io.BytesIO(b)).convert("RGB")] *)
Definition image_open (b : ImageBytes) : result Image :=
  match b with
  | NotAnImage _ => Raise UnidentifiedImageError
  | ImageFile img => Ok img
  end.

Definition _image_to_bytes (img : Image) : ImageBytes :=
  ImageFile (mkImage (img_w img) (img_h img) (Jpeg (raster img) 95)).

Definition _resize_to_valid (img : Image) (min_side max_side : Z) : result Image :=
  let w := img_w img in
  let h := img_h img in
  let scale := PrimFloat.one in
  match
    (if Z.min w h <? min_side then
       if Z.min w h =? 0 then Raise ZeroDivisionError
       else Ok (PyFloat.fmax scale
                  (PrimFloat.div (PyFloat.of_int min_side)
                                 (PyFloat.of_int (Z.min w h))))
     else Ok scale)
  with
  | Raise e => Raise e
  | Ok scale =>
      match
        (if max_side <? Z.max w h then
           if Z.max w h =? 0 then Raise ZeroDivisionError
           else
             let q := PrimFloat.div (PyFloat.of_int max_side)
                                    (PyFloat.of_int (Z.max w h)) in
             Ok (if PrimFloat.eqb scale PrimFloat.one
                 then PyFloat.fmin scale q else PyFloat.fmin scale q)
         else Ok scale)
      with
      | Raise e => Raise e
      | Ok scale =>
          if negb (PrimFloat.eqb scale PrimFloat.one) then
            match PyFloat.round (PrimFloat.mul (PyFloat.of_int w) scale),
                  PyFloat.round (PrimFloat.mul (PyFloat.of_int h) scale) with
            | Ok rw, Ok rh =>
                let new_w := Z.max min_side (Z.min rw max_side) in
                let new_h := Z.max min_side (Z.min rh max_side) in
                Ok (resize img new_w new_h)
            | Raise e, _ => Raise e
            | _, Raise e => Raise e
            end
          else Ok img
      end
  end.

(** A bounding box [{"x", "y", "w", "h"}] (also the tuple [(x, y, w, h)]). *)
Record BBox := mkBBox { bx : Z; by_ : Z; bw : Z; bh : Z }.

Fixpoint _crop_regions (img : Image) (bboxes : list BBox) : list Image :=
  match bboxes with
  | [] => []
  | r :: rest =>
      let x2 := Z.max 0 (bx r) in
      let y2 := Z.max 0 (by_ r) in
      let x3 := Z.min (img_w img) (bx r + bw r) in
      let y3 := Z.min (img_h img) (by_ r + bh r) in
      if (x2 <? x3) && (y2 <? y3)
      then crop img x2 y2 x3 y3 :: _crop_regions img rest
      else _crop_regions img rest
  end.

Definition _iou (boxA boxB : BBox) : Q :=
  let Ax := bx boxA in let Ay := by_ boxA in
  let Aw := bw boxA in let Ah := bh boxA in
  let Bx := bx boxB in let By := by_ boxB in
  let Bw := bw boxB in let Bh := bh boxB in
  let A_x2 := Ax + Aw in
  let A_y2 := Ay + Ah in
  let B_x2 := Bx + Bw in
  let B_y2 := By + Bh in
  let inter_x1 := Z.max Ax Bx in
  let inter_y1 := Z.max Ay By in
  let inter_x2 := Z.min A_x2 B_x2 in
  let inter_y2 := Z.min A_y2 B_y2 in
  let inter_w := Z.max 0 (inter_x2 - inter_x1) in
  let inter_h := Z.max 0 (inter_y2 - inter_y1) in
  let inter_area := inter_w * inter_h in
  let areaA := Aw * Ah in
  let areaB := Bw * Bh in
  let union := areaA + areaB - inter_area in
  if union <=? 0 then 0%Q
  else PyFloat.truediv inter_area union.

(** ** Provider answers and detected objects *)

Inductive VisualFeature := CAPTION | OBJECTS.

Record Tag := mkTag { tag_name : option pystr; tag_confidence : option Q }.

(** One entry of [analysis.objects]. *)
Record Detection := mkDetection {
  bounding_box : BBox;
  det_name : option pystr;
  det_confidence : option Q;
  det_tags : list Tag
}.

(** What [client.analyze] returns: [caption.text] when there is a caption,
    and the object list when there is one. *)
Record Analysis := mkAnalysis {
  an_caption : option pystr;
  an_objects : option (list Detection)
}.

(** The dict of one detected object.  A key that is missing, or that holds
    [None], is [None] here. *)
Record DetectedObject := mkObject {
  name : option pystr;
  confidence : option Q;
  bbox : option BBox;
  crop_url : option pystr;
  caption : option pystr
}.

(** ** The world: provider, arbiter service, [uuid4] and the file system *)

Record World := mkWorld {
  (* answer of the provider to its n-th call *)
  provider : nat -> ImageBytes -> list VisualFeature -> result Analysis;
  calls : nat;
  (* the hexadecimal text of the n-th uuid4 *)
  uuid_hex : nat -> pystr;
  drawn : nat;
  (* files written so far, latest first *)
  files : list (pystr * ImageBytes);
  (* text of the arbiter's answer for a rule choice and its context, [None]
     when it is not configured, fails or gives no answer *)
  agent_service : Z -> option pystr -> option DetectedObject ->
                  option pystr -> option Q -> option pystr
}.

Definition M (A : Type) : Type := World -> result A * World.

Definition ret {A} (a : A) : M A := fun w => (Ok a, w).

Definition bind {A B} (m : M A) (k : A -> M B) : M B :=
  fun w =>
    match m w with
    | (Ok a, w') => k a w'
    | (Raise e, w') => (Raise e, w')
    end.

Definition lift {A} (r : result A) : M A := fun w => (r, w).

Notation "x <- m ;; k" := (bind m (fun x => k))
  (at level 61, m at next level, right associativity).
Notation "m ;; k" := (bind m (fun _ => k))
  (at level 61, right associativity).

(** [client.analyze(image_data=..., visual_features=...)] *)
Definition analyze (image_data : ImageBytes) (features : list VisualFeature)
  : M Analysis :=
  fun w =>
    (provider w (calls w) image_data features,
     mkWorld (provider w) (S (calls w)) (uuid_hex w) (drawn w) (files w)
             (agent_service w)).

(** [uuid.uuid4().hex] *)
Definition uuid4_hex : M pystr :=
  fun w =>
    (Ok (uuid_hex w (drawn w)),
     mkWorld (provider w) (calls w) (uuid_hex w) (S (drawn w)) (files w)
             (agent_service w)).

(** Directories are not part of [World]: making one changes nothing. *)
Definition _ensure_dir (path : pystr) : M unit := ret tt.

(** [a / b] on paths, and [path.parent]. *)
Definition path_join (a b : pystr) : pystr := a ++ u "/" ++ b.

Fixpoint drop_name (rev_path : pystr) : pystr :=
  match rev_path with
  | [] => []
  | c :: rest => if N.eqb c 47 then rest else drop_name rest
  end.

Definition path_parent (path : pystr) : pystr := rev (drop_name (rev path)).

(** [open(out_path, "wb").write(image_bytes)]; writing under the static
    directory is taken to succeed. *)
Definition write_bytes (image_bytes : ImageBytes) (out_path : pystr) : M unit :=
  fun w =>
    (Ok tt,
     mkWorld (provider w) (calls w) (uuid_hex w) (drawn w)
             ((out_path, image_bytes) :: files w) (agent_service w)).

Definition _save_image_bytes (image_bytes : ImageBytes) (out_path : pystr)
  : M unit :=
  _ensure_dir (path_parent out_path) ;;
  write_bytes image_bytes out_path.

(** ** [analyze_image_bytes] *)

Record AnalyzeResult := mkAnalyzeResult {
  session_id : pystr;
  original_url : pystr;
  image_caption : option pystr;
  objects : list DetectedObject
}.

Definition is_none {A} (o : option A) : bool :=
  match o with
  | None => true
  | Some _ => false
  end.

(** [bbox = {"x": int(r.x), "y": int(r.y), "w": int(r.width), "h": int(r.height)}] *)
Definition bbox_of_detection (det : Detection) : BBox :=
  let r := bounding_box det in
  mkBBox (bx r) (by_ r) (bw r) (bh r).

(** Body of the loop over [detected_objects]: name and confidence come from
    the detection itself, else from its first tag, else from the defaults. *)
Definition object_of_detection (det : Detection) : DetectedObject :=
  let name0 := det_name det in
  let confidence0 := det_confidence det in
  let '(name1, confidence1) :=
    match det_tags det with
    | tag0 :: _ =>
        if is_none name0 || is_none confidence0 then
          (if truthy name0 then name0 else tag_name tag0,
           match confidence0 with
           | Some c => Some c
           | None => tag_confidence tag0
           end)
        else (name0, confidence0)
    | [] => (name0, confidence0)
    end in
  let name2 := if truthy name1 then or_empty name1 else u "objeto" in
  let confidence2 := match confidence1 with
                     | Some c => c
                     | None => 0%Q
                     end in
  let bbox := bbox_of_detection det in
  mkObject (Some name2) (Some confidence2) (Some bbox) None None.

(** The loop [for idx in range(len(objects))]: the object at [idx] gets the
    crop at the same index of [crops], when there is one. *)
Fixpoint caption_objects (session_id session_crops_dir : pystr)
    (min_side max_side : Z) (crops : list Image) (idx : nat)
    (objs : list DetectedObject) : M (list DetectedObject) :=
  match objs with
  | [] => ret []
  | obj :: rest =>
      obj' <-
        match nth_error crops idx with
        | None => ret obj
        | Some crop_img =>
            let crop_name :=
              u "obj_" ++ format_03d (N.of_nat idx) ++ u ".jpg" in
            let crop_file := path_join session_crops_dir crop_name in
            _save_image_bytes (_image_to_bytes crop_img) crop_file ;;
            crop_for_vision <- lift (_resize_to_valid crop_img min_side max_side) ;;
            crop_analysis <- analyze (_image_to_bytes crop_for_vision) [CAPTION] ;;
            let obj_caption := an_caption crop_analysis in
            ret (mkObject (name obj) (confidence obj) (bbox obj)
                   (Some (u "/static/crops/" ++ session_id ++ u "/" ++ crop_name))
                   obj_caption)
        end ;;
      rest' <- caption_objects session_id session_crops_dir min_side max_side
                 crops (S idx) rest ;;
      ret (obj' :: rest')
  end.

(** State of the grid scan. *)
Record GridState := mkGridState {
  g_objects : list DetectedObject;
  g_bboxes : list BBox;
  g_seen : list pystr;
  g_added : nat
}.

Definition grid_n : Z := 3.
Definition max_extra : nat := 10.

(** The cells in scan order: [gy] outer, [gx] inner. *)
Definition grid_cells : list (Z * Z) :=
  flat_map (fun gy => List.map (fun gx => (gy, gx)) [0; 1; 2]) [0; 1; 2].

Definition cell_box (W H : Z) (gy gx : Z) : BBox :=
  let cell_w := W / grid_n in
  let cell_h := H / grid_n in
  let cell_x := gx * cell_w in
  let cell_y := gy * cell_h in
  let cell_w_eff := if gx <? grid_n - 1 then cell_w else W - cell_x in
  let cell_h_eff := if gy <? grid_n - 1 then cell_h else H - cell_y in
  mkBBox cell_x cell_y cell_w_eff cell_h_eff.

(** One cell of the scan.  Once [added >= max_extra] both loops are left, so
    every later cell is skipped as well. *)
Definition grid_step (pil_img : Image) (session_id session_crops_dir : pystr)
    (min_side max_side : Z) (st : GridState) (cell : Z * Z) : M GridState :=
  let '(gy, gx) := cell in
  if (max_extra <=? g_added st)%nat then ret st
  else
    let box := cell_box (img_w pil_img) (img_h pil_img) gy gx in
    if (bw box <? min_side) || (bh box <? min_side) then ret st
    else if existsb (fun b => PyFloat.gtb (_iou box b) (1 # 5)) (g_bboxes st)
    then ret st
    else
      let extra_crop :=
        crop pil_img (bx box) (by_ box) (bx box + bw box) (by_ box + bh box) in
      let extra_name :=
        u "extra_" ++ format_03d (N.of_nat (g_added st)) ++ u ".jpg" in
      let extra_file := path_join session_crops_dir extra_name in
      _save_image_bytes (_image_to_bytes extra_crop) extra_file ;;
      extra_for_vision <- lift (_resize_to_valid extra_crop min_side max_side) ;;
      extra_analysis <- analyze (_image_to_bytes extra_for_vision) [CAPTION] ;;
      match an_caption extra_analysis with
      | None => ret st
      | Some extra_caption =>
          if PyStr.eqb (strip extra_caption) [] then ret st
          else if existsb (PyStr.eqb extra_caption) (g_seen st) then ret st
          else
            ret (mkGridState
                   (g_objects st ++
                    [mkObject (Some extra_caption) (Some 0%Q) (Some box)
                       (Some (u "/static/crops/" ++ session_id ++ u "/" ++ extra_name))
                       (Some extra_caption)])
                   (g_bboxes st ++ [box])
                   (extra_caption :: g_seen st)
                   (S (g_added st)))
      end.

Fixpoint grid_scan (pil_img : Image) (session_id session_crops_dir : pystr)
    (min_side max_side : Z) (st : GridState) (cells : list (Z * Z))
  : M GridState :=
  match cells with
  | [] => ret st
  | cell :: rest =>
      st' <- grid_step pil_img session_id session_crops_dir min_side max_side
               st cell ;;
      grid_scan pil_img session_id session_crops_dir min_side max_side st' rest
  end.

Definition captions_seen (objs : list DetectedObject) : list pystr :=
  flat_map (fun o => if truthy (caption o) then [or_empty (caption o)] else [])
           objs.

Definition default_static : pystr := u "app/static".

Definition analyze_image_bytes (image_bytes : ImageBytes)
    (static_dir : option pystr) (enable_grid_fallback : bool)
    (min_side max_side : Z) : M AnalyzeResult :=
  let base_static := match static_dir with
                     | Some d => d
                     | None => default_static
                     end in
  let upload_dir := path_join base_static (u "uploads") in
  let crops_root := path_join base_static (u "crops") in
  session_id <- uuid4_hex ;;
  let session_upload_dir := path_join upload_dir session_id in
  let session_crops_dir := path_join crops_root session_id in
  _ensure_dir session_upload_dir ;;
  _ensure_dir session_crops_dir ;;
  pil_img0 <- lift (image_open image_bytes) ;;
  pil_img <- lift (_resize_to_valid pil_img0 min_side max_side) ;;
  let original_path := path_join session_upload_dir (u "original.jpg") in
  _save_image_bytes (_image_to_bytes pil_img) original_path ;;
  analysis <- analyze (_image_to_bytes pil_img) [CAPTION; OBJECTS] ;;
  let image_caption := an_caption analysis in
  let detected_objects := match an_objects analysis with
                          | Some l => l
                          | None => []
                          end in
  let objects0 := List.map object_of_detection detected_objects in
  let bboxes := List.map bbox_of_detection detected_objects in
  let crops := _crop_regions pil_img bboxes in
  objects1 <- caption_objects session_id session_crops_dir min_side max_side
                crops 0 objects0 ;;
  st <-
    (if enable_grid_fallback && (List.length objects1 <? 4)%nat then
       grid_scan pil_img session_id session_crops_dir min_side max_side
         (mkGridState objects1 bboxes (captions_seen objects1) 0) grid_cells
     else ret (mkGridState objects1 bboxes [] 0)) ;;
  ret (mkAnalyzeResult session_id
         (u "/static/uploads/" ++ session_id ++ u "/original.jpg")
         image_caption (g_objects st)).

End Vision.

Import Vision.

(* ================================================================== *)
(** * app/agents/weee_classifier.py *)
(* ================================================================== *)

Module Classifier.

(** WEEE categories: [{"id", "name"}] entries. *)
Definition CATEGORIES : list (Z * pystr) :=
  [ (1, u "Equipamentos de troca de temperatura");
    (2, u "Ecrãs/Monitores (>100 cm²)");
    (3, u "Lâmpadas");
    (4, u "Grandes (dimensão > 50cm)");
    (5, u "Pequenos (dimensão <= 50cm)");
    (6, u "TIC pequena dimensão (<= 50cm)") ].

(** Keywords of each category, in the insertion order of the dict. *)
Definition KEYWORDS : list (Z * list pystr) :=
  [ (1, List.map u
        ["refrigerador"; "geladeira"; "frigorífico"; "freezer"; "congelador";
         "ar-condicionado"; "ar condicionado"; "condicionador de ar";
         "bomba de calor"; "heat pump"; "air conditioner"; "fridge"; "cooler"]);
    (2, List.map u
        ["televisor"; "tv"; "smart tv"; "monitor"; "ecrã"; "tela"; "laptop";
         "notebook"; "tablet"; "display"; "screen"]);
    (3, List.map u
        ["lâmpada"; "lampada"; "lamp"; "bulbo"; "light bulb"; "fluorescente";
         "led"; "incandescente"; "tube"; "tubo"]);
    (4, List.map u
        ["máquina de lavar"; "lavadora"; "secadora"; "lava-louças";
         "lava louças"; "dishwasher"; "stove"; "fogão"; "oven"; "forno";
         "range"; "geladeira grande"]);
    (5, List.map u
        ["aspirador"; "micro-ondas"; "microondas"; "torradeira";
         "ferro de passar"; "kettle"; "chaleira"; "liquidificador"; "blender";
         "mixer"; "câmera"; "camera"]);
    (6, List.map u
        ["celular"; "telefone"; "smartphone"; "phone"; "pc pequeno"; "mini pc";
         "router"; "roteador"; "gps"; "calculadora"; "calculator"; "modem";
         "printer"; "impressora"; "tablet"; "notebook"; "laptop"]) ]%string.

Definition NON_EEE_KEYWORDS : list pystr :=
  List.map u
    ["pessoa"; "person"; "homem"; "mulher"; "people"; "boy"; "girl";
     "dog"; "cachorro"; "cat"; "gato"; "animal"; "bird"; "passaro"; "cavalo";
     "árvore"; "tree"; "plant"; "planta"; "flor"; "flower"; "grass"; "grama";
     "landscape"; "paisagem"; "sky"; "céu"; "beach"; "praia"; "ocean"; "mar";
     "montanha";
     "car"; "carro"; "bike"; "bicycle"; "moto"; "motorcycle"; "truck";
     "caminhão"; "bus"; "ônibus";
     "food"; "comida"; "fruta"; "fruit"; "vegetal"; "vegetable"; "drink";
     "bebida";
     "house"; "casa"; "building"; "prédio"; "rua"; "street"; "wall"; "parede";
     "sofa"; "couch"; "table"; "mesa"; "chair"; "cadeira"; "book";
     "livro"]%string.

(** The two size buckets. *)
Definition grande : pystr := u "grande".
Definition pequeno : pystr := u "pequeno".

(** The [evidence] dict of a rule choice, by its ["source"]. *)
Inductive Evidence :=
| EvSizeFallback (size_bucket : option pystr) (text : pystr)
| EvKeywords (scores : list (Z * Z)) (text : pystr) (size_bucket : option pystr)
| EvLlmArbiter (llm_text : pystr).

Definition source (e : Evidence) : pystr :=
  match e with
  | EvSizeFallback _ _ => u "size_fallback"
  | EvKeywords _ _ _ => u "keywords"
  | EvLlmArbiter _ => u "llm_arbiter"
  end.

Record RuleAgentOutput := mkRuleAgentOutput {
  category_id : Z;
  category_name : pystr;
  score : Z;
  evidence : Evidence
}.

Record VisualAgentOutput := mkVisualAgentOutput {
  va_image_caption : option pystr;
  va_objects : list DetectedObject;
  va_original_url : pystr;
  va_session_id : pystr
}.

Record SizeAgentOutput := mkSizeAgentOutput {
  img_size : Z * Z;
  object_bbox : option BBox;
  size_ratio : option Q;
  size_bucket : option pystr
}.

(** The dict returned by [classify_image_bytes]; a key that one of the two
    return statements leaves out is [None]. *)
Record ClassificationResult := mkClassificationResult {
  res_session_id : pystr;
  res_original_url : pystr;
  res_image_caption : option pystr;
  res_top_object : option DetectedObject;
  res_visual_objects : list DetectedObject;
  res_size : SizeAgentOutput;
  res_rules : option RuleAgentOutput;
  res_category : option (Z * pystr);
  res_confidence : Q;
  res_filtered : option (pystr * pystr);
  res_explanation : option Evidence
}.

(** [o.get("confidence", 0.0)] *)
Definition get_confidence (o : DetectedObject) : Q :=
  match confidence o with
  | Some c => c
  | None => 0%Q
  end.

(** Truthiness of an object dict: it has some key. *)
Definition obj_truthy (o : DetectedObject) : bool :=
  negb (is_none (name o) && is_none (confidence o) && is_none (bbox o)
        && is_none (crop_url o) && is_none (caption o)).

Definition _pick_best_object (objects : list DetectedObject)
  : option DetectedObject :=
  match objects with
  | [] => None
  | first :: rest =>
      Some (fold_left
              (fun best o =>
                 if PyFloat.gtb (get_confidence o) (get_confidence best) then o
                 else if PyFloat.eqb (get_confidence o) (get_confidence best) then
                   if truthy (caption o) && negb (truthy (caption best)) then o
                   else best
                 else best)
              rest first)
  end.

Definition _estimate_size_ratio (img_w img_h : Z) (bbox : BBox) : Q :=
  let iw := Z.max 1 img_w in
  let ih := Z.max 1 img_h in
  let bw := Z.max 1 (bw bbox) in
  let bh := Z.max 1 (bh bbox) in
  PyFloat.truediv (bw * bh) (iw * ih).

Definition _size_to_bucket (size_ratio : Q) : pystr :=
  if PyFloat.geb size_ratio (1 # 5) then grande else pequeno.

Definition size_agent (image_bytes : ImageBytes)
    (top_object : option DetectedObject) : M SizeAgentOutput :=
  img <- lift (image_open image_bytes) ;;
  let W := img_w img in
  let H := img_h img in
  match top_object with
  | None => ret (mkSizeAgentOutput (W, H) None None None)
  | Some o =>
      if negb (obj_truthy o) then ret (mkSizeAgentOutput (W, H) None None None)
      else
        match bbox o with
        | None => ret (mkSizeAgentOutput (W, H) None None None)
        | Some b =>
            let ratio := _estimate_size_ratio W H b in
            let bucket := _size_to_bucket ratio in
            ret (mkSizeAgentOutput (W, H) (Some b) (Some ratio) (Some bucket))
        end
  end.

Definition visual_agent (image_bytes : ImageBytes) (static_dir : option pystr)
  : M VisualAgentOutput :=
  vres <- analyze_image_bytes image_bytes static_dir false 50 16000 ;;
  ret (mkVisualAgentOutput (image_caption vres) (objects vres)
         (original_url vres) (session_id vres)).

Section Rules.

(** [str.lower] outside ASCII: given by the interpreter (see [PyStr.lower]). *)
Variable unicode_lower : pystr -> pystr.

Definition _norm (s : option pystr) : pystr :=
  lower unicode_lower (strip (or_empty s)).

Definition _token_hits (text : pystr) (keywords : list pystr) : Z :=
  let t := _norm (Some text) in
  Z.of_nat (List.length (filter (fun k => contains k t) keywords)).

(** [sum(values)] *)
Definition sum_values (l : list Z) : Z := fold_left Z.add l 0.

Definition _is_non_eee (text : pystr) (cat_scores : list (Z * Z)) : bool :=
  if 0 <? sum_values (List.map snd cat_scores) then false
  else 2 <=? _token_hits text NON_EEE_KEYWORDS.

(** The evidence text of [rule_agent] and of [classify_image_bytes]: name and
    caption of the top object, then the image caption, the non-empty ones. *)
Definition combined_text (image_caption : option pystr)
    (top_object : option DetectedObject) : pystr :=
  let texts1 :=
    match top_object with
    | None => []
    | Some o =>
        if obj_truthy o then
          (if truthy (name o) then [or_empty (name o)] else [])
          ++ (if truthy (caption o) then [or_empty (caption o)] else [])
        else []
    end in
  let texts2 := if truthy image_caption then [or_empty image_caption] else [] in
  join (u " | ") (texts1 ++ texts2).

Definition keyword_scores (combined : pystr) : list (Z * Z) :=
  List.map (fun '(cid, kws) => (cid, _token_hits combined kws)) KEYWORDS.

(** [next(c["name"] for c in CATEGORIES if c["id"] == cid)] *)
Definition category_name_of (cid : Z) : result pystr :=
  match find (fun c => fst c =? cid) CATEGORIES with
  | Some c => Ok (snd c)
  | None => Raise StopIteration
  end.

(** [max(values)] *)
Definition list_max (l : list Z) : result Z :=
  match l with
  | [] => Raise ValueError
  | x :: rest => Ok (fold_left (fun m y => if m <? y then y else m) rest x)
  end.

Definition pref : list Z := [1; 2; 3; 6; 4; 5].

(** [pref.index(x)] *)
Fixpoint index_of (x : Z) (l : list Z) : result nat :=
  match l with
  | [] => Raise ValueError
  | y :: rest =>
      if y =? x then Ok O
      else match index_of x rest with
           | Ok i => Ok (S i)
           | Raise e => Raise e
           end
  end.

(** [sorted(candidates, key=lambda x: pref.index(x))]: the keys are computed
    first, then the list is sorted by key, equal keys keeping their order. *)
Fixpoint keyed (l : list Z) : result (list (nat * Z)) :=
  match l with
  | [] => Ok []
  | x :: rest =>
      match index_of x pref, keyed rest with
      | Ok i, Ok krest => Ok ((i, x) :: krest)
      | Raise e, _ => Raise e
      | _, Raise e => Raise e
      end
  end.

Fixpoint insert_keyed (p : nat * Z) (l : list (nat * Z)) : list (nat * Z) :=
  match l with
  | [] => [p]
  | q :: rest =>
      if (fst p <=? fst q)%nat then p :: l else q :: insert_keyed p rest
  end.

Definition sort_keyed (l : list (nat * Z)) : list (nat * Z) :=
  fold_right insert_keyed [] l.

Definition sorted_by_pref (candidates : list Z) : result (list Z) :=
  match keyed candidates with
  | Ok k => Ok (List.map snd (sort_keyed k))
  | Raise e => Raise e
  end.

Definition rule_agent (image_caption : option pystr)
    (top_object : option DetectedObject) (size_bucket : option pystr)
  : result RuleAgentOutput :=
  let combined := combined_text image_caption top_object in
  let cat_scores := keyword_scores combined in
  if forallb (fun s => s =? 0) (List.map snd cat_scores) then
    let cid := match size_bucket with
               | Some b => if PyStr.eqb b grande then 4 else 5
               | None => 5
               end in
    match category_name_of cid with
    | Raise e => Raise e
    | Ok cname =>
        Ok (mkRuleAgentOutput cid cname 1 (EvSizeFallback size_bucket combined))
    end
  else
    match list_max (List.map snd cat_scores) with
    | Raise e => Raise e
    | Ok best_score =>
        let candidates :=
          List.map fst (filter (fun cs => snd cs =? best_score) cat_scores) in
        match sorted_by_pref candidates with
        | Raise e => Raise e
        | Ok [] => Raise IndexError
        | Ok (cid :: _) =>
            match category_name_of cid with
            | Raise e => Raise e
            | Ok cname =>
                Ok (mkRuleAgentOutput cid cname best_score
                      (EvKeywords cat_scores combined size_bucket))
            end
        end
    end.

(** The arbiter.  The remote exchange is [agent_service]; every failure in it
    and every exception of the body give [None]. *)
Definition _try_llm_arbiter (rule_choice : RuleAgentOutput)
    (all_options : list (Z * pystr)) (image_caption : option pystr)
    (top_object : option DetectedObject) (size_bucket : option pystr)
    (size_ratio : option Q) : M (option RuleAgentOutput) :=
  fun w =>
    match agent_service w (category_id rule_choice) image_caption top_object
            size_bucket size_ratio with
    | None => (Ok None, w)
    | Some text =>
        let hit (c : Z * pystr) :=
          contains (of_Z (fst c)) text
          || contains (lower unicode_lower (snd c)) (lower unicode_lower text) in
        match find hit all_options with
        | None => (Ok None, w)
        | Some c =>
            let chosen_id := fst c in
            if chosen_id =? 0 then (Ok None, w)
            else
              match category_name_of chosen_id with
              | Raise _ => (Ok None, w)
              | Ok cname =>
                  (Ok (Some (mkRuleAgentOutput chosen_id cname
                               (score rule_choice) (EvLlmArbiter text))), w)
              end
        end
    end.

(** [float(top_obj.get("confidence", 0.0)) if top_obj else 0.0] *)
Definition top_confidence (top_obj : option DetectedObject) : Q :=
  match top_obj with
  | Some o => if obj_truthy o then get_confidence o else 0%Q
  | None => 0%Q
  end.

Definition classify_image_bytes (image_bytes : ImageBytes)
    (static_dir : option pystr) (use_llm_arbiter : bool)
  : M ClassificationResult :=
  vis <- visual_agent image_bytes static_dir ;;
  let top_obj := _pick_best_object (va_objects vis) in
  sz <- size_agent image_bytes top_obj ;;
  let combined := combined_text (va_image_caption vis) top_obj in
  let cat_scores := keyword_scores combined in
  if _is_non_eee combined cat_scores then
    ret (mkClassificationResult
           (va_session_id vis) (va_original_url vis) (va_image_caption vis)
           top_obj (va_objects vis) sz None
           None
           (top_confidence top_obj)
           (Some (u "non_eee", combined))
           None)
  else
    rules_choice <- lift (rule_agent (va_image_caption vis) top_obj
                            (size_bucket sz)) ;;
    final_choice <-
      (if use_llm_arbiter then
         arb <- _try_llm_arbiter rules_choice CATEGORIES (va_image_caption vis)
                  top_obj (size_bucket sz) (size_ratio sz) ;;
         match arb with
         | Some a => ret a
         | None => ret rules_choice
         end
       else ret rules_choice) ;;
    ret (mkClassificationResult
           (va_session_id vis) (va_original_url vis) (va_image_caption vis)
           top_obj (va_objects vis) sz (Some rules_choice)
           (Some (category_id final_choice, category_name final_choice))
           (top_confidence top_obj)
           None
           (Some (evidence final_choice))).

End Rules.

End Classifier.

(* ================================================================== *)
(** * app/routes.py *)
(* ================================================================== *)

Module Routes.

Definition _bbox_iou (a b : BBox) : Q :=
  let Ax := bx a in let Ay := by_ a in let Aw := bw a in let Ah := bh a in
  let Bx := bx b in let By := by_ b in let Bw := bw b in let Bh := bh b in
  let A_x2 := Ax + Aw in
  let A_y2 := Ay + Ah in
  let B_x2 := Bx + Bw in
  let B_y2 := By + Bh in
  let inter_x1 := Z.max Ax Bx in
  let inter_y1 := Z.max Ay By in
  let inter_x2 := Z.min A_x2 B_x2 in
  let inter_y2 := Z.min A_y2 B_y2 in
  let inter_w := Z.max 0 (inter_x2 - inter_x1) in
  let inter_h := Z.max 0 (inter_y2 - inter_y1) in
  let inter_area := inter_w * inter_h in
  let areaA := Aw * Ah in
  let areaB := Bw * Bh in
  let union := areaA + areaB - inter_area in
  if 0 <? union then PyFloat.truediv inter_area union else 0%Q.

(** ** Keyword tables of the deduplication *)

Definition _PARENT_DEVICE_KEYWORDS : list pystr :=
  List.map u
    ["laptop"; "notebook"; "computador"; "pc"; "desktop"; "monitor";
     "televisor"; "tv"; "tablet";
     "telefone"; "celular"; "smartphone"; "impressora"; "printer"; "roteador";
     "router";
     "geladeira"; "refrigerador"; "frigorífico"; "freezer"; "forno";
     "micro-ondas"; "lava-louças"; "máquina de lavar"; "secadora";
     "ar-condicionado"; "bomba de calor"]%string.

Definition _SUBPART_KEYWORDS : list pystr :=
  List.map u
    ["keyboard"; "teclado"; "trackpad"; "touchpad"; "screen"; "display";
     "panel"; "painel"; "bezel"; "stand";
     "mouse"; "speaker"; "alto-falante"; "alto falante"; "cable"; "cables";
     "wire"; "fio"; "cabos"; "cabo"]%string.

Definition _NON_EEE_KEYWORDS : list pystr :=
  List.map u
    ["pessoa"; "person"; "homem"; "mulher"; "dog"; "cachorro"; "cat"; "gato";
     "animal";
     "árvore"; "tree"; "plant"; "planta"; "car"; "carro"; "bike"; "bicycle";
     "food"; "comida"; "house"; "casa"; "building"; "prédio"; "rua";
     "street"]%string.

(** ** [_public_url] *)

(** [PUBLIC_BASE_URL] is the value of the environment variable, [None] when
    it is not set. *)
Definition _public_url (PUBLIC_BASE_URL : option pystr) (path : pystr) : pystr :=
  let base := rstrip_chars (u "/") (strip (or_empty PUBLIC_BASE_URL)) in
  if negb (truthy (Some base)) || startswith path (u "http") then path
  else
    let path := if negb (startswith path (u "/")) then u "/" ++ path else path in
    base ++ path.

(** ** [_normalize_phone_for_meta] *)

Section Phone.

(** The decimal digits outside ASCII (Unicode category Nd), which [\d]
    matches on a [str] pattern: given by the interpreter. *)
Variable unicode_decimal : N -> bool.

Definition is_decimal (c : N) : bool :=
  if (c <? 128)%N then ((48 <=? c) && (c <=? 57))%N else unicode_decimal c.

Definition _normalize_phone_for_meta (s : option pystr) : pystr :=
  let raw := strip (or_empty s) in
  let raw := str_replace (u "whatsapp:") [] raw in
  let digits := filter is_decimal raw in
  digits.

End Phone.

(** ** The route [analyze] *)

(** An object of the detector with the keys that the route adds. *)
Record RouteObject := mkRouteObject {
  detected : DetectedObject;
  _label_text : pystr;
  _is_parent : bool;
  _is_subpart : bool;
  _is_non_eee : bool;
  weee_category_id : option Z;
  weee_category_name : option pystr;
  weee_category : option pystr
}.

(** [f"{o.get(key, default)}"]: a missing key prints as the default, a key
    that holds [None] as "None". *)
Definition format_key (present : bool) (v : option pystr) (default : pystr)
  : pystr :=
  match v with
  | Some s => s
  | None => if present then u "None" else default
  end.

(** [f"{o.get('name','')} {o.get('caption','')}"].  The detector sets the
    keys [crop_url] and [caption] together, so the key [caption] is there
    exactly when [crop_url] is. *)
Definition label_of (o : DetectedObject) : pystr :=
  format_key false (name o) []
  ++ u " " ++ format_key (negb (is_none (crop_url o))) (caption o) [].

Definition set_category (o : RouteObject) (cid : option Z)
    (cname label : option pystr) : RouteObject :=
  mkRouteObject (detected o) (_label_text o) (_is_parent o) (_is_subpart o)
    (_is_non_eee o) cid cname label.

Definition ignored_non_eee : pystr := u "Ignorado (não EEE)".

(** [f"Ignorado (parte de {objs[j].get('name','dispositivo')})"] *)
Definition ignored_part_of (parent : DetectedObject) : pystr :=
  u "Ignorado (parte de " ++ format_key false (name parent) (u "dispositivo")
  ++ u ")".

(** [[i for i, o in enumerate(objs) if o.get("_is_parent")]] *)
Fixpoint parent_idxs_from (i : nat) (objs : list RouteObject) : list nat :=
  match objs with
  | [] => []
  | o :: rest =>
      (if _is_parent o then [i] else []) ++ parent_idxs_from (S i) rest
  end.

(** The loop [for j in parent_idxs]: the label of the first parent, other
    than the object itself, whose box overlaps [b] by 0.2 or more. *)
Fixpoint subpart_label (objs : list RouteObject) (i : nat) (b : BBox)
    (parent_idxs : list nat) : option pystr :=
  match parent_idxs with
  | [] => None
  | j :: rest =>
      match nth_error objs j with
      | None => None
      | Some p =>
          if (i =? j)%nat then subpart_label objs i b rest
          else
            match bbox (detected p) with
            | None => subpart_label objs i b rest
            | Some pb =>
                if PyFloat.geb (_bbox_iou b pb) (1 # 5)
                then Some (ignored_part_of (detected p))
                else subpart_label objs i b rest
            end
      end
  end.

(** [crop_url[len("/static/"):] if crop_url.startswith("/static/")
     else crop_url.lstrip("/")] *)
Definition crop_rel (crop_url : pystr) : pystr :=
  if startswith crop_url (u "/static/")
  then skipn (List.length (u "/static/")) crop_url
  else lstrip_chars (u "/") crop_url.

(** [static_dir / rel]: an absolute right side replaces the left one. *)
Definition path_div (static_dir rel : pystr) : pystr :=
  if startswith rel (u "/") then rel else path_join static_dir rel.

(** [crop_path.exists()] and [crop_path.read_bytes()]: the latest file
    written under that path. *)
Definition read_bytes (path : pystr) (w : World) : option ImageBytes :=
  option_map snd (find (fun f => PyStr.eqb (fst f) path) (files w)).

(** Truthiness of an optional integer. *)
Definition int_truthy (z : option Z) : bool :=
  match z with
  | Some v => negb (v =? 0)
  | None => false
  end.

(** [str(cid)] *)
Definition str_of_id (cid : option Z) : pystr :=
  match cid with
  | Some v => of_Z v
  | None => u "None"
  end.

(** [f"{cid} - {cname}" if cid and cname else (cname or str(cid))] *)
Definition category_label (cid : option Z) (cname : option pystr) : pystr :=
  if int_truthy cid && truthy cname
  then str_of_id cid ++ u " - " ++ format_key true cname []
  else if truthy cname then or_empty cname else str_of_id cid.

Section Analyze.

(** [str.lower] outside ASCII, as in the classifier. *)
Variable unicode_lower : pystr -> pystr.

Definition _norm (s : option pystr) : pystr :=
  lower unicode_lower (strip (or_empty s)).

Definition _hit (text : pystr) (words : list pystr) : bool :=
  let t := _norm (Some text) in
  existsb (fun w => contains w t) words.

(** The first loop over the objects: the auxiliary texts and flags. *)
Definition preprocess (o : DetectedObject) : RouteObject :=
  let label_text := _norm (Some (label_of o)) in
  mkRouteObject o label_text
    (_hit label_text _PARENT_DEVICE_KEYWORDS)
    (_hit label_text _SUBPART_KEYWORDS)
    (_hit label_text _NON_EEE_KEYWORDS)
    None None None.

(** The [try] block of one object: the crop is classified, and an exception
    is logged and leaves the object without a category. *)
Definition classify_crop (static_dir : pystr) (use_llm : bool)
    (obj : RouteObject) (crop_bytes : ImageBytes) : M RouteObject :=
  fun w =>
    match Classifier.classify_image_bytes unicode_lower crop_bytes
            (Some static_dir) use_llm w with
    | (Raise _, w') => (Ok obj, w')
    | (Ok cls, w') =>
        if is_none (Classifier.res_category cls)
           && match Classifier.res_filtered cls with
              | Some (reason, _) => PyStr.eqb reason (u "non_eee")
              | None => false
              end
        then (Ok (set_category obj None None (Some ignored_non_eee)), w')
        else
          let cid := option_map fst (Classifier.res_category cls) in
          let cname := option_map snd (Classifier.res_category cls) in
          if int_truthy cid || truthy cname
          then (Ok (set_category obj cid cname
                      (Some (category_label cid cname))), w')
          else (Ok obj, w')
    end.

(** One turn of the loop [for i, obj in enumerate(objs)]. *)
Definition classify_object (static_dir : pystr) (use_llm : bool)
    (objs : list RouteObject) (parent_idxs : list nat) (i : nat)
    (obj : RouteObject) : M RouteObject :=
  if _is_non_eee obj && negb (_is_parent obj)
  then ret (set_category obj None None (Some ignored_non_eee))
  else
    let part :=
      match bbox (detected obj), parent_idxs with
      | Some b, _ :: _ =>
          if _is_subpart obj then subpart_label objs i b parent_idxs else None
      | _, _ => None
      end in
    match part with
    | Some label => ret (set_category obj None None (Some label))
    | None =>
        if truthy (crop_url (detected obj)) then
          let crop_path :=
            path_div static_dir (crop_rel (or_empty (crop_url (detected obj)))) in
          fun w =>
            match read_bytes crop_path w with
            | None => (Ok obj, w)
            | Some crop_bytes =>
                classify_crop static_dir use_llm obj crop_bytes w
            end
        else ret obj
    end.

Fixpoint classify_objects (static_dir : pystr) (use_llm : bool)
    (objs : list RouteObject) (parent_idxs : list nat) (i : nat)
    (todo : list RouteObject) : M (list RouteObject) :=
  match todo with
  | [] => ret []
  | obj :: rest =>
      obj' <- classify_object static_dir use_llm objs parent_idxs i obj ;;
      rest' <- classify_objects static_dir use_llm objs parent_idxs (S i) rest ;;
      ret (obj' :: rest')
  end.

(** What the route answers: the results page, or the error text with
    status 500. *)
Inductive Page :=
| Results (result : AnalyzeResult) (objs : list RouteObject)
| ErrorPage (e : exn).

(** The route, for an upload that carries a file; [static_dir] is the
    directory [static] beside the module, [use_llm] the setting
    [USE_LLM_ARBITER], and the client is the provider of the world. *)
Definition analyze (static_dir : pystr) (use_llm : bool)
    (img_bytes : ImageBytes) (w : World) : Page * World :=
  match (result <- analyze_image_bytes img_bytes (Some static_dir) true 50 16000 ;;
         let objs := List.map preprocess (objects result) in
         let parent_idxs := parent_idxs_from 0 objs in
         objs' <- classify_objects static_dir use_llm objs parent_idxs 0 objs ;;
         ret (result, objs')) w with
  | (Ok (result, objs), w') => (Results result objs, w')
  | (Raise e, w') => (ErrorPage e, w')
  end.

End Analyze.

End Routes.

(* ================================================================== *)
(** * app/agents/notify_agent.py *)
(* ================================================================== *)

Module Notify.

Section Message.

(** [_percent]: the text of a confidence as a percentage with one decimal;
    the formatting of the float is left to the interpreter. *)
Variable _percent : Q -> pystr.

Definition quoted (s : pystr) : pystr := [34%N] ++ s ++ [34%N].

Definition format_weee_message_pt (result : Classifier.ClassificationResult)
  : pystr :=
  let cat := Classifier.res_category result in
  let cid := option_map fst cat in
  let cname := option_map snd cat in
  let conf := Classifier.res_confidence result in
  let obj := Classifier.res_top_object result in
  let obj_name := match obj with Some o => name o | None => None end in
  let obj_caption := match obj with Some o => caption o | None => None end in
  let parts :=
    if match Classifier.res_filtered result with
       | Some (reason, _) => PyStr.eqb reason (u "non_eee")
       | None => false
       end
    then [u "Não parece ser um resíduo de EEE (WEEE)."]
    else
      (if Routes.int_truthy cid || truthy cname
       then [u "Classificação WEEE: " ++ Routes.category_label cid cname]
       else [])
      ++ (if truthy obj_name
          then [u "Objeto detectado: " ++ or_empty obj_name] else [])
      ++ (if truthy obj_caption
          then [u "Legenda do recorte: " ++ quoted (or_empty obj_caption)]
          else [])
      ++ (if truthy (Classifier.res_image_caption result)
          then [u "Legenda geral: "
                ++ quoted (or_empty (Classifier.res_image_caption result))]
          else [])
      ++ [u "Confiança visual: " ++ _percent conf] in
  join [10%N] parts.

End Message.

End Notify.

(* ================================================================== *)
(** * The routes at the end of app/agents/weee_classifier.py *)
(* ================================================================== *)

Module Blueprint.

(** [rel = crop_url.lstrip("/static/")] and [crop_path = static_dir / rel]
    in the route [analyze] of the blueprint. *)
Definition crop_rel (crop_url : pystr) : pystr :=
  lstrip_chars (u "/static/") crop_url.

Definition crop_path (static_dir crop_url : pystr) : pystr :=
  Routes.path_div static_dir (crop_rel crop_url).

End Blueprint.

Import Classifier.

(* ================================================================== *)
(** * Vocabulary of the statements and example inputs *)
(* ================================================================== *)

Module Spec.

(** Intersection area and union area of two boxes, as [_iou] computes them. *)
Definition inter_area (a b : BBox) : Z :=
  Z.max 0 (Z.min (bx a + bw a) (bx b + bw b) - Z.max (bx a) (bx b))
  * Z.max 0 (Z.min (by_ a + bh a) (by_ b + bh b) - Z.max (by_ a) (by_ b)).

Definition union_area (a b : BBox) : Z :=
  bw a * bh a + bw b * bh b - inter_area a b.

(** A rectangle has a positive width and a positive height. *)
Definition rectangle (a : BBox) : Prop := 0 < bw a /\ 0 < bh a.

(** Two rectangles are disjoint when one lies entirely to one side of the
    other (touching edges included). *)
Definition disjoint (a b : BBox) : Prop :=
  bx a + bw a <= bx b \/ bx b + bw b <= bx a \/
  by_ a + bh a <= by_ b \/ by_ b + bh b <= by_ a.

(** The crops of the objects of a provider answer, as [analyze_image_bytes]
    computes them. *)
Definition detections (analysis : Analysis) : list Detection :=
  match an_objects analysis with
  | Some l => l
  | None => []
  end.

Definition detection_crops (pil_img : Image) (analysis : Analysis) : list Image :=
  _crop_regions pil_img
    (List.map bbox_of_detection (detections analysis)).

(** [k] matches [text]: it is a substring of the stripped, lower-cased text. *)
Definition keyword_match (unicode_lower : pystr -> pystr) (k text : pystr)
  : Prop :=
  contains k (_norm unicode_lower (Some text)) = true.



(** All keyword scores are zero. *)
Definition all_zero (scores : list (Z * Z)) : Prop :=
  forall cid s, In (cid, s) scores -> s = 0.

(** Position of a category in the preference order (6 when it is not there). *)
Definition pref_rank (cid : Z) : nat :=
  match index_of cid pref with
  | Ok i => i
  | Raise _ => List.length pref
  end.

(** The preference order as the specification states it, written out here
    and compared with the constant [pref] of the code. *)
Definition stated_order : list Z := [1; 2; 3; 6; 4; 5].

(** Position of [x] in [l], the length of [l] when it does not occur. *)
Fixpoint position (x : Z) (l : list Z) : nat :=
  match l with
  | [] => O
  | y :: rest => if y =? x then O else S (position x rest)
  end.

Definition stated_rank (cid : Z) : nat := position cid stated_order.

(** The object has a non-empty caption. *)
Definition captioned (o : DetectedObject) : Prop := truthy (caption o) = true.

(** The confidence of an object as the data model has it: the value of the
    field [confidence], and 0.0 for an object that carries none. *)
Definition stated_confidence (o : DetectedObject) : Q :=
  match confidence o with
  | Some c => c
  | None => 0%Q
  end.

(** The two null-or-not fields of a classification result. *)
Definition has_category (r : ClassificationResult) : Prop :=
  res_category r <> None.

Definition is_filtered (r : ClassificationResult) : Prop :=
  res_filtered r <> None.

(** One turn of the loop of [_pick_best_object]. *)
Definition pick_step (best o : DetectedObject) : DetectedObject :=
  if PyFloat.gtb (get_confidence o) (get_confidence best) then o
  else if PyFloat.eqb (get_confidence o) (get_confidence best) then
    if truthy (caption o) && negb (truthy (caption best)) then o else best
  else best.

(** [selected pre best post]: in the list [pre ++ best :: post] the object
    [best] beats every other one.  An object seen earlier has a lower
    confidence, or the same confidence and no caption while [best] has one;
    an object seen later has a lower confidence, or the same confidence
    without being captioned while [best] is not. *)
Definition selected (pre : list DetectedObject) (best : DetectedObject)
    (post : list DetectedObject) : Prop :=
  (forall o, In o pre ->
     (stated_confidence o < stated_confidence best)%Q \/
     ((stated_confidence o == stated_confidence best)%Q /\
      ~ captioned o /\ captioned best)) /\
  (forall o, In o post ->
     (stated_confidence o < stated_confidence best)%Q \/
     ((stated_confidence o == stated_confidence best)%Q /\
      (captioned best \/ ~ captioned o))).

End Spec.

Module Examples.

(** A provider that never fails and finds nothing. *)
Definition no_agent : Z -> option pystr -> option DetectedObject ->
                      option pystr -> option Q -> option pystr :=
  fun _ _ _ _ _ => None.

(** A provider in the manner of the [DummyClient] of [tests/test_vision.py]:
    a request with [OBJECTS] gets one object, tagged [tag] with confidence
    [conf], and the scene caption [scene]; a caption request on a crop gets
    [crop_answer]. *)
Definition one_object_provider (tag : pystr) (conf : Q)
    (scene : option pystr) (box : BBox) (crop_answer : result Analysis)
  : nat -> ImageBytes -> list VisualFeature -> result Analysis :=
  fun _ _ features =>
    if existsb (fun f => match f with
                         | OBJECTS => true
                         | CAPTION => false
                         end) features
    then Ok (mkAnalysis scene
               (Some [mkDetection box None None [mkTag (Some tag) (Some conf)]]))
    else crop_answer.

Definition world_of (p : nat -> ImageBytes -> list VisualFeature -> result Analysis)
  : World :=
  mkWorld p 0 (fun _ => u "0123456789abcdef0123456789abcdef") 0 [] no_agent.

(** A 100 x 100 upload. *)
Definition upload : ImageBytes := ImageFile (mkImage 100 100 (Source 1)).

(** The test's world: a car, captioned. *)
Definition car_world : World :=
  world_of (one_object_provider (u "car") (88 # 100)
              (Some (u "street with cars")) (mkBBox 10 10 50 50)
              (Ok (mkAnalysis (Some (u "a car")) None))).

(** The same, but the provider fails on the caption of the crop. *)
Definition crop_failure_world : World :=
  world_of (one_object_provider (u "car") (88 # 100)
              (Some (u "street with cars")) (mkBBox 10 10 50 50)
              (Raise (ProviderError 503))).

(** The same picture with a provider that answers every request but the
    caption of a 50 x 50 image, which is the crop of the car. *)
Definition crop_only_failure_world : World :=
  world_of (fun _ img features =>
              if existsb (fun f => match f with
                                   | OBJECTS => true
                                   | CAPTION => false
                                   end) features
              then Ok (mkAnalysis (Some (u "street with cars"))
                         (Some [mkDetection (mkBBox 10 10 50 50) None None
                                  [mkTag (Some (u "car")) (Some (88 # 100))]]))
              else
                match img with
                | ImageFile i =>
                    if (img_w i =? 50) && (img_h i =? 50)
                    then Raise (ProviderError 503)
                    else Ok (mkAnalysis (Some (u "a street")) None)
                | NotAnImage _ => Ok (mkAnalysis None None)
                end).

(** One object named [tag] with confidence 0.9, no caption for the crop and
    no scene caption. *)
Definition sole_object_world (tag : pystr) (box : BBox) : World :=
  world_of (one_object_provider tag (9 # 10) None box
              (Ok (mkAnalysis None None))).

(** The picture of the end-to-end example: a 100 x 100 upload whose only
    detection is a 30 x 30 box tagged "refrigerator". *)
Definition refrigerator_world : World :=
  sole_object_world (u "refrigerator") (mkBBox 10 10 30 30).

Definition refrigerador_world : World :=
  sole_object_world (u "refrigerador") (mkBBox 10 10 30 30).

(** A 300 x 300 upload in which the provider detects nothing and captions
    every cell of the grid alike. *)
Definition wide_upload : ImageBytes := ImageFile (mkImage 300 300 (Source 2)).

Definition empty_scene_world : World :=
  world_of (fun _ _ features =>
              if existsb (fun f => match f with
                                   | OBJECTS => true
                                   | CAPTION => false
                                   end) features
              then Ok (mkAnalysis None (Some []))
              else Ok (mkAnalysis (Some (u "a desk")) None)).

(** Two detections, the first of them outside the picture. *)
Definition shifted_world : World :=
  world_of (fun _ _ features =>
              if existsb (fun f => match f with
                                   | OBJECTS => true
                                   | CAPTION => false
                                   end) features
              then Ok (mkAnalysis None
                         (Some [mkDetection (mkBBox 200 200 20 20) (Some (u "lamp"))
                                  (Some (7 # 10)) [];
                                mkDetection (mkBBox 10 10 50 50) (Some (u "laptop"))
                                  (Some (9 # 10)) []]))
              else Ok (mkAnalysis (Some (u "a laptop")) None)).

Definition zero_scores : list (Z * Z) :=
  [(1, 0); (2, 0); (3, 0); (4, 0); (5, 0); (6, 0)].

Definition plain_object (n : pystr) (c : Q) (cap : option pystr)
  : DetectedObject :=
  mkObject (Some n) (Some c) (Some (mkBBox 0 0 10 10)) None cap.

(** Three detections: two tie at 0.8, only the later of them is captioned. *)
Definition tied_objects : list DetectedObject :=
  [ plain_object (u "monitor") (8 # 10) None;
    plain_object (u "cable") (3 # 10) (Some (u "a cable"));
    plain_object (u "laptop") (4 # 5) (Some (u "a laptop on a desk")) ].

End Examples.

(* ================================================================== *)
(** * Further vocabulary *)
(* ================================================================== *)

Module MoreSpec.

(** Width and height are not negative. *)
Definition nonneg_box (a : BBox) : Prop := 0 <= bw a /\ 0 <= bh a.

(** The rectangle [a] lies within the rectangle [b]. *)
Definition inside (a b : BBox) : Prop :=
  bx b <= bx a /\ bx a + bw a <= bx b + bw b /\
  by_ b <= by_ a /\ by_ a + bh a <= by_ b + bh b.

(** The box lies within an image, and is a rectangle. *)
Definition box_in_image (img : Image) (r : BBox) : Prop :=
  0 <= bx r /\ 0 <= by_ r /\ 0 < bw r /\ 0 < bh r /\
  bx r + bw r <= img_w img /\ by_ r + bh r <= img_h img.

(** What every object of a detector result carries. *)
Definition well_formed (o : DetectedObject) : Prop :=
  truthy (name o) = true /\ confidence o <> None /\ bbox o <> None.

(** A pseudo-object of the grid fallback. *)
Definition pseudo_object (o : DetectedObject) : Prop :=
  confidence o = Some 0%Q /\ name o = caption o /\ truthy (caption o) = true.

Definition has_crop (o : DetectedObject) : bool := negb (is_none (crop_url o)).

(** The directories and names that [analyze_image_bytes] uses in a world. *)
Definition base_static_of (static_dir : option pystr) : pystr :=
  match static_dir with
  | Some d => d
  | None => default_static
  end.

Definition session_of (w : World) : pystr := uuid_hex w (drawn w).

Definition crops_dir_of (static_dir : option pystr) (w : World) : pystr :=
  path_join (path_join (base_static_of static_dir) (u "crops")) (session_of w).

Definition original_path_of (static_dir : option pystr) (w : World) : pystr :=
  path_join (path_join (path_join (base_static_of static_dir) (u "uploads"))
               (session_of w)) (u "original.jpg").

(** Name and URL of the crop of the object at [idx], and of the [n]-th cell
    kept by the grid fallback. *)
Definition crop_name (idx : nat) : pystr :=
  u "obj_" ++ format_03d (N.of_nat idx) ++ u ".jpg".

Definition extra_name (n : nat) : pystr :=
  u "extra_" ++ format_03d (N.of_nat n) ++ u ".jpg".

Definition crop_url_of (session_id name : pystr) : pystr :=
  u "/static/crops/" ++ session_id ++ u "/" ++ name.

(** The pseudo-object that a cell of the grid adds. *)
Definition cell_object (sid : pystr) (st : GridState) (box : BBox)
    (extra_caption : pystr) : DetectedObject :=
  mkObject (Some extra_caption) (Some 0%Q) (Some box)
    (Some (crop_url_of sid (extra_name (g_added st)))) (Some extra_caption).

(** The world once the session is opened, the original saved and the
    provider asked about the whole image. *)
Definition world_after_primary (static_dir : option pystr) (pil_img : Image)
    (w : World) : World :=
  mkWorld (provider w) (S (calls w)) (uuid_hex w) (S (drawn w))
          ((original_path_of static_dir w, _image_to_bytes pil_img) :: files w)
          (agent_service w).


(** The keywords that the categories 2 and 6 have in common, and those that
    only category 6 has. *)
Definition shared_2_6 : list pystr :=
  List.map u ["laptop"; "notebook"; "tablet"]%string.

Definition own_keywords_6 : list pystr :=
  List.map u
    ["celular"; "telefone"; "smartphone"; "phone"; "pc pequeno"; "mini pc";
     "router"; "roteador"; "gps"; "calculadora"; "calculator"; "modem";
     "printer"; "impressora"]%string.

(** The states in which the route [analyze] can leave an object: without a
    category; ignored as not being electrical equipment; ignored as a part
    of a detected object that it overlaps; or with one of the six
    categories, written "id - name". *)
Definition not_classified (o : Routes.RouteObject) : Prop :=
  Routes.weee_category o = None /\
  Routes.weee_category_id o = None /\ Routes.weee_category_name o = None.

Definition ignored_as_non_eee (o : Routes.RouteObject) : Prop :=
  Routes.weee_category o = Some Routes.ignored_non_eee /\
  Routes.weee_category_id o = None /\ Routes.weee_category_name o = None.

Definition ignored_as_part (detector_objects : list DetectedObject)
    (o : Routes.RouteObject) : Prop :=
  exists parent b pb,
    In parent detector_objects /\
    bbox (Routes.detected o) = Some b /\ bbox parent = Some pb /\
    PyFloat.geb (Routes._bbox_iou b pb) (1 # 5) = true /\
    Routes.weee_category o = Some (Routes.ignored_part_of parent) /\
    Routes.weee_category_id o = None /\ Routes.weee_category_name o = None.

Definition classified (o : Routes.RouteObject) : Prop :=
  exists cid cname,
    In (cid, cname) CATEGORIES /\
    Routes.weee_category_id o = Some cid /\
    Routes.weee_category_name o = Some cname /\
    Routes.weee_category o = Some (of_Z cid ++ u " - " ++ cname).

Definition route_outcome (detector_objects : list DetectedObject)
    (o : Routes.RouteObject) : Prop :=
  not_classified o \/ ignored_as_non_eee o \/
  ignored_as_part detector_objects o \/ classified o.

(** The lines of the notification for a result that is not filtered and has
    the category [(cid, cname)]. *)
Definition message_lines (_percent : Q -> pystr) (r : ClassificationResult)
    (cid : Z) (cname : pystr) : list pystr :=
  [u "Classificação WEEE: " ++ of_Z cid ++ u " - " ++ cname]
  ++ match res_top_object r with
     | Some o =>
         [u "Objeto detectado: " ++ or_empty (name o)]
         ++ (if truthy (caption o)
             then [u "Legenda do recorte: " ++ Notify.quoted (or_empty (caption o))]
             else [])
     | None => []
     end
  ++ (if truthy (res_image_caption r)
      then [u "Legenda geral: " ++ Notify.quoted (or_empty (res_image_caption r))]
      else [])
  ++ [u "Confiança visual: " ++ _percent (res_confidence r)].

(** The largest integer up to which binary64 holds every integer. *)
Definition exact_int_bound : Z := 2 ^ 53.



End MoreSpec.

(* ================================================================== *)
(** * Properties of the string operations *)
(* ================================================================== *)

Module PyStrProps.

Import Spec.

Lemma startswith_iff (t k : pystr) :
  startswith t k = true <-> exists post, t = k ++ post.
Proof.
  revert t. induction k as [| x k IH]; intros t; simpl.
  - split; [intros _; now exists t | intros _; destruct t; reflexivity].
  - destruct t as [| y t].
    + split; [discriminate | intros [post H]; discriminate].
    + cbn [startswith]. rewrite andb_true_iff, N.eqb_eq, IH. split.
      * intros [-> [post ->]]. now exists post.
      * intros [post H]. inversion H. split; [reflexivity | now exists post].
Qed.
















End PyStrProps.

(* ================================================================== *)
(** * Properties of the boxes and of the image normalizer *)
(* ================================================================== *)

Module VisionProps.

Import Spec.

Lemma iou_unfold (a b : BBox) :
  _iou a b =
  if union_area a b <=? 0 then 0%Q
  else PyFloat.truediv (inter_area a b) (union_area a b).
Proof. reflexivity. Qed.

Lemma bbox_iou_unfold (a b : BBox) :
  Routes._bbox_iou a b =
  if 0 <? union_area a b then PyFloat.truediv (inter_area a b) (union_area a b)
  else 0%Q.
Proof. reflexivity. Qed.

(** The two implementations agree. *)
Lemma bbox_iou_is_iou (a b : BBox) : Routes._bbox_iou a b = _iou a b.
Proof.
  rewrite iou_unfold, bbox_iou_unfold.
  destruct (Z.leb_spec (union_area a b) 0) as [Hle | Hlt];
    destruct (Z.ltb_spec 0 (union_area a b)) as [Hlt' | Hle']; try lia; reflexivity.
Qed.

Lemma inter_area_comm (a b : BBox) : inter_area a b = inter_area b a.
Proof.
  unfold inter_area.
  rewrite (Z.min_comm (bx a + bw a)), (Z.max_comm (bx a)).
  rewrite (Z.min_comm (by_ a + bh a)), (Z.max_comm (by_ a)).
  reflexivity.
Qed.

Lemma union_area_comm (a b : BBox) : union_area a b = union_area b a.
Proof. unfold union_area. rewrite inter_area_comm. lia. Qed.

Lemma inter_area_self (a : BBox) :
  rectangle a -> inter_area a a = bw a * bh a.
Proof.
  intros [Hw Hh]. unfold inter_area.
  rewrite !Z.min_id, !Z.max_id.
  replace (bx a + bw a - bx a) with (bw a) by lia.
  replace (by_ a + bh a - by_ a) with (bh a) by lia.
  rewrite !Z.max_r by lia. reflexivity.
Qed.

Lemma inter_area_disjoint (a b : BBox) : disjoint a b -> inter_area a b = 0.
Proof.
  unfold disjoint, inter_area. intros H.
  destruct H as [H | [H | [H | H]]].
  - rewrite (Z.max_l 0 (Z.min (bx a + bw a) (bx b + bw b) - Z.max (bx a) (bx b))) by lia.
    reflexivity.
  - rewrite (Z.max_l 0 (Z.min (bx a + bw a) (bx b + bw b) - Z.max (bx a) (bx b))) by lia.
    reflexivity.
  - rewrite (Z.max_l 0 (Z.min (by_ a + bh a) (by_ b + bh b) - Z.max (by_ a) (by_ b))) by lia.
    lia.
  - rewrite (Z.max_l 0 (Z.min (by_ a + bh a) (by_ b + bh b) - Z.max (by_ a) (by_ b))) by lia.
    lia.
Qed.

Lemma truediv_zero (d : Z) : PyFloat.truediv 0 d = 0%Q.
Proof. reflexivity. Qed.

Lemma truediv_self (d : Z) : 0 < d -> PyFloat.truediv d d = 1%Q.
Proof.
  intros Hd. unfold PyFloat.truediv.
  change 1%Q with (Qred 1%Q).
  apply Qred_complete.
  unfold Qeq. simpl. rewrite Z2Pos.id by lia. lia.
Qed.

Lemma truediv_value (n d : Z) :
  0 < d -> (PyFloat.truediv n d == inject_Z n / inject_Z d)%Q.
Proof.
  intros Hd. unfold PyFloat.truediv. rewrite Qred_correct.
  rewrite (Qmake_Qdiv n (Z.to_pos d)).
  rewrite Z2Pos.id by lia. reflexivity.
Qed.

(** C6. The IoU of [_iou] (vision.py) and of [_bbox_iou] (routes.py) is
    symmetric in its two boxes; it is 1 for two identical rectangles and 0
    for two disjoint rectangles; it is 0 when the union area is not
    positive, and otherwise it is the intersection area divided by the union
    area. *)
Theorem iou_symmetric_identical_disjoint :
  (forall a b : BBox,
      _iou a b = _iou b a /\ Routes._bbox_iou a b = Routes._bbox_iou b a) /\
  (forall a : BBox,
      rectangle a -> _iou a a = 1%Q /\ Routes._bbox_iou a a = 1%Q) /\
  (forall a b : BBox,
      disjoint a b -> _iou a b = 0%Q /\ Routes._bbox_iou a b = 0%Q) /\
  (forall a b : BBox,
      union_area a b <= 0 -> _iou a b = 0%Q /\ Routes._bbox_iou a b = 0%Q) /\
  (forall a b : BBox,
      0 < union_area a b ->
      (_iou a b == inject_Z (inter_area a b) / inject_Z (union_area a b))%Q /\
      Routes._bbox_iou a b = _iou a b).
Proof.
  repeat split.
  - rewrite !iou_unfold, union_area_comm, inter_area_comm. reflexivity.
  - rewrite !bbox_iou_unfold, union_area_comm, inter_area_comm. reflexivity.
  - rewrite iou_unfold. unfold union_area. rewrite (inter_area_self a H).
    destruct H as [Hw Hh].
    assert (Hpos : 0 < bw a * bh a) by nia.
    replace (bw a * bh a + bw a * bh a - bw a * bh a) with (bw a * bh a) by lia.
    destruct (Z.leb_spec (bw a * bh a) 0); [lia |].
    now apply truediv_self.
  - rewrite bbox_iou_is_iou, iou_unfold. unfold union_area.
    rewrite (inter_area_self a H).
    destruct H as [Hw Hh].
    assert (Hpos : 0 < bw a * bh a) by nia.
    replace (bw a * bh a + bw a * bh a - bw a * bh a) with (bw a * bh a) by lia.
    destruct (Z.leb_spec (bw a * bh a) 0); [lia |].
    now apply truediv_self.
  - rewrite iou_unfold, (inter_area_disjoint a b H).
    destruct (union_area a b <=? 0); [reflexivity | apply truediv_zero].
  - rewrite bbox_iou_is_iou, iou_unfold, (inter_area_disjoint a b H).
    destruct (union_area a b <=? 0); [reflexivity | apply truediv_zero].
  - rewrite iou_unfold.
    destruct (Z.leb_spec (union_area a b) 0); [reflexivity | lia].
  - rewrite bbox_iou_is_iou, iou_unfold.
    destruct (Z.leb_spec (union_area a b) 0); [reflexivity | lia].
  - rewrite iou_unfold.
    destruct (Z.leb_spec (union_area a b) 0); [lia |].
    now apply truediv_value.
  - apply bbox_iou_is_iou.
Qed.

Lemma iou_symmetric_identical_disjoint_witness :
  (rectangle (mkBBox 0 0 4 3) /\ _iou (mkBBox 0 0 4 3) (mkBBox 0 0 4 3) = 1%Q) /\
  (disjoint (mkBBox 0 0 2 2) (mkBBox 5 5 2 2) /\
   _iou (mkBBox 0 0 2 2) (mkBBox 5 5 2 2) = 0%Q) /\
  (union_area (mkBBox 1 1 0 7) (mkBBox 1 1 0 7) <= 0 /\
   _iou (mkBBox 1 1 0 7) (mkBBox 1 1 0 7) = 0%Q).
Proof.
  split; [| split].
  - split; [split; simpl; lia |].
    apply (proj1 (proj2 iou_symmetric_identical_disjoint)).
    split; simpl; lia.
  - split; [left; simpl; lia |].
    apply (proj1 (proj2 (proj2 iou_symmetric_identical_disjoint))).
    left; simpl; lia.
  - split; [vm_compute; discriminate |].
    apply (proj1 (proj2 (proj2 (proj2 iou_symmetric_identical_disjoint)))).
    vm_compute; discriminate.
Defined.

(** Overlapping boxes have a proper fraction as IoU. *)
Example iou_half_overlap : _iou (mkBBox 0 0 10 10) (mkBBox 5 5 10 10) = (1 # 7)%Q.
Proof. reflexivity. Qed.

(** C7. An image whose shorter side is at least 50 pixels and whose longer
    side is at most 16000 pixels comes back from [_resize_to_valid] as it
    is: the very same image, no resize applied. *)
Theorem resize_to_valid_within_bounds (img : Image) :
  50 <= Z.min (img_w img) (img_h img) ->
  Z.max (img_w img) (img_h img) <= 16000 ->
  _resize_to_valid img 50 16000 = Ok img.
Proof.
  intros Hmin Hmax. unfold _resize_to_valid.
  (* neither test fires, so [scale] is still the literal 1.0 *)
  destruct (Z.ltb_spec (Z.min (img_w img) (img_h img)) 50) as [H | _]; [lia |].
  destruct (Z.ltb_spec 16000 (Z.max (img_w img) (img_h img))) as [H | _]; [lia |].
  reflexivity.
Qed.

Lemma resize_to_valid_within_bounds_witness :
  _resize_to_valid (mkImage 640 480 (Source 7)) 50 16000
  = Ok (mkImage 640 480 (Source 7)).
Proof.
  apply (resize_to_valid_within_bounds (mkImage 640 480 (Source 7)));
    simpl; lia.
Defined.

(** Outside the bounds the image is rescaled. *)
Example resize_small : _resize_to_valid (mkImage 24 30 (Source 1)) 50 16000
                       = Ok (mkImage 50 63 (Bicubic (Source 1) 50 63)).
Proof. vm_compute. reflexivity. Qed.

Example resize_large : _resize_to_valid (mkImage 32000 8000 (Source 1)) 50 16000
                       = Ok (mkImage 16000 4000 (Bicubic (Source 1) 16000 4000)).
Proof. vm_compute. reflexivity. Qed.

(** ** Running the monad *)

Lemma run_bind {A B : Type} (m : M A) (k : A -> M B) (w : World) :
  bind m k w = match m w with
               | (Ok a, w') => k a w'
               | (Raise e, w') => (Raise e, w')
               end.
Proof. reflexivity. Qed.

Lemma bind_ok {A B : Type} (m : M A) (k : A -> M B) (w w' : World) (a : A) :
  m w = (Ok a, w') -> bind m k w = k a w'.
Proof. intros H. rewrite run_bind, H. reflexivity. Qed.

Lemma bind_raise {A B : Type} (m : M A) (k : A -> M B) (w w' : World) (e : exn) :
  m w = (Raise e, w') -> bind m k w = (Raise e, w').
Proof. intros H. rewrite run_bind, H. reflexivity. Qed.

Lemma bind_inv {A B : Type} (m : M A) (k : A -> M B) (w w2 : World) (b : B) :
  bind m k w = (Ok b, w2) ->
  exists a w1, m w = (Ok a, w1) /\ k a w1 = (Ok b, w2).
Proof.
  rewrite run_bind. destruct (m w) as [[a | e] w1]; intros H.
  - now exists a, w1.
  - discriminate.
Qed.

Lemma run_save (b : ImageBytes) (path : pystr) (w : World) :
  exists w', _save_image_bytes b path w = (Ok tt, w') /\
             provider w' = provider w /\ calls w' = calls w.
Proof. eexists. split; [reflexivity | split; reflexivity]. Qed.

Lemma run_analyze (b : ImageBytes) (fs : list VisualFeature) (w : World) :
  exists w', analyze b fs w = (provider w (calls w) b fs, w') /\
             provider w' = provider w /\ calls w' = S (calls w).
Proof. eexists. split; [reflexivity | split; reflexivity]. Qed.

(** ** A failing caption call *)

(** If the provider fails on the caption call made for the [j]-th of the
    remaining objects, that is on the bytes of its crop once resized, the
    loop raises. *)
Lemma caption_objects_failure (sid dir : pystr) (min_side max_side : Z)
    (crops : list Image) (e : exn) (crop_img crop_for_vision : Image)
    (objs : list DetectedObject) :
  forall (idx j : nat) (w : World),
    (j < List.length objs)%nat ->
    nth_error crops (idx + j) = Some crop_img ->
    _resize_to_valid crop_img min_side max_side = Ok crop_for_vision ->
    provider w (calls w + j)%nat (_image_to_bytes crop_for_vision) [CAPTION]
    = Raise e ->
    exists e' w',
      caption_objects sid dir min_side max_side crops idx objs w = (Raise e', w').
Proof.
  induction objs as [| obj rest IH]; intros idx j w Hj Hcrop Hres Hfail.
  - simpl in Hj. lia.
  - cbn [caption_objects].
    destruct (nth_error crops idx) as [crop0 |] eqn:Ecrop.
    2:{ apply nth_error_None in Ecrop.
        assert (Hlt : (idx + j < List.length crops)%nat)
          by (apply nth_error_Some; congruence).
        lia. }
    rewrite run_bind, run_bind.
    destruct (run_save (_image_to_bytes crop0)
                (path_join dir (u "obj_" ++ format_03d (N.of_nat idx) ++ u ".jpg")) w)
      as (w1 & -> & Hp1 & Hc1).
    rewrite run_bind. unfold lift at 1.
    destruct j as [| j'].
    + rewrite Nat.add_0_r in Hcrop, Hfail.
      rewrite Ecrop in Hcrop. injection Hcrop as ->.
      rewrite Hres. rewrite run_bind.
      destruct (run_analyze (_image_to_bytes crop_for_vision) [CAPTION] w1)
        as (w2 & -> & Hp2 & Hc2).
      rewrite Hp1, Hc1, Hfail. now exists e, w2.
    + destruct (_resize_to_valid crop0 min_side max_side) as [cfv0 | e1].
      2:{ now exists e1, w1. }
      rewrite run_bind.
      destruct (run_analyze (_image_to_bytes cfv0) [CAPTION] w1)
        as (w2 & -> & Hp2 & Hc2).
      rewrite Hp1, Hc1.
      destruct (provider w (calls w) (_image_to_bytes cfv0) [CAPTION])
        as [crop_analysis | e2].
      2:{ now exists e2, w2. }
      unfold ret at 1.
      rewrite run_bind.
      destruct (IH (S idx) j' w2) as (e' & w' & ->).
      * simpl in Hj. lia.
      * replace (S idx + j')%nat with (idx + S j')%nat by lia. exact Hcrop.
      * exact Hres.
      * rewrite Hp2, Hp1, Hc2, Hc1.
        replace (S (calls w) + j')%nat with (calls w + S j')%nat by lia.
        exact Hfail.
      * now exists e', w'.
Qed.

(** When moreover the caption calls made before, each on the bytes of its
    own resized crop, are answered, the exception raised is the
    provider's own. *)
Lemma caption_objects_failure_exact (sid dir : pystr) (min_side max_side : Z)
    (crops : list Image) (e : exn) (crop_img crop_for_vision : Image)
    (objs : list DetectedObject) :
  forall (idx j : nat) (w : World),
    (j < List.length objs)%nat ->
    nth_error crops (idx + j) = Some crop_img ->
    _resize_to_valid crop_img min_side max_side = Ok crop_for_vision ->
    (forall i, (i < j)%nat ->
       exists c c' a,
         nth_error crops (idx + i) = Some c /\
         _resize_to_valid c min_side max_side = Ok c' /\
         provider w (calls w + i)%nat (_image_to_bytes c') [CAPTION] = Ok a) ->
    provider w (calls w + j)%nat (_image_to_bytes crop_for_vision) [CAPTION]
    = Raise e ->
    exists w',
      caption_objects sid dir min_side max_side crops idx objs w = (Raise e, w').
Proof.
  induction objs as [| obj rest IH];
    intros idx j w Hj Hcrop Hres Hbefore Hfail.
  - simpl in Hj. lia.
  - cbn [caption_objects].
    destruct j as [| j'].
    + rewrite Nat.add_0_r in Hcrop, Hfail. rewrite Hcrop.
      rewrite run_bind, run_bind.
      destruct (run_save (_image_to_bytes crop_img)
                  (path_join dir (u "obj_" ++ format_03d (N.of_nat idx) ++ u ".jpg")) w)
        as (w1 & -> & Hp1 & Hc1).
      rewrite run_bind. unfold lift at 1. rewrite Hres. rewrite run_bind.
      destruct (run_analyze (_image_to_bytes crop_for_vision) [CAPTION] w1)
        as (w2 & -> & Hp2 & Hc2).
      rewrite Hp1, Hc1, Hfail. now exists w2.
    + destruct (Hbefore O ltac:(lia)) as (c & c' & a & Hc & Hr & Ha).
      rewrite Nat.add_0_r in Hc, Ha. rewrite Hc.
      rewrite run_bind, run_bind.
      destruct (run_save (_image_to_bytes c)
                  (path_join dir (u "obj_" ++ format_03d (N.of_nat idx) ++ u ".jpg")) w)
        as (w1 & -> & Hp1 & Hc1).
      rewrite run_bind. unfold lift at 1. rewrite Hr. rewrite run_bind.
      destruct (run_analyze (_image_to_bytes c') [CAPTION] w1)
        as (w2 & -> & Hp2 & Hc2).
      rewrite Hp1, Hc1, Ha.
      unfold ret at 1. rewrite run_bind.
      destruct (IH (S idx) j' w2) as (w' & ->).
      * simpl in Hj. lia.
      * replace (S idx + j')%nat with (idx + S j')%nat by lia. exact Hcrop.
      * exact Hres.
      * intros i Hi.
        destruct (Hbefore (S i) ltac:(lia)) as (ci & ci' & ai & H1 & H2 & H3).
        exists ci, ci', ai.
        split; [replace (S idx + i)%nat with (idx + S i)%nat by lia; exact H1 |].
        split; [exact H2 |].
        rewrite Hp2, Hp1, Hc2, Hc1.
        replace (S (calls w) + i)%nat with (calls w + S i)%nat by lia.
        exact H3.
      * rewrite Hp2, Hp1, Hc2, Hc1.
        replace (S (calls w) + j')%nat with (calls w + S j')%nat by lia.
        exact Hfail.
      * now exists w'.
Qed.

Lemma run_uuid4 (w : World) :
  exists w', uuid4_hex w = (Ok (uuid_hex w (drawn w)), w') /\
             provider w' = provider w /\ calls w' = calls w.
Proof. eexists. split; [reflexivity | split; reflexivity]. Qed.

(** The detector raises when the caption call of its [k]-th crop fails. *)
Lemma analyze_image_bytes_failure (image_bytes : ImageBytes)
    (static_dir : option pystr) (enable_grid_fallback : bool)
    (min_side max_side : Z) (w : World)
    (pil_img0 pil_img crop_img crop_for_vision : Image) (analysis : Analysis)
    (k : nat) (e : exn) :
  image_open image_bytes = Ok pil_img0 ->
  _resize_to_valid pil_img0 min_side max_side = Ok pil_img ->
  provider w (calls w) (_image_to_bytes pil_img) [CAPTION; OBJECTS] = Ok analysis ->
  (k < List.length (detections analysis))%nat ->
  nth_error (detection_crops pil_img analysis) k = Some crop_img ->
  _resize_to_valid crop_img min_side max_side = Ok crop_for_vision ->
  provider w (S (calls w) + k)%nat (_image_to_bytes crop_for_vision) [CAPTION]
  = Raise e ->
  exists e' w',
    analyze_image_bytes image_bytes static_dir enable_grid_fallback
      min_side max_side w = (Raise e', w').
Proof.
  intros Hopen Hresize Hprimary Hk Hcrop Hres Hfail.
  unfold analyze_image_bytes.
  rewrite run_bind.
  destruct (run_uuid4 w) as (w1 & -> & Hp1 & Hc1).
  rewrite run_bind. unfold _ensure_dir at 1, ret at 1.
  rewrite run_bind. unfold _ensure_dir at 1, ret at 1.
  rewrite run_bind. unfold lift at 1. rewrite Hopen.
  rewrite run_bind. unfold lift at 1. rewrite Hresize.
  rewrite run_bind.
  match goal with
  | |- context [_save_image_bytes ?b ?p w1] =>
      destruct (run_save b p w1) as (w2 & -> & Hp2 & Hc2)
  end.
  rewrite run_bind.
  destruct (run_analyze (_image_to_bytes pil_img) [CAPTION; OBJECTS] w2)
    as (w3 & -> & Hp3 & Hc3).
  rewrite Hp2, Hp1, Hc2, Hc1, Hprimary.
  rewrite run_bind.
  match goal with
  | |- context [caption_objects ?sid ?dir min_side max_side ?crops 0 ?objs w3] =>
      destruct (caption_objects_failure sid dir min_side max_side crops e
                  crop_img crop_for_vision objs 0 k w3) as (e' & w' & ->)
  end.
  - now rewrite !length_map.
  - exact Hcrop.
  - exact Hres.
  - rewrite Hp3, Hp2, Hp1, Hc3, Hc2, Hc1. exact Hfail.
  - now exists e', w'.
Qed.

Lemma analyze_image_bytes_failure_exact (image_bytes : ImageBytes)
    (static_dir : option pystr) (enable_grid_fallback : bool)
    (min_side max_side : Z) (w : World)
    (pil_img0 pil_img crop_img crop_for_vision : Image) (analysis : Analysis)
    (k : nat) (e : exn) :
  image_open image_bytes = Ok pil_img0 ->
  _resize_to_valid pil_img0 min_side max_side = Ok pil_img ->
  provider w (calls w) (_image_to_bytes pil_img) [CAPTION; OBJECTS] = Ok analysis ->
  (k < List.length (detections analysis))%nat ->
  nth_error (detection_crops pil_img analysis) k = Some crop_img ->
  _resize_to_valid crop_img min_side max_side = Ok crop_for_vision ->
  (forall i, (i < k)%nat ->
     exists c c' a,
       nth_error (detection_crops pil_img analysis) i = Some c /\
       _resize_to_valid c min_side max_side = Ok c' /\
       provider w (S (calls w) + i)%nat (_image_to_bytes c') [CAPTION] = Ok a) ->
  provider w (S (calls w) + k)%nat (_image_to_bytes crop_for_vision) [CAPTION]
  = Raise e ->
  exists w',
    analyze_image_bytes image_bytes static_dir enable_grid_fallback
      min_side max_side w = (Raise e, w').
Proof.
  intros Hopen Hresize Hprimary Hk Hcrop Hres Hbefore Hfail.
  unfold analyze_image_bytes.
  rewrite run_bind.
  destruct (run_uuid4 w) as (w1 & -> & Hp1 & Hc1).
  rewrite run_bind. unfold _ensure_dir at 1, ret at 1.
  rewrite run_bind. unfold _ensure_dir at 1, ret at 1.
  rewrite run_bind. unfold lift at 1. rewrite Hopen.
  rewrite run_bind. unfold lift at 1. rewrite Hresize.
  rewrite run_bind.
  match goal with
  | |- context [_save_image_bytes ?b ?p w1] =>
      destruct (run_save b p w1) as (w2 & -> & Hp2 & Hc2)
  end.
  rewrite run_bind.
  destruct (run_analyze (_image_to_bytes pil_img) [CAPTION; OBJECTS] w2)
    as (w3 & -> & Hp3 & Hc3).
  rewrite Hp2, Hp1, Hc2, Hc1, Hprimary.
  rewrite run_bind.
  match goal with
  | |- context [caption_objects ?sid ?dir min_side max_side ?crops 0 ?objs w3] =>
      destruct (caption_objects_failure_exact sid dir min_side max_side crops e
                  crop_img crop_for_vision objs 0 k w3) as (w' & ->)
  end.
  - now rewrite !length_map.
  - exact Hcrop.
  - exact Hres.
  - intros i Hi. destruct (Hbefore i Hi) as (c & c' & a & H1 & H2 & H3).
    exists c, c', a. split; [exact H1 |]. split; [exact H2 |].
    rewrite Hp3, Hp2, Hp1, Hc3, Hc2, Hc1. exact H3.
  - rewrite Hp3, Hp2, Hp1, Hc3, Hc2, Hc1. exact Hfail.
  - now exists w'.
Qed.

(** C8, as the code has it.  Let the [k]-th detected object have a crop.
    When the provider fails on the caption call made for it, that is on the
    bytes of this crop, resized, at the call that follows the one for the
    whole image and those for the crops before, [analyze_image_bytes]
    raises: the caller gets an exception and no detector output, so no
    object is kept without its caption and [classify_image_bytes], which
    calls the detector first, raises as well.  When the caption calls made
    for the crops before it were answered, the exception is the provider's
    own. *)
Theorem caption_failure_propagates (unicode_lower : pystr -> pystr)
    (image_bytes : ImageBytes) (static_dir : option pystr)
    (enable_grid_fallback use_llm_arbiter : bool) (w : World)
    (pil_img0 pil_img crop_img crop_for_vision : Image) (analysis : Analysis)
    (k : nat) (e : exn) :
  image_open image_bytes = Ok pil_img0 ->
  _resize_to_valid pil_img0 50 16000 = Ok pil_img ->
  provider w (calls w) (_image_to_bytes pil_img) [CAPTION; OBJECTS] = Ok analysis ->
  (k < List.length (detections analysis))%nat ->
  nth_error (detection_crops pil_img analysis) k = Some crop_img ->
  _resize_to_valid crop_img 50 16000 = Ok crop_for_vision ->
  provider w (S (calls w) + k)%nat (_image_to_bytes crop_for_vision) [CAPTION]
  = Raise e ->
  (exists e' w',
     analyze_image_bytes image_bytes static_dir enable_grid_fallback
       50 16000 w = (Raise e', w')) /\
  (exists e' w',
     classify_image_bytes unicode_lower image_bytes static_dir
       use_llm_arbiter w = (Raise e', w')) /\
  ((forall i, (i < k)%nat ->
      exists c c' a,
        nth_error (detection_crops pil_img analysis) i = Some c /\
        _resize_to_valid c 50 16000 = Ok c' /\
        provider w (S (calls w) + i)%nat (_image_to_bytes c') [CAPTION] = Ok a) ->
   (exists w',
      analyze_image_bytes image_bytes static_dir enable_grid_fallback
        50 16000 w = (Raise e, w')) /\
   (exists w',
      classify_image_bytes unicode_lower image_bytes static_dir
        use_llm_arbiter w = (Raise e, w'))).
Proof.
  intros Hopen Hresize Hprimary Hk Hcrop Hres Hfail.
  assert (Hclassify : forall e' w',
             analyze_image_bytes image_bytes static_dir false 50 16000 w
             = (Raise e', w') ->
             classify_image_bytes unicode_lower image_bytes static_dir
               use_llm_arbiter w = (Raise e', w')).
  { intros e' w' Hrun. unfold classify_image_bytes. rewrite run_bind.
    unfold visual_agent. rewrite run_bind, Hrun. reflexivity. }
  split; [| split].
  - now apply (analyze_image_bytes_failure image_bytes static_dir
                 enable_grid_fallback 50 16000 w pil_img0 pil_img
                 crop_img crop_for_vision analysis k e).
  - destruct (analyze_image_bytes_failure image_bytes static_dir false 50 16000
                w pil_img0 pil_img crop_img crop_for_vision analysis k e
                Hopen Hresize Hprimary Hk Hcrop Hres Hfail)
      as (e' & w' & Hrun).
    exists e', w'. now apply Hclassify.
  - intros Hbefore. split.
    + now apply (analyze_image_bytes_failure_exact image_bytes static_dir
                   enable_grid_fallback 50 16000 w pil_img0 pil_img
                   crop_img crop_for_vision analysis k e).
    + destruct (analyze_image_bytes_failure_exact image_bytes static_dir false
                  50 16000 w pil_img0 pil_img crop_img crop_for_vision
                  analysis k e
                  Hopen Hresize Hprimary Hk Hcrop Hres Hbefore Hfail)
        as (w' & Hrun).
      exists w'. now apply Hclassify.
Qed.

(** A provider that fails on the crop of the car only, and answers every
    other request. *)
Lemma caption_failure_propagates_witness :
  provider Examples.crop_only_failure_world 1%nat
    (_image_to_bytes (mkImage 100 100 (Source 1))) [CAPTION]
  = Ok (mkAnalysis (Some (u "a street")) None) /\
  (exists w',
     analyze_image_bytes Examples.upload None true 50 16000
       Examples.crop_only_failure_world = (Raise (ProviderError 503), w')) /\
  (exists w',
     classify_image_bytes latin1_lower Examples.upload None false
       Examples.crop_only_failure_world = (Raise (ProviderError 503), w')).
Proof.
  split; [reflexivity |].
  apply (caption_failure_propagates latin1_lower Examples.upload None true false
           Examples.crop_only_failure_world
           (mkImage 100 100 (Source 1)) (mkImage 100 100 (Source 1))
           (crop (mkImage 100 100 (Source 1)) 10 10 60 60)
           (crop (mkImage 100 100 (Source 1)) 10 10 60 60)
           (mkAnalysis (Some (u "street with cars"))
              (Some [mkDetection (mkBBox 10 10 50 50) None None
                       [mkTag (Some (u "car")) (Some (88 # 100))]]))
           0 (ProviderError 503)).
  - reflexivity.
  - reflexivity.
  - reflexivity.
  - simpl. lia.
  - reflexivity.
  - vm_compute. reflexivity.
  - reflexivity.
  - intros i Hi. lia.
Defined.

(** The counterexample to graceful degradation: with one detected car whose
    crop caption call fails, the detector returns no result at all; it
    raises the provider's error, and so does the classifier. *)
Lemma caption_failure_not_graceful :
  fst (analyze_image_bytes Examples.upload None true 50 16000
         Examples.crop_failure_world) = Raise (ProviderError 503) /\
  fst (classify_image_bytes latin1_lower Examples.upload None false
         Examples.crop_failure_world) = Raise (ProviderError 503) /\
  ~ (exists res w',
       analyze_image_bytes Examples.upload None true 50 16000
         Examples.crop_failure_world = (Ok res, w')).
Proof.
  assert (H : fst (analyze_image_bytes Examples.upload None true 50 16000
                     Examples.crop_failure_world) = Raise (ProviderError 503))
    by (vm_compute; reflexivity).
  split; [exact H |].
  split; [vm_compute; reflexivity |].
  intros (res & w' & Hrun). rewrite Hrun in H. discriminate.
Qed.

(** With a provider that answers, the same picture gives the captioned car
    (the scenario of [tests/test_vision.py]). *)
Example caption_success :
  option_map (List.map caption)
    (match fst (analyze_image_bytes Examples.upload None false 50 16000
                  Examples.car_world) with
     | Ok res => Some (objects res)
     | Raise _ => None
     end) = Some [Some (u "a car")].
Proof. vm_compute. reflexivity. Qed.

(** The grid fallback: nothing detected, nine cells scanned, the caption
    kept once. *)
Example grid_fallback_once :
  match fst (analyze_image_bytes Examples.wide_upload None true 50 16000
               Examples.empty_scene_world) with
  | Ok res => List.map (fun o => (name o, confidence o, bbox o)) (objects res)
  | Raise _ => []
  end = [(Some (u "a desk"), Some 0%Q, Some (mkBBox 0 0 100 100))].
Proof. vm_compute. reflexivity. Qed.

End VisionProps.

(* ================================================================== *)
(** * Properties of the classifier *)
(* ================================================================== *)

Module ClassifierProps.

Import Spec Examples.

(** ** Lists and counting *)


Lemma sum_values_shift (l : list Z) (a : Z) :
  fold_left Z.add l a = a + fold_left Z.add l 0.
Proof.
  revert a. induction l as [| x l IH]; intros a; simpl.
  - lia.
  - rewrite (IH (a + x)), (IH x). lia.
Qed.

Lemma sum_values_cons (x : Z) (l : list Z) :
  sum_values (x :: l) = x + sum_values l.
Proof. unfold sum_values. simpl. now rewrite sum_values_shift. Qed.


Section WithLower.

Variable unicode_lower : pystr -> pystr.



(** C10. The one-word text "carro" triggers the non-EEE filter: every
    category keyword score is zero on it, and it is matched by two distinct
    non-EEE keywords, "car" and "carro" (and by no other). *)
Theorem single_word_two_keywords :
  exists text : pystr,
    text = u "carro" /\
    keyword_scores unicode_lower text = zero_scores /\
    In (u "car") NON_EEE_KEYWORDS /\ In (u "carro") NON_EEE_KEYWORDS /\
    u "car" <> u "carro" /\
    keyword_match unicode_lower (u "car") text /\
    keyword_match unicode_lower (u "carro") text /\
    filter (fun k => contains k (_norm unicode_lower (Some text))) NON_EEE_KEYWORDS
      = [u "car"; u "carro"] /\
    _is_non_eee unicode_lower text (keyword_scores unicode_lower text) = true.
Proof.
  exists (u "carro").
  split; [reflexivity |].
  split; [vm_compute; reflexivity |].
  split; [vm_compute; tauto |].
  split; [vm_compute; tauto |].
  split; [vm_compute; discriminate |].
  split; [vm_compute; reflexivity |].
  split; [vm_compute; reflexivity |].
  split; vm_compute; reflexivity.
Qed.

End WithLower.

(** ** Maximum, preference order and sorting *)

Lemma pystr_eqb_eq (a b : pystr) : PyStr.eqb a b = true <-> a = b.
Proof.
  revert b. induction a as [| x a IH]; intros [| y b]; simpl;
    try (split; [discriminate | discriminate]); try tauto.
  rewrite andb_true_iff, N.eqb_eq, IH.
  split; [intros [-> ->]; reflexivity | intros E; inversion E; tauto].
Qed.

Lemma list_max_fold (l : list Z) (x : Z) :
  let m := fold_left (fun m y => if m <? y then y else m) l x in
  (m = x \/ In m l) /\ x <= m /\ (forall y, In y l -> y <= m).
Proof.
  revert x. induction l as [| z l IH]; intros x; simpl.
  - split; [now left | split; [lia | tauto]].
  - destruct (IH (if x <? z then z else x)) as (Hin & Hle & Hall).
    destruct (Z.ltb_spec x z) as [Hlt | Hge].
    + split; [destruct Hin as [-> | Hin]; auto |].
      split; [lia |].
      intros y [<- | Hy]; [exact Hle | now apply Hall].
    + split; [destruct Hin as [-> | Hin]; auto |].
      split; [lia |].
      intros y [<- | Hy]; [lia | now apply Hall].
Qed.

Lemma list_max_spec (l : list Z) :
  l <> [] ->
  exists m, list_max l = Ok m /\ In m l /\ (forall y, In y l -> y <= m).
Proof.
  destruct l as [| x l]; [congruence | intros _].
  destruct (list_max_fold l x) as (Hin & Hle & Hall).
  eexists. split; [reflexivity |].
  split.
  - destruct Hin as [-> | Hin]; [now left | now right].
  - intros y [<- | Hy]; [exact Hle | now apply Hall].
Qed.

Lemma index_of_In (x : Z) (l : list Z) :
  In x l -> exists i, index_of x l = Ok i.
Proof.
  induction l as [| y l IH]; simpl; [tauto |].
  intros H. destruct (Z.eqb_spec y x) as [-> | Hne]; [now exists O |].
  destruct H as [-> | H]; [congruence |].
  destruct (IH H) as [i ->]. now exists (S i).
Qed.

Lemma keyed_spec (l : list Z) :
  (forall x, In x l -> In x pref) ->
  exists k, keyed l = Ok k /\ List.map snd k = l /\
            (forall p, In p k -> index_of (snd p) pref = Ok (fst p)).
Proof.
  induction l as [| x l IH]; intros Hin.
  - exists []. simpl. repeat split. tauto.
  - destruct (index_of_In x pref (Hin x (or_introl eq_refl))) as [i Hi].
    destruct IH as (k & Hk & Hmap & Hidx).
    { intros y Hy. apply Hin. now right. }
    exists ((i, x) :: k). cbn [keyed]. rewrite Hi, Hk.
    split; [reflexivity |].
    split; [simpl; now rewrite Hmap |].
    intros p [<- | Hp]; [exact Hi | now apply Hidx].
Qed.

Lemma insert_keyed_In (p q : nat * Z) (l : list (nat * Z)) :
  In q (insert_keyed p l) <-> q = p \/ In q l.
Proof.
  induction l as [| r l IH]; simpl.
  - intuition congruence.
  - destruct (fst p <=? fst r)%nat; simpl; [intuition congruence |].
    rewrite IH. intuition congruence.
Qed.

Lemma sort_keyed_In (q : nat * Z) (l : list (nat * Z)) :
  In q (sort_keyed l) <-> In q l.
Proof.
  induction l as [| p l IH]; simpl; [tauto |].
  rewrite insert_keyed_In, IH. intuition congruence.
Qed.

(** The head of the sorted list has the least key. *)
Lemma sort_keyed_head (l : list (nat * Z)) :
  l <> [] ->
  exists h t, sort_keyed l = h :: t /\ In h l /\
              (forall q, In q l -> (fst h <= fst q)%nat).
Proof.
  induction l as [| p l IH]; [congruence | intros _].
  destruct l as [| p' l'].
  - exists p, []. simpl. repeat split; auto.
    intros q [<- | []]. lia.
  - destruct IH as (h & t & Hs & Hin & Hmin); [congruence |].
    change (sort_keyed (p :: p' :: l')) with (insert_keyed p (sort_keyed (p' :: l'))).
    rewrite Hs. cbn [insert_keyed].
    destruct (Nat.leb_spec (fst p) (fst h)) as [Hle | Hlt].
    + exists p, (h :: t). split; [reflexivity |]. split; [now left |].
      intros q [<- | Hq]; [lia |]. specialize (Hmin q Hq). lia.
    + exists h, (insert_keyed p t). split; [reflexivity |]. split; [now right |].
      intros q [<- | Hq]; [lia | now apply Hmin].
Qed.

(** Among several candidates a sort by preference puts the preferred first. *)
Lemma sorted_by_pref_head (candidates : list Z) :
  candidates <> [] ->
  (forall x, In x candidates -> In x pref) ->
  exists cid rest,
    sorted_by_pref candidates = Ok (cid :: rest) /\ In cid candidates /\
    (forall c, In c candidates -> (pref_rank cid <= pref_rank c)%nat).
Proof.
  intros Hne Hpref.
  destruct (keyed_spec candidates Hpref) as (k & Hk & Hmap & Hidx).
  assert (Hkne : k <> []).
  { intros ->. simpl in Hmap. congruence. }
  destruct (sort_keyed_head k Hkne) as (h & t & Hs & Hin & Hmin).
  exists (snd h), (List.map snd t).
  unfold sorted_by_pref. rewrite Hk, Hs.
  split; [reflexivity |].
  split.
  - rewrite <- Hmap. now apply in_map.
  - intros c Hc. rewrite <- Hmap in Hc.
    apply in_map_iff in Hc. destruct Hc as (q & <- & Hq).
    unfold pref_rank. rewrite (Hidx h Hin), (Hidx q Hq).
    now apply Hmin.
Qed.

Lemma category_name_of_ok (cid : Z) :
  In cid pref -> exists cname, category_name_of cid = Ok cname.
Proof.
  intros H. simpl in H.
  repeat (destruct H as [<- | H]; [eexists; reflexivity |]).
  contradiction.
Qed.

(** The first category of the preference order is the one of rank 0. *)
Lemma pref_rank_zero (cid : Z) : In cid pref -> pref_rank cid = O -> cid = 1.
Proof.
  intros H. simpl in H.
  repeat (destruct H as [<- | H]; [vm_compute; congruence |]).
  contradiction.
Qed.

(** ** The rule classifier *)

Section RuleAgent.

Variable unicode_lower : pystr -> pystr.

Lemma keyword_scores_keys (combined : pystr) :
  List.map fst (keyword_scores unicode_lower combined) = [1; 2; 3; 4; 5; 6].
Proof. reflexivity. Qed.

Lemma keyword_scores_in_pref (combined : pystr) (cid s : Z) :
  In (cid, s) (keyword_scores unicode_lower combined) -> In cid pref.
Proof.
  intros H. apply (in_map fst) in H. rewrite keyword_scores_keys in H.
  simpl in H. simpl. tauto.
Qed.

Lemma forallb_zero (scores : list (Z * Z)) :
  forallb (fun s => s =? 0) (List.map snd scores) = true <-> all_zero scores.
Proof.
  unfold all_zero. rewrite forallb_forall. split.
  - intros H cid s Hin. apply Z.eqb_eq. apply H.
    change s with (snd (cid, s)). now apply in_map.
  - intros H s Hin. apply in_map_iff in Hin.
    destruct Hin as ([cid s'] & <- & Hin). apply Z.eqb_eq. now apply (H cid).
Qed.

(** The run of [rule_agent] when no keyword matches. *)
Lemma rule_agent_fallback_run (image_caption : option pystr)
    (top_object : option DetectedObject) (size_bucket : option pystr) :
  all_zero (keyword_scores unicode_lower (combined_text image_caption top_object)) ->
  exists out,
    rule_agent unicode_lower image_caption top_object size_bucket = Ok out /\
    (size_bucket = Some grande -> category_id out = 4) /\
    (size_bucket = Some pequeno \/ size_bucket = None -> category_id out = 5) /\
    (size_bucket <> Some grande -> category_id out = 5) /\
    category_name_of (category_id out) = Ok (category_name out) /\
    score out = 1 /\
    evidence out
      = EvSizeFallback size_bucket (combined_text image_caption top_object) /\
    source (evidence out) = u "size_fallback".
Proof.
  intros Hzero. apply forallb_zero in Hzero.
  unfold rule_agent. rewrite Hzero.
  assert (Hcase :
            (size_bucket = Some grande /\
             match size_bucket with
             | Some b => if PyStr.eqb b grande then 4 else 5
             | None => 5
             end = 4) \/
            (size_bucket <> Some grande /\
             match size_bucket with
             | Some b => if PyStr.eqb b grande then 4 else 5
             | None => 5
             end = 5)).
  { destruct size_bucket as [b |]; [| right; split; congruence].
    destruct (PyStr.eqb b grande) eqn:E.
    - apply pystr_eqb_eq in E. subst b. now left.
    - right. split; [| reflexivity].
      intros H. inversion H as [Hb]. subst b.
      assert (PyStr.eqb grande grande = true) by now apply pystr_eqb_eq.
      congruence. }
  destruct Hcase as [[Hb ->] | [Hb ->]].
  - eexists. split; [reflexivity |]. cbn [category_id category_name score evidence].
    repeat split; try reflexivity; try congruence.
    intros [H | H].
    + rewrite Hb in H. inversion H.
    + rewrite Hb in H. discriminate.
  - eexists. split; [reflexivity |]. cbn [category_id category_name score evidence].
    repeat split; try reflexivity; try congruence.
Qed.

(** The run of [rule_agent] when some keyword matches. *)
Lemma rule_agent_keywords_run (image_caption : option pystr)
    (top_object : option DetectedObject) (size_bucket : option pystr) :
  let combined := combined_text image_caption top_object in
  let scores := keyword_scores unicode_lower combined in
  (exists cid s, In (cid, s) scores /\ s <> 0) ->
  exists out,
    rule_agent unicode_lower image_caption top_object size_bucket = Ok out /\
    In (category_id out, score out) scores /\
    (forall cid s, In (cid, s) scores -> s <= score out) /\
    (forall cid, In (cid, score out) scores ->
                 (pref_rank (category_id out) <= pref_rank cid)%nat) /\
    category_name_of (category_id out) = Ok (category_name out) /\
    evidence out = EvKeywords scores combined size_bucket.
Proof.
  intros combined scores (cid0 & s0 & Hin0 & Hs0).
  unfold rule_agent. fold combined. fold scores.
  assert (Hnz : forallb (fun s => s =? 0) (List.map snd scores) = false).
  { apply not_true_is_false. intros H. apply forallb_zero in H.
    apply Hs0. now apply (H cid0). }
  rewrite Hnz.
  destruct (list_max_spec (List.map snd scores)) as (m & Hm & Hmin & Hmax).
  { intros E. apply (in_map snd) in Hin0. rewrite E in Hin0. contradiction. }
  rewrite Hm.
  set (candidates := List.map fst (filter (fun cs => snd cs =? m) scores)).
  assert (Hcand : forall c, In c candidates <-> In (c, m) scores).
  { intros c. unfold candidates. rewrite in_map_iff. split.
    - intros ([c' s'] & <- & Hf). apply filter_In in Hf.
      destruct Hf as [Hf Heq]. simpl in Heq. apply Z.eqb_eq in Heq.
      now subst s'.
    - intros Hc. exists (c, m). split; [reflexivity |].
      apply filter_In. split; [exact Hc | apply Z.eqb_refl]. }
  destruct (sorted_by_pref_head candidates) as (cid & rest & Hsort & Hcid & Hrank).
  { apply in_map_iff in Hmin. destruct Hmin as ([c s] & Hs & Hc).
    simpl in Hs. subst s. apply Hcand in Hc.
    intros E. rewrite E in Hc. contradiction. }
  { intros c Hc. apply Hcand in Hc.
    now apply (keyword_scores_in_pref combined c m). }
  rewrite Hsort.
  destruct (category_name_of_ok cid) as [cname Hname].
  { apply Hcand in Hcid. now apply (keyword_scores_in_pref combined cid m). }
  rewrite Hname.
  eexists. split; [reflexivity |].
  cbn [category_id category_name score evidence].
  split; [exact (proj1 (Hcand cid) Hcid) |].
  split.
  { intros c s Hcs. apply Hmax. change s with (snd (c, s)). now apply in_map. }
  split.
  { intros c Hc. apply Hrank. now apply Hcand. }
  split; [exact Hname | reflexivity].
Qed.

(** [rule_agent] always returns. *)
Lemma rule_agent_total (image_caption : option pystr)
    (top_object : option DetectedObject) (size_bucket : option pystr) :
  exists out,
    rule_agent unicode_lower image_caption top_object size_bucket = Ok out.
Proof.
  destruct (forallb (fun s => s =? 0)
              (List.map snd (keyword_scores unicode_lower
                               (combined_text image_caption top_object)))) eqn:E.
  - apply forallb_zero in E.
    destruct (rule_agent_fallback_run image_caption top_object size_bucket E)
      as (out & H & _).
    now exists out.
  - destruct (rule_agent_keywords_run image_caption top_object size_bucket)
      as (out & H & _); [| now exists out].
    assert (Hex : Exists (fun s => s <> 0)
                    (List.map snd (keyword_scores unicode_lower
                                     (combined_text image_caption top_object)))).
    { apply neg_Forall_Exists_neg.
      - intros s. destruct (Z.eq_dec s 0); [now left | now right].
      - intros HF. rewrite Forall_forall in HF.
        assert (forallb (fun s => s =? 0)
                  (List.map snd (keyword_scores unicode_lower
                                   (combined_text image_caption top_object))) = true).
        { apply forallb_forall. intros s Hs. apply Z.eqb_eq. now apply HF. }
        congruence. }
    apply Exists_exists in Hex. destruct Hex as (s & Hs & Hne).
    apply in_map_iff in Hs. destruct Hs as ([c s'] & <- & Hc).
    now exists c, s'.
Qed.

Lemma size_to_bucket_spec (ratio : Q) :
  ((1 # 5 <= ratio)%Q -> _size_to_bucket ratio = grande) /\
  ((ratio < 1 # 5)%Q -> _size_to_bucket ratio = pequeno).
Proof.
  unfold _size_to_bucket, PyFloat.geb. split; intros H.
  - apply Qle_bool_iff in H. now rewrite H.
  - destruct (Qle_bool (1 # 5) ratio) eqn:E; [| reflexivity].
    apply Qle_bool_iff in E. exfalso. now apply (Qlt_not_le ratio (1 # 5)).
Qed.

(** C2. When all six category keyword scores are zero the rule classifier
    returns category 4 for the large size bucket and category 5 for the
    small bucket, for a missing bucket and for any other bucket; the
    evidence source is "size_fallback".  The large bucket is the label
    "grande" that the size estimator gives to a ratio of at least 0.20, the
    small one the label "pequeno" that it gives to a lower ratio. *)
Theorem rule_agent_size_fallback (image_caption : option pystr)
    (top_object : option DetectedObject) (size_bucket : option pystr) :
  all_zero (keyword_scores unicode_lower (combined_text image_caption top_object)) ->
  exists out,
    rule_agent unicode_lower image_caption top_object size_bucket = Ok out /\
    (size_bucket = Some grande -> category_id out = 4) /\
    (size_bucket = Some pequeno \/ size_bucket = None -> category_id out = 5) /\
    (size_bucket <> Some grande -> category_id out = 5) /\
    (forall ratio, (1 # 5 <= ratio)%Q ->
       size_bucket = Some (_size_to_bucket ratio) -> category_id out = 4) /\
    (forall ratio, (ratio < 1 # 5)%Q ->
       size_bucket = Some (_size_to_bucket ratio) -> category_id out = 5) /\
    category_name_of (category_id out) = Ok (category_name out) /\
    score out = 1 /\
    evidence out
      = EvSizeFallback size_bucket (combined_text image_caption top_object) /\
    source (evidence out) = u "size_fallback".
Proof.
  intros Hzero.
  destruct (rule_agent_fallback_run image_caption top_object size_bucket Hzero)
    as (out & Hrun & H4 & Hsmall & H5 & Hname & Hscore & Hev & Hsrc).
  exists out. repeat split; try assumption.
  - intros ratio Hratio Hb. apply H4.
    now rewrite Hb, (proj1 (size_to_bucket_spec ratio) Hratio).
  - intros ratio Hratio Hb. apply Hsmall. left.
    now rewrite Hb, (proj2 (size_to_bucket_spec ratio) Hratio).
Qed.

Lemma position_index_of (x : Z) (l : list Z) :
  match index_of x l with
  | Ok i => i
  | Raise _ => List.length l
  end = position x l.
Proof.
  induction l as [| y l IH]; [reflexivity |].
  cbn [index_of position]. destruct (y =? x); [reflexivity |].
  destruct (index_of x l); cbn [List.length]; now rewrite <- IH.
Qed.

(** The order of the code is the stated one. *)
Lemma pref_rank_stated (cid : Z) : pref_rank cid = stated_rank cid.
Proof.
  unfold pref_rank, stated_rank.
  change stated_order with pref.
  apply position_index_of.
Qed.

(** C3. With at least one nonzero category keyword score the rule classifier
    returns a category whose score is the maximum; among the categories that
    reach the maximum it returns the one that comes first in the preference
    order 1, 2, 3, 6, 4, 5: the order splits at the returned category, and
    no category before it reaches the maximum.  So category 1 wins whenever
    it ties with category 4 at the maximum, and category 6 wins a tie with
    category 4 when none of 1, 2, 3 is at the maximum.  The evidence has
    source "keywords" and holds the whole score map. *)
Theorem rule_agent_keywords (image_caption : option pystr)
    (top_object : option DetectedObject) (size_bucket : option pystr) :
  let combined := combined_text image_caption top_object in
  let scores := keyword_scores unicode_lower combined in
  (exists cid s, In (cid, s) scores /\ s <> 0) ->
  exists out,
    rule_agent unicode_lower image_caption top_object size_bucket = Ok out /\
    In (category_id out, score out) scores /\
    (forall cid s, In (cid, s) scores -> s <= score out) /\
    (forall cid, In (cid, score out) scores ->
                 (pref_rank (category_id out) <= pref_rank cid)%nat) /\
    (forall m, In (1, m) scores -> In (4, m) scores ->
               (forall cid s, In (cid, s) scores -> s <= m) ->
               category_id out = 1) /\
    category_name_of (category_id out) = Ok (category_name out) /\
    evidence out = EvKeywords scores combined size_bucket /\
    source (evidence out) = u "keywords" /\
    (forall cid, In (cid, score out) scores ->
                 (stated_rank (category_id out) <= stated_rank cid)%nat) /\
    (exists before after,
       [1; 2; 3; 6; 4; 5] = before ++ category_id out :: after /\
       forall cid, In cid before -> ~ In (cid, score out) scores) /\
    (forall m, In (6, m) scores -> In (4, m) scores ->
               (forall cid s, In (cid, s) scores -> s <= m) ->
               ~ In (1, m) scores -> ~ In (2, m) scores -> ~ In (3, m) scores ->
               category_id out = 6).
Proof.
  intros combined scores Hnz.
  destruct (rule_agent_keywords_run image_caption top_object size_bucket Hnz)
    as (out & Hrun & Hin & Hmax & Hrank & Hname & Hev).
  fold combined in Hin, Hmax, Hrank, Hev. fold scores in Hin, Hmax, Hrank, Hev.
  assert (Hstated : forall cid, In (cid, score out) scores ->
                      (stated_rank (category_id out) <= stated_rank cid)%nat).
  { intros cid Hcid. rewrite <- !pref_rank_stated. now apply Hrank. }
  assert (Hcases : category_id out = 1 \/ category_id out = 2 \/
                   category_id out = 3 \/ category_id out = 6 \/
                   category_id out = 4 \/ category_id out = 5).
  { pose proof (keyword_scores_in_pref combined _ _ Hin) as Hp.
    unfold pref in Hp. cbn [In] in Hp.
    destruct Hp as [H | [H | [H | [H | [H | [H | []]]]]]]; symmetry in H; tauto. }
  assert (Hsplit : exists before after,
             [1; 2; 3; 6; 4; 5] = before ++ category_id out :: after /\
             forall cid, In cid before -> ~ In (cid, score out) scores).
  { destruct Hcases as [E | [E | [E | [E | [E | E]]]]]; rewrite E in Hstated |- *.
    - exists [], [2; 3; 6; 4; 5]. split; [reflexivity |]. intros cid [].
    - exists [1], [3; 6; 4; 5]. split; [reflexivity |].
      intros cid Hc Hs. cbn [In] in Hc.
      destruct Hc as [<- | []]; specialize (Hstated _ Hs);
        vm_compute in Hstated; lia.
    - exists [1; 2], [6; 4; 5]. split; [reflexivity |].
      intros cid Hc Hs. cbn [In] in Hc.
      destruct Hc as [<- | [<- | []]]; specialize (Hstated _ Hs);
        vm_compute in Hstated; lia.
    - exists [1; 2; 3], [4; 5]. split; [reflexivity |].
      intros cid Hc Hs. cbn [In] in Hc.
      destruct Hc as [<- | [<- | [<- | []]]]; specialize (Hstated _ Hs);
        vm_compute in Hstated; lia.
    - exists [1; 2; 3; 6], [5]. split; [reflexivity |].
      intros cid Hc Hs. cbn [In] in Hc.
      destruct Hc as [<- | [<- | [<- | [<- | []]]]]; specialize (Hstated _ Hs);
        vm_compute in Hstated; lia.
    - exists [1; 2; 3; 6; 4], []. split; [reflexivity |].
      intros cid Hc Hs. cbn [In] in Hc.
      destruct Hc as [<- | [<- | [<- | [<- | [<- | []]]]]];
        specialize (Hstated _ Hs); vm_compute in Hstated; lia. }
  exists out.
  split; [exact Hrun |]. split; [exact Hin |]. split; [exact Hmax |].
  split; [exact Hrank |].
  split.
  { (* categories 1 and 4 both at the maximum: the first of the order wins *)
    intros m H1 H4 Hall.
    assert (Hm : m = score out).
    { apply Z.le_antisymm; [now apply (Hmax 1) |].
      now apply (Hall (category_id out)). }
    subst m.
    apply pref_rank_zero.
    + now apply (keyword_scores_in_pref combined _ (score out)).
    + specialize (Hrank 1 H1). change (pref_rank 1) with O in Hrank. lia. }
  split; [exact Hname |]. split; [exact Hev |].
  split; [rewrite Hev; reflexivity |].
  split; [exact Hstated |].
  split; [exact Hsplit |].
  (* categories 6 and 4 at the maximum, 1, 2 and 3 below it *)
  intros m H6 H4 Hall N1 N2 N3.
  assert (Hm : m = score out).
  { apply Z.le_antisymm; [now apply (Hmax 6) |].
    now apply (Hall (category_id out)). }
  subst m.
  pose proof (Hstated 6 H6) as R6.
  destruct Hcases as [E | [E | [E | [E | [E | E]]]]];
    rewrite E in Hin, R6 |- *;
    try contradiction; try reflexivity;
    vm_compute in R6; lia.
Qed.

End RuleAgent.

Lemma rule_agent_size_fallback_witness :
  exists out,
    rule_agent latin1_lower None (Some (plain_object (u "Widget") (1 # 2) None))
      (Some (_size_to_bucket (1 # 4))) = Ok out /\
    category_id out = 4 /\
    source (evidence out) = u "size_fallback".
Proof.
  destruct (rule_agent_size_fallback latin1_lower None
              (Some (plain_object (u "Widget") (1 # 2) None))
              (Some (_size_to_bucket (1 # 4))))
    as (out & Hrun & _ & _ & _ & Hlarge & _ & _ & _ & _ & Hsrc).
  - intros cid s H. vm_compute in H.
    repeat (destruct H as [H | H]; [inversion H; reflexivity |]).
    contradiction.
  - exists out. split; [exact Hrun |]. split; [| exact Hsrc].
    apply (Hlarge (1 # 4)); [discriminate | reflexivity].
Defined.

Lemma rule_agent_keywords_witness :
  (exists out,
     rule_agent latin1_lower (Some (u "Geladeira grande")) None None = Ok out /\
     category_id out = 1) /\
  (exists out,
     rule_agent latin1_lower (Some (u "phone oven")) None None = Ok out /\
     category_id out = 6).
Proof.
  split.
  - destruct (rule_agent_keywords latin1_lower (Some (u "Geladeira grande")) None None)
      as (out & Hrun & _ & _ & _ & Htie & _).
    + exists 1, 1. split; [vm_compute; tauto | discriminate].
    + exists out. split; [exact Hrun |].
      apply (Htie 1).
      * vm_compute. tauto.
      * vm_compute. tauto.
      * intros cid s H. vm_compute in H.
        repeat (destruct H as [H | H]; [inversion H; lia |]).
        contradiction.
  - destruct (rule_agent_keywords latin1_lower (Some (u "phone oven")) None None)
      as (out & Hrun & _ & _ & _ & _ & _ & _ & _ & _ & _ & Htie).
    + exists 6, 1. split; [vm_compute; tauto | discriminate].
    + exists out. split; [exact Hrun |].
      apply (Htie 1).
      * vm_compute. tauto.
      * vm_compute. tauto.
      * intros cid s H. vm_compute in H.
        repeat (destruct H as [H | H]; [inversion H; lia |]).
        contradiction.
      * intros H. vm_compute in H.
        repeat (destruct H as [H | H]; [discriminate H |]). contradiction.
      * intros H. vm_compute in H.
        repeat (destruct H as [H | H]; [discriminate H |]). contradiction.
      * intros H. vm_compute in H.
        repeat (destruct H as [H | H]; [discriminate H |]). contradiction.
Defined.

(** A phone on an oven: categories 6 and 4 tie, and 6 comes first. *)
Example tie_6_4 :
  option_map category_id
    (match rule_agent latin1_lower (Some (u "phone oven")) None None with
     | Ok out => Some out
     | Raise _ => None
     end) = Some 6.
Proof. vm_compute. reflexivity. Qed.

(** The fridge that is also a large appliance: categories 1 and 4 tie. *)
Example tie_1_4 :
  rule_agent latin1_lower (Some (u "Geladeira grande")) None None
  = Ok (mkRuleAgentOutput 1 (u "Equipamentos de troca de temperatura") 1
          (EvKeywords [(1, 1); (2, 0); (3, 0); (4, 1); (5, 0); (6, 0)]
             (u "Geladeira grande") None)).
Proof. vm_compute. reflexivity. Qed.

(** Case-insensitive substring scoring: "Smart TV" scores category 2. *)
Example smart_tv_scores :
  keyword_scores latin1_lower (u "A Smart TV on a wall")
  = [(1, 0); (2, 2); (3, 0); (4, 0); (5, 0); (6, 0)].
Proof. vm_compute. reflexivity. Qed.

(** ** The object selector *)

Lemma gtb_lt (a b : Q) : PyFloat.gtb a b = true <-> (b < a)%Q.
Proof.
  unfold PyFloat.gtb. rewrite negb_true_iff.
  split.
  - intros H. apply Qnot_le_lt. intros Hle.
    apply Qle_bool_iff in Hle. congruence.
  - intros H. apply not_true_is_false. intros Hle.
    apply Qle_bool_iff in Hle. now apply (Qlt_not_le b a).
Qed.

Lemma eqb_eq (a b : Q) : PyFloat.eqb a b = true <-> (a == b)%Q.
Proof. apply Qeq_bool_iff. Qed.

Lemma pick_best_unfold (first : DetectedObject) (rest : list DetectedObject) :
  _pick_best_object (first :: rest) = Some (fold_left pick_step rest first).
Proof. reflexivity. Qed.

(** The reader [o.get("confidence", 0.0)] of the code gives the stated
    confidence. *)
Lemma get_confidence_stated (o : DetectedObject) :
  get_confidence o = stated_confidence o.
Proof. reflexivity. Qed.

Lemma selected_bounds (pre post : list DetectedObject) (best : DetectedObject) :
  selected pre best post ->
  forall o, In o (pre ++ best :: post) ->
            (stated_confidence o <= stated_confidence best)%Q.
Proof.
  intros [Hpre Hpost] o Hin. apply in_app_or in Hin.
  destruct Hin as [Hin | [<- | Hin]].
  - destruct (Hpre o Hin) as [H | [H _]];
      [now apply Qlt_le_weak | rewrite H; apply Qle_refl].
  - apply Qle_refl.
  - destruct (Hpost o Hin) as [H | [H _]];
      [now apply Qlt_le_weak | rewrite H; apply Qle_refl].
Qed.

Lemma pick_step_selected (pre post : list DetectedObject) (best o : DetectedObject) :
  selected pre best post ->
  (pick_step best o = o /\ selected (pre ++ best :: post) o []) \/
  (pick_step best o = best /\ selected pre best (post ++ [o])).
Proof.
  intros Hsel. pose proof (selected_bounds pre post best Hsel) as Hle.
  destruct Hsel as [Hpre Hpost]. unfold pick_step.
  rewrite (get_confidence_stated o), (get_confidence_stated best).
  destruct (PyFloat.gtb (stated_confidence o) (stated_confidence best)) eqn:Egt.
  - (* strictly better *)
    left. split; [reflexivity |]. apply gtb_lt in Egt.
    split; [| intros x []].
    intros x Hx. left.
    apply Qle_lt_trans with (stated_confidence best); [now apply Hle | exact Egt].
  - assert (Hnlt : (stated_confidence o <= stated_confidence best)%Q).
    { apply Qnot_lt_le. intros H. apply gtb_lt in H. congruence. }
    destruct (PyFloat.eqb (stated_confidence o) (stated_confidence best)) eqn:Eeq.
    + apply eqb_eq in Eeq.
      destruct (truthy (caption o) && negb (truthy (caption best))) eqn:Ecap.
      * (* a tie, and only the newcomer is captioned *)
        apply andb_true_iff in Ecap. destruct Ecap as [Ho Hb].
        apply negb_true_iff in Hb.
        left. split; [reflexivity |].
        split; [| intros x []].
        intros x Hx. apply in_app_or in Hx.
        assert (Hnb : ~ captioned best) by (unfold captioned; congruence).
        destruct Hx as [Hx | [<- | Hx]].
        -- destruct (Hpre x Hx) as [H | (_ & _ & H)]; [| contradiction].
           left. now rewrite Eeq.
        -- right. split; [now symmetry | split; [exact Hnb | exact Ho]].
        -- destruct (Hpost x Hx) as [H | [H [Hc | Hc]]].
           ++ left. now rewrite Eeq.
           ++ contradiction.
           ++ right. split; [now rewrite Eeq | split; [exact Hc | exact Ho]].
      * (* a tie that the current best keeps *)
        right. split; [reflexivity |].
        split; [exact Hpre |].
        intros x Hx. apply in_app_or in Hx.
        destruct Hx as [Hx | [<- | []]]; [now apply Hpost |].
        right. split; [exact Eeq |].
        apply andb_false_iff in Ecap. destruct Ecap as [Ho | Hb].
        -- right. unfold captioned. congruence.
        -- apply negb_false_iff in Hb. now left.
    + (* strictly worse *)
      right. split; [reflexivity |].
      split; [exact Hpre |].
      intros x Hx. apply in_app_or in Hx.
      destruct Hx as [Hx | [<- | []]]; [now apply Hpost |].
      left. apply Qle_lt_or_eq in Hnlt. destruct Hnlt as [H | H]; [exact H |].
      apply eqb_eq in H. congruence.
Qed.

Lemma pick_loop_selected (rest pre post : list DetectedObject)
    (best : DetectedObject) :
  selected pre best post ->
  exists pre' post',
    pre ++ best :: post ++ rest = pre' ++ fold_left pick_step rest best :: post' /\
    selected pre' (fold_left pick_step rest best) post'.
Proof.
  revert pre post best.
  induction rest as [| o rest IH]; intros pre post best Hsel.
  - exists pre, post. rewrite app_nil_r. now split.
  - cbn [fold_left].
    destruct (pick_step_selected pre post best o Hsel) as [[-> Hs] | [-> Hs]].
    + destruct (IH _ _ _ Hs) as (pre' & post' & Heq & Hsel').
      exists pre', post'. split; [| exact Hsel'].
      rewrite <- Heq. rewrite <- app_assoc. reflexivity.
    + destruct (IH _ _ _ Hs) as (pre' & post' & Heq & Hsel').
      exists pre', post'. split; [| exact Hsel'].
      rewrite <- Heq. rewrite <- app_assoc. reflexivity.
Qed.



(** The captioned laptop takes over from the monitor it ties with. *)
Example pick_best_tie :
  _pick_best_object tied_objects
  = Some (plain_object (u "laptop") (4 # 5) (Some (u "a laptop on a desk"))).
Proof. vm_compute. reflexivity. Qed.

(** Without a caption on the later one, the first seen stays. *)
Example pick_best_first_seen :
  _pick_best_object
    [plain_object (u "monitor") (8 # 10) None; plain_object (u "laptop") (4 # 5) None]
  = Some (plain_object (u "monitor") (8 # 10) None).
Proof. vm_compute. reflexivity. Qed.

(** ** Runs of the detector seen from the classifier *)

Import VisionProps.

(** The caption loop changes neither the name, nor the confidence, nor the
    box of an object. *)
Lemma caption_objects_keeps (sid dir : pystr) (min_side max_side : Z)
    (crops : list Image) (objs : list DetectedObject) :
  forall (idx : nat) (w w' : World) (objs' : list DetectedObject),
    caption_objects sid dir min_side max_side crops idx objs w = (Ok objs', w') ->
    Forall2 (fun o o' => name o' = name o /\ confidence o' = confidence o /\
                         bbox o' = bbox o) objs objs'.
Proof.
  induction objs as [| obj rest IH]; intros idx w w' objs' Hrun.
  - inversion Hrun. constructor.
  - cbn [caption_objects] in Hrun.
    apply bind_inv in Hrun. destruct Hrun as (obj' & w1 & Hobj & Hrun).
    apply bind_inv in Hrun. destruct Hrun as (rest' & w2 & Hrest & Hret).
    inversion Hret; subst. constructor; [| now apply (IH (S idx) w1 w')].
    destruct (nth_error crops idx) as [crop_img |].
    + apply bind_inv in Hobj. destruct Hobj as (? & ? & _ & Hobj).
      apply bind_inv in Hobj. destruct Hobj as (? & ? & _ & Hobj).
      apply bind_inv in Hobj. destruct Hobj as (? & ? & _ & Hobj).
      inversion Hobj. repeat split.
    + inversion Hobj. repeat split.
Qed.

Lemma analyze_image_bytes_inv (image_bytes : ImageBytes)
    (static_dir : option pystr) (min_side max_side : Z)
    (w w' : World) (res : AnalyzeResult) :
  analyze_image_bytes image_bytes static_dir false min_side max_side w = (Ok res, w') ->
  (exists img, image_open image_bytes = Ok img) /\
  Forall (fun o => confidence o <> None) (objects res).
Proof.
  unfold analyze_image_bytes. intros Hrun.
  apply bind_inv in Hrun. destruct Hrun as (sid & w1 & _ & Hrun).
  apply bind_inv in Hrun. destruct Hrun as (? & w2 & _ & Hrun).
  apply bind_inv in Hrun. destruct Hrun as (? & w3 & _ & Hrun).
  apply bind_inv in Hrun. destruct Hrun as (pil_img0 & w4 & Hopen & Hrun).
  apply bind_inv in Hrun. destruct Hrun as (pil_img & w5 & _ & Hrun).
  apply bind_inv in Hrun. destruct Hrun as (? & w6 & _ & Hrun).
  apply bind_inv in Hrun. destruct Hrun as (analysis & w7 & _ & Hrun).
  apply bind_inv in Hrun. destruct Hrun as (objects1 & w8 & Hloop & Hrun).
  cbn [andb] in Hrun.
  apply bind_inv in Hrun. destruct Hrun as (st & w9 & Hst & Hret).
  inversion Hst; subst st. inversion Hret; subst res. cbn [objects g_objects].
  split.
  - exists pil_img0. unfold lift in Hopen. now inversion Hopen.
  - apply caption_objects_keeps in Hloop.
    remember (List.map object_of_detection
                match an_objects analysis with
                | Some l => l
                | None => []
                end) as objects0 eqn:E0.
    assert (H0 : Forall (fun o => confidence o <> None) objects0).
    { subst objects0. apply Forall_forall. intros o Ho.
      apply in_map_iff in Ho. destruct Ho as (det & <- & _).
      unfold object_of_detection.
      destruct (det_tags det) as [| tag0 tags];
        [| destruct (is_none (det_name det) || is_none (det_confidence det))];
        discriminate. }
    clear E0. induction Hloop as [| o o' l l' (_ & Hc & _) _ IHl]; [constructor |].
    inversion H0; subst. constructor; [congruence | now apply IHl].
Qed.

Lemma pick_best_In (objects : list DetectedObject) (best : DetectedObject) :
  _pick_best_object objects = Some best -> In best objects.
Proof.
  destruct objects as [| first rest]; [discriminate |].
  rewrite pick_best_unfold. intros H. inversion H as [Hb].
  assert (Hsel0 : selected [] first []) by (split; intros o []).
  destruct (pick_loop_selected rest [] [] first Hsel0) as (pre & post & Heq & _).
  simpl in Heq. rewrite Heq. apply in_or_app. right. now left.
Qed.

Lemma size_agent_run (image_bytes : ImageBytes) (img : Image)
    (top_object : option DetectedObject) :
  image_open image_bytes = Ok img ->
  exists sz, forall w, size_agent image_bytes top_object w = (Ok sz, w).
Proof.
  intros Hopen. unfold size_agent.
  destruct top_object as [o |].
  - destruct (obj_truthy o) eqn:Et; [destruct (bbox o) as [b |] eqn:Eb |];
      eexists; intros w; rewrite run_bind; unfold lift; rewrite Hopen;
      cbn [negb]; try rewrite Et; try rewrite Eb; reflexivity.
  - eexists. intros w. rewrite run_bind. unfold lift. rewrite Hopen. reflexivity.
Qed.

(** ** [classify_image_bytes] *)

Section Classify.

Variable unicode_lower : pystr -> pystr.

(** What [classify_image_bytes] returns once the detector has answered. *)
Lemma classify_image_bytes_run (image_bytes : ImageBytes)
    (static_dir : option pystr) (use_llm_arbiter : bool)
    (w w1 : World) (vis : VisualAgentOutput) :
  visual_agent image_bytes static_dir w = (Ok vis, w1) ->
  let top_obj := _pick_best_object (va_objects vis) in
  let combined := combined_text (va_image_caption vis) top_obj in
  exists r w2,
    classify_image_bytes unicode_lower image_bytes static_dir use_llm_arbiter w
    = (Ok r, w2) /\
    res_top_object r = top_obj /\
    res_visual_objects r = va_objects vis /\
    res_image_caption r = va_image_caption vis /\
    res_confidence r = top_confidence top_obj /\
    (_is_non_eee unicode_lower combined (keyword_scores unicode_lower combined) = true ->
     res_category r = None /\ res_filtered r = Some (u "non_eee", combined) /\
     res_rules r = None /\ res_explanation r = None) /\
    (_is_non_eee unicode_lower combined (keyword_scores unicode_lower combined) = false ->
     exists rules final,
       rule_agent unicode_lower (va_image_caption vis) top_obj
         (size_bucket (res_size r)) = Ok rules /\
       res_rules r = Some rules /\
       res_category r = Some (category_id final, category_name final) /\
       res_filtered r = None /\
       res_explanation r = Some (evidence final) /\
       (use_llm_arbiter = false -> final = rules)).
Proof.
  intros Hvis top_obj combined.
  assert (Hopen : exists img, image_open image_bytes = Ok img).
  { unfold visual_agent in Hvis. apply bind_inv in Hvis.
    destruct Hvis as (vres & w' & Hrun & _).
    now apply analyze_image_bytes_inv in Hrun. }
  destruct Hopen as (img & Hopen).
  destruct (size_agent_run image_bytes img top_obj Hopen) as (sz & Hsz).
  unfold classify_image_bytes.
  rewrite (bind_ok _ _ w w1 vis Hvis).
  fold top_obj. rewrite (bind_ok _ _ w1 w1 sz (Hsz w1)).
  fold combined.
  destruct (_is_non_eee unicode_lower combined
              (keyword_scores unicode_lower combined)) eqn:Efilter.
  - eexists. eexists. split; [reflexivity |].
    cbn. repeat split; try reflexivity; discriminate.
  - destruct (rule_agent_total unicode_lower (va_image_caption vis) top_obj
                (size_bucket sz)) as (rules & Hrules).
    rewrite run_bind. unfold lift at 1. rewrite Hrules.
    destruct use_llm_arbiter.
    + rewrite run_bind, run_bind.
      destruct (_try_llm_arbiter unicode_lower rules CATEGORIES
                  (va_image_caption vis) top_obj (size_bucket sz) (size_ratio sz) w1)
        as [[[arb |] | e] w2] eqn:Earb.
      * eexists. eexists. split; [reflexivity |]. cbn.
        repeat split; try reflexivity; try discriminate.
        intros _. exists rules, arb. repeat split; try assumption; discriminate.
      * eexists. eexists. split; [reflexivity |]. cbn.
        repeat split; try reflexivity; try discriminate.
        intros _. exists rules, rules. repeat split; assumption.
      * exfalso. unfold _try_llm_arbiter in Earb.
        destruct (agent_service w1 _ _ _ _ _); [| discriminate].
        destruct (find _ CATEGORIES); [| discriminate].
        destruct (_ =? 0); [discriminate |].
        destruct (category_name_of _); discriminate.
    + eexists. eexists. split; [reflexivity |]. cbn.
      repeat split; try reflexivity; try discriminate.
      intros _. exists rules, rules. repeat split; assumption.
Qed.

(** [classify_image_bytes] returns a result whenever the detector does. *)
Lemma classify_image_bytes_total (image_bytes : ImageBytes)
    (static_dir : option pystr) (use_llm_arbiter : bool)
    (w w1 : World) (vres : AnalyzeResult) :
  analyze_image_bytes image_bytes static_dir false 50 16000 w = (Ok vres, w1) ->
  exists r w2,
    classify_image_bytes unicode_lower image_bytes static_dir use_llm_arbiter w
    = (Ok r, w2).
Proof.
  intros Hrun.
  destruct (classify_image_bytes_run image_bytes static_dir use_llm_arbiter w w1
              (mkVisualAgentOutput (image_caption vres) (objects vres)
                 (original_url vres) (session_id vres)))
    as (r & w2 & H & _).
  - unfold visual_agent. now rewrite (bind_ok _ _ w w1 vres Hrun).
  - now exists r, w2.
Qed.

(** C4. In every result of [classify_image_bytes] exactly one of [category]
    and [filtered] is set; the top object is the selector's choice among the
    detected objects; [confidence] is the confidence of that top object, and
    0 when there is none. *)
Theorem classification_result_invariant (image_bytes : ImageBytes)
    (static_dir : option pystr) (use_llm_arbiter : bool)
    (w w' : World) (r : ClassificationResult) :
  classify_image_bytes unicode_lower image_bytes static_dir use_llm_arbiter w
  = (Ok r, w') ->
  ((has_category r /\ ~ is_filtered r) \/ (~ has_category r /\ is_filtered r)) /\
  res_top_object r = _pick_best_object (res_visual_objects r) /\
  (forall o, res_top_object r = Some o -> confidence o = Some (res_confidence r)) /\
  (res_top_object r = None -> res_confidence r = 0%Q).
Proof.
  intros Hrun.
  assert (Hvis : exists vis w1 vres,
             visual_agent image_bytes static_dir w = (Ok vis, w1) /\
             analyze_image_bytes image_bytes static_dir false 50 16000 w
             = (Ok vres, w1) /\ va_objects vis = objects vres).
  { pose proof Hrun as Hrun'. unfold classify_image_bytes in Hrun'.
    apply bind_inv in Hrun'. destruct Hrun' as (vis & w1 & Hvis & _).
    pose proof Hvis as Hvis'. unfold visual_agent in Hvis'.
    apply bind_inv in Hvis'. destruct Hvis' as (vres & w1' & Han & Hret).
    inversion Hret; subst. eexists. exists w1, vres.
    split; [exact Hvis | split; [exact Han | reflexivity]]. }
  destruct Hvis as (vis & w1 & vres & Hvis & Han & Hobjs).
  destruct (classify_image_bytes_run image_bytes static_dir use_llm_arbiter
              w w1 vis Hvis)
    as (r' & w2 & Hrun' & Htop & Hvobjs & _ & Hconf & Hfilt & Hcat).
  rewrite Hrun in Hrun'. inversion Hrun'; subst r' w2. clear Hrun'.
  split; [| split; [| split]].
  - unfold has_category, is_filtered.
    destruct (_is_non_eee unicode_lower _ _).
    + destruct (Hfilt eq_refl) as (Hc & Hf & _). right.
      rewrite Hc, Hf. split; [intros H; now apply H | discriminate].
    + destruct (Hcat eq_refl) as (rules & final & _ & _ & Hc & Hf & _). left.
      rewrite Hc, Hf. split; [discriminate | intros H; now apply H].
  - now rewrite Htop, Hvobjs.
  - intros o Ho. rewrite Hconf. rewrite Htop in Ho.
    apply analyze_image_bytes_inv in Han. destruct Han as [_ Hall].
    assert (Hin : In o (objects vres)).
    { rewrite <- Hobjs. now apply pick_best_In. }
    rewrite Forall_forall in Hall. specialize (Hall o Hin).
    rewrite Ho. unfold top_confidence, obj_truthy, get_confidence.
    destruct (confidence o) as [c |]; [| congruence].
    cbn. now rewrite !andb_false_r.
  - intros Hnone. rewrite Hconf. rewrite Htop in Hnone. now rewrite Hnone.
Qed.

(** ** The end-to-end example *)

Lemma combined_text_sole (o : DetectedObject) (n : pystr) :
  name o = Some n -> truthy (Some n) = true -> caption o = None ->
  combined_text None (Some o) = n.
Proof.
  intros Hname Hn Hcap. unfold combined_text, obj_truthy.
  rewrite Hname, Hcap. destruct n; [discriminate | reflexivity].
Qed.

Lemma rule_agent_text (image_caption image_caption' : option pystr)
    (top_object top_object' : option DetectedObject) (size_bucket : option pystr) :
  combined_text image_caption top_object = combined_text image_caption' top_object' ->
  rule_agent unicode_lower image_caption top_object size_bucket
  = rule_agent unicode_lower image_caption' top_object' size_bucket.
Proof. intros H. unfold rule_agent. now rewrite H. Qed.

(** No category keyword, and no non-EEE keyword, is a substring of
    "refrigerator". *)
Lemma refrigerator_scores :
  keyword_scores unicode_lower (u "refrigerator") = zero_scores /\
  _is_non_eee unicode_lower (u "refrigerator") zero_scores = false.
Proof. split; vm_compute; reflexivity. Qed.

Lemma refrigerador_scores :
  keyword_scores unicode_lower (u "refrigerador")
  = [(1, 1); (2, 0); (3, 0); (4, 0); (5, 0); (6, 0)] /\
  _is_non_eee unicode_lower (u "refrigerador")
    [(1, 1); (2, 0); (3, 0); (4, 0); (5, 0); (6, 0)] = false.
Proof. split; vm_compute; reflexivity. Qed.

(** What the code does for an image whose only detected object has
    confidence 0.9 and no caption, with no scene caption: when the object is
    named "refrigerator" no keyword matches, and the result is the size
    fallback (category 4 for the bucket "grande", 5 otherwise) with
    confidence 0.9 and evidence source "size_fallback"; when it is named
    "refrigerador" the result is category 1, with confidence 0.9 and
    evidence source "keywords". *)
Theorem sole_object_classification (image_bytes : ImageBytes)
    (static_dir : option pystr) (w w1 : World) (vis : VisualAgentOutput)
    (o : DetectedObject) :
  visual_agent image_bytes static_dir w = (Ok vis, w1) ->
  va_objects vis = [o] ->
  va_image_caption vis = None ->
  caption o = None ->
  confidence o = Some (9 # 10) ->
  (name o = Some (u "refrigerator") ->
   exists r w2 cname,
     classify_image_bytes unicode_lower image_bytes static_dir false w = (Ok r, w2) /\
     res_filtered r = None /\
     res_category r
       = Some (match size_bucket (res_size r) with
               | Some b => if PyStr.eqb b grande then 4 else 5
               | None => 5
               end, cname) /\
     res_confidence r = 9 # 10 /\
     option_map source (res_explanation r) = Some (u "size_fallback")) /\
  (name o = Some (u "refrigerador") ->
   exists r w2,
     classify_image_bytes unicode_lower image_bytes static_dir false w = (Ok r, w2) /\
     res_filtered r = None /\
     res_category r = Some (1, u "Equipamentos de troca de temperatura") /\
     res_confidence r = 9 # 10 /\
     option_map source (res_explanation r) = Some (u "keywords")).
Proof.
  intros Hvis Hobjs Hscene Hcap Hconf.
  destruct (classify_image_bytes_run image_bytes static_dir false w w1 vis Hvis)
    as (r & w2 & Hrun & _ & _ & _ & Hc & _ & Hcat).
  rewrite Hobjs in Hc. rewrite Hobjs, Hscene in Hcat.
  change (_pick_best_object [o]) with (Some o) in Hcat, Hc.
  assert (Hconf' : res_confidence r = 9 # 10).
  { rewrite Hc. unfold top_confidence, obj_truthy, get_confidence.
    rewrite Hconf. cbn. now rewrite !andb_false_r. }
  split; intros Hname.
  - rewrite (combined_text_sole o _ Hname eq_refl Hcap) in Hcat.
    destruct refrigerator_scores as [Hs Hf].
    rewrite Hs in Hcat.
    destruct (Hcat Hf) as (rules & final & Hrules & _ & Hcategory & Hfiltered & Hexp & Hfinal).
    rewrite (Hfinal eq_refl) in *. clear Hfinal final.
    destruct (rule_agent_fallback_run unicode_lower None (Some o)
                (size_bucket (res_size r)))
      as (out & Hout & H4 & _ & H5 & _ & _ & Hev & _).
    { rewrite (combined_text_sole o _ Hname eq_refl Hcap).
      rewrite Hs. intros cid s H. simpl in H.
      repeat (destruct H as [H | H]; [inversion H; reflexivity |]).
      contradiction. }
    rewrite Hout in Hrules. injection Hrules as Hrules. subst out.
    exists r, w2, (category_name rules).
    split; [exact Hrun |]. split; [exact Hfiltered |].
    split.
    { rewrite Hcategory. f_equal. f_equal.
      clear - H4 H5.
      destruct (size_bucket (res_size r)) as [b |].
      - destruct (PyStr.eqb b grande) eqn:E.
        + apply pystr_eqb_eq in E. subst b. now apply H4.
        + apply H5. intros Heq. injection Heq as Heq. subst b.
          assert (PyStr.eqb grande grande = true) by now apply pystr_eqb_eq.
          congruence.
      - apply H5. discriminate. }
    split; [exact Hconf' |].
    rewrite Hexp, Hev. reflexivity.
  - rewrite (combined_text_sole o _ Hname eq_refl Hcap) in Hcat.
    destruct refrigerador_scores as [Hs Hf].
    rewrite Hs in Hcat.
    destruct (Hcat Hf) as (rules & final & Hrules & _ & Hcategory & Hfiltered & Hexp & Hfinal).
    rewrite (Hfinal eq_refl) in *. clear Hfinal final.
    rewrite (rule_agent_text None None (Some o)
               (Some (mkObject (Some (u "refrigerador")) None None None None))) in Hrules.
    2:{ now rewrite (combined_text_sole o _ Hname eq_refl Hcap). }
    vm_compute in Hrules. injection Hrules as Hrules. subst rules.
    exists r, w2.
    split; [exact Hrun |]. split; [exact Hfiltered |].
    split; [rewrite Hcategory; vm_compute; reflexivity |].
    split; [exact Hconf' |].
    rewrite Hexp. reflexivity.
Qed.

End Classify.

Lemma classification_result_invariant_witness :
  exists r,
    fst (classify_image_bytes latin1_lower upload None false car_world) = Ok r /\
    ((has_category r /\ ~ is_filtered r) \/ (~ has_category r /\ is_filtered r)) /\
    res_top_object r = _pick_best_object (res_visual_objects r) /\
    (forall o, res_top_object r = Some o -> confidence o = Some (res_confidence r)) /\
    (res_top_object r = None -> res_confidence r = 0%Q).
Proof.
  eexists. split; [vm_compute; reflexivity |].
  eapply (classification_result_invariant latin1_lower upload None false car_world).
  vm_compute. reflexivity.
Defined.

Lemma sole_object_classification_witness :
  (exists r w2 cname,
     classify_image_bytes latin1_lower upload None false refrigerator_world
     = (Ok r, w2) /\
     res_filtered r = None /\
     res_category r
       = Some (match size_bucket (res_size r) with
               | Some b => if PyStr.eqb b grande then 4 else 5
               | None => 5
               end, cname) /\
     res_confidence r = 9 # 10 /\
     option_map source (res_explanation r) = Some (u "size_fallback")).
Proof.
  edestruct (sole_object_classification latin1_lower upload None
               refrigerator_world) as [Hfallback _].
  - vm_compute. reflexivity.
  - reflexivity.
  - reflexivity.
  - reflexivity.
  - reflexivity.
  - apply Hfallback. reflexivity.
Defined.

(** C9. The code at the input of the end-to-end example: the sole detected
    object is named "refrigerator", has confidence 0.9 and no caption, there
    is no scene caption, and the result is category 5 from the size
    fallback, not category 1 from the keywords.  The keyword table of
    category 1 holds "refrigerador", "fridge" and "freezer", and misses
    "refrigerator". *)
Lemma refrigerator_is_not_category_1 :
  exists r w2,
    classify_image_bytes latin1_lower upload None false refrigerator_world
    = (Ok r, w2) /\
    List.map (fun o => (name o, confidence o, caption o)) (res_visual_objects r)
    = [(Some (u "refrigerator"), Some (9 # 10), None)] /\
    res_image_caption r = None /\
    res_confidence r = 9 # 10 /\
    res_category r = Some (5, u "Pequenos (dimensão <= 50cm)") /\
    res_category r <> Some (1, u "Equipamentos de troca de temperatura") /\
    option_map source (res_explanation r) = Some (u "size_fallback") /\
    option_map source (res_explanation r) <> Some (u "keywords").
Proof.
  eexists. eexists. split; [vm_compute; reflexivity |].
  repeat split; try (vm_compute; reflexivity); vm_compute; discriminate.
Qed.

(** Named "refrigerador" the same object is of category 1. *)
Example refrigerador_is_category_1 :
  exists r w2,
    classify_image_bytes latin1_lower upload None false refrigerador_world
    = (Ok r, w2) /\
    res_category r = Some (1, u "Equipamentos de troca de temperatura") /\
    res_confidence r = 9 # 10 /\
    option_map source (res_explanation r) = Some (u "keywords").
Proof.
  eexists. eexists. split; [vm_compute; reflexivity |].
  repeat split; vm_compute; reflexivity.
Qed.

(** A car on a street is filtered out. *)
Example car_is_filtered :
  exists r w2,
    classify_image_bytes latin1_lower upload None false car_world = (Ok r, w2) /\
    res_category r = None /\
    option_map fst (res_filtered r) = Some (u "non_eee").
Proof.
  eexists. eexists. split; [vm_compute; reflexivity |].
  split; vm_compute; reflexivity.
Qed.


End ClassifierProps.

(* ================================================================== *)
(** * More properties of the boxes and of the image normalizer *)
(* ================================================================== *)

Module VisionMore.

Import Spec MoreSpec VisionProps.

Lemma inter_area_bounds (a b : BBox) :
  nonneg_box a -> nonneg_box b ->
  0 <= inter_area a b /\ inter_area a b <= bw a * bh a /\
  inter_area a b <= bw b * bh b.
Proof.
  intros [Haw Hah] [Hbw Hbh]. unfold inter_area.
  set (iw := Z.max 0 (Z.min (bx a + bw a) (bx b + bw b) - Z.max (bx a) (bx b))).
  set (ih := Z.max 0 (Z.min (by_ a + bh a) (by_ b + bh b) - Z.max (by_ a) (by_ b))).
  assert (0 <= iw <= bw a /\ iw <= bw b) by (unfold iw; lia).
  assert (0 <= ih <= bh a /\ ih <= bh b) by (unfold ih; lia).
  nia.
Qed.

Lemma truediv_unit_interval (n d : Z) :
  0 <= n <= d -> 0 < d -> (0 <= PyFloat.truediv n d <= 1)%Q.
Proof.
  intros Hn Hd. unfold PyFloat.truediv.
  rewrite Qred_correct. unfold Qle. simpl.
  rewrite Z2Pos.id by lia. lia.
Qed.

(** X1. For two boxes whose width and height are not negative the IoU is a
    ratio between 0 and 1, in [_iou] and in [_bbox_iou]. *)
Theorem iou_between_0_and_1 (a b : BBox) :
  nonneg_box a -> nonneg_box b ->
  (0 <= _iou a b <= 1)%Q /\ (0 <= Routes._bbox_iou a b <= 1)%Q.
Proof.
  intros Ha Hb. rewrite bbox_iou_is_iou.
  assert (H : (0 <= _iou a b <= 1)%Q); [| now split].
  rewrite iou_unfold.
  destruct (Z.leb_spec (union_area a b) 0) as [Hle | Hlt].
  - split; discriminate.
  - destruct (inter_area_bounds a b Ha Hb) as (H0 & H1 & H2).
    apply truediv_unit_interval; [| exact Hlt].
    unfold union_area in *. lia.
Qed.

Lemma iou_between_0_and_1_witness :
  (0 <= _iou (mkBBox 0 0 10 10) (mkBBox 5 5 10 10) <= 1)%Q /\
  (0 <= Routes._bbox_iou (mkBBox 0 0 10 10) (mkBBox 5 5 10 10) <= 1)%Q.
Proof.
  apply (iou_between_0_and_1 (mkBBox 0 0 10 10) (mkBBox 5 5 10 10));
    split; simpl; lia.
Defined.

Lemma truediv_eq_1 (n d : Z) : 0 < d -> (PyFloat.truediv n d == 1)%Q -> n = d.
Proof.
  intros Hd H. unfold PyFloat.truediv in H. rewrite Qred_correct in H.
  unfold Qeq in H. simpl in H. rewrite Z2Pos.id in H by lia. lia.
Qed.

Lemma bbox_eq (a b : BBox) :
  bx a = bx b -> by_ a = by_ b -> bw a = bw b -> bh a = bh b -> a = b.
Proof. destruct a, b. simpl. intros -> -> -> ->. reflexivity. Qed.

Lemma iou_1_identical (a b : BBox) :
  rectangle a -> rectangle b -> (_iou a b == 1)%Q -> a = b.
Proof.
  intros [Haw Hah] [Hbw Hbh] H. rewrite iou_unfold in H.
  destruct (Z.leb_spec (union_area a b) 0) as [Hle | Hlt]; [discriminate H |].
  apply truediv_eq_1 in H; [| exact Hlt].
  unfold union_area, inter_area in *.
  set (iw := Z.max 0 (Z.min (bx a + bw a) (bx b + bw b) - Z.max (bx a) (bx b))) in *.
  set (ih := Z.max 0 (Z.min (by_ a + bh a) (by_ b + bh b) - Z.max (by_ a) (by_ b))) in *.
  assert (Hiw : 0 <= iw <= bw a /\ iw <= bw b) by (unfold iw; lia).
  assert (Hih : 0 <= ih <= bh a /\ ih <= bh b) by (unfold ih; lia).
  assert (Eiw : iw = Z.max 0 (Z.min (bx a + bw a) (bx b + bw b) - Z.max (bx a) (bx b)))
    by reflexivity.
  assert (Eih : ih = Z.max 0 (Z.min (by_ a + bh a) (by_ b + bh b) - Z.max (by_ a) (by_ b)))
    by reflexivity.
  clearbody iw ih.
  assert (Hareas : 0 < bw a * bh a /\ 0 < bw b * bh b) by nia.
  assert (Hpos : 0 < iw * ih) by lia.
  assert (Hiw0 : 0 < iw) by nia.
  assert (Hih0 : 0 < ih) by nia.
  assert (Ha : iw * ih <= bw a * bh a) by nia.
  assert (Hb : iw * ih <= bw b * bh b) by nia.
  assert (Ea : iw * ih = bw a * bh a) by lia.
  assert (Eb : iw * ih = bw b * bh b) by lia.
  assert (Ewa : iw = bw a) by nia.
  assert (Eha : ih = bh a) by nia.
  assert (Ewb : iw = bw b) by nia.
  assert (Ehb : ih = bh b) by nia.
  apply bbox_eq; lia.
Qed.

(** X2. For two rectangles whose union has an area of at most [2 ^ 53]:
    an IoU of 1 is reached only by two identical rectangles, and two
    different rectangles have an IoU below 1. *)
Theorem iou_1_only_identical (a b : BBox) :
  rectangle a -> rectangle b -> union_area a b <= exact_int_bound ->
  ((_iou a b == 1)%Q -> a = b) /\ (a <> b -> (_iou a b < 1)%Q).
Proof.
  intros Ha Hb _. split; [now apply iou_1_identical |].
  intros Hne.
  assert (Hle : (_iou a b <= 1)%Q).
  { rewrite iou_unfold.
    destruct (Z.leb_spec (union_area a b) 0) as [Hle | Hlt]; [discriminate |].
    assert (Hna : nonneg_box a) by (destruct Ha; split; lia).
    assert (Hnb : nonneg_box b) by (destruct Hb; split; lia).
    destruct (inter_area_bounds a b Hna Hnb) as (H0 & H1 & H2).
    apply truediv_unit_interval; [| exact Hlt].
    unfold union_area in *. lia. }
  apply Qle_lt_or_eq in Hle. destruct Hle as [Hlt | Heq]; [exact Hlt |].
  exfalso. apply Hne. now apply iou_1_identical.
Qed.

Lemma iou_1_only_identical_witness :
  (_iou (mkBBox 3 4 20 10) (mkBBox 3 4 20 11) < 1)%Q.
Proof.
  apply (iou_1_only_identical (mkBBox 3 4 20 10) (mkBBox 3 4 20 11)).
  - split; simpl; lia.
  - split; simpl; lia.
  - vm_compute. discriminate.
  - discriminate.
Defined.

(** X3. For a rectangle lying within another one whose area is at most
    [2 ^ 53], the overlap test [>= 0.2] of the deduplication holds exactly
    when the inner rectangle covers at least a fifth of the outer one. *)
Theorem iou_of_contained_box (a b : BBox) :
  rectangle a -> inside a b -> bw b * bh b <= exact_int_bound ->
  (PyFloat.geb (Routes._bbox_iou a b) (1 # 5) = true <->
   bw b * bh b <= 5 * (bw a * bh a)).
Proof.
  intros [Haw Hah] (Hx1 & Hx2 & Hy1 & Hy2) _.
  assert (Hinter : inter_area a b = bw a * bh a).
  { unfold inter_area.
    rewrite (Z.min_l (bx a + bw a) (bx b + bw b)) by lia.
    rewrite (Z.max_l (bx a) (bx b)) by lia.
    rewrite (Z.min_l (by_ a + bh a) (by_ b + bh b)) by lia.
    rewrite (Z.max_l (by_ a) (by_ b)) by lia.
    rewrite !Z.max_r by lia. f_equal; lia. }
  assert (Hunion : union_area a b = bw b * bh b).
  { unfold union_area. rewrite Hinter. lia. }
  assert (Hpos : 0 < bw b * bh b).
  { assert (bw a <= bw b) by lia. assert (bh a <= bh b) by lia. nia. }
  rewrite bbox_iou_is_iou, iou_unfold, Hunion, Hinter.
  destruct (Z.leb_spec (bw b * bh b) 0) as [Hle | _]; [lia |].
  unfold PyFloat.geb. rewrite Qle_bool_iff.
  unfold PyFloat.truediv. rewrite Qred_correct.
  unfold Qle. cbn [Qnum Qden]. rewrite Z2Pos.id by lia. lia.
Qed.

Lemma iou_of_contained_box_witness :
  (PyFloat.geb (Routes._bbox_iou (mkBBox 10 10 40 10) (mkBBox 0 0 100 100)) (1 # 5)
   = true <-> 100 * 100 <= 5 * (40 * 10)) /\
  (PyFloat.geb (Routes._bbox_iou (mkBBox 10 10 40 50) (mkBBox 0 0 100 100)) (1 # 5)
   = true <-> 100 * 100 <= 5 * (40 * 50)).
Proof.
  split.
  - apply (iou_of_contained_box (mkBBox 10 10 40 10) (mkBBox 0 0 100 100)).
    + split; simpl; lia.
    + repeat split; simpl; lia.
    + vm_compute. discriminate.
  - apply (iou_of_contained_box (mkBBox 10 10 40 50) (mkBBox 0 0 100 100)).
    + split; simpl; lia.
    + repeat split; simpl; lia.
    + vm_compute. discriminate.
Defined.

(** X4. Every crop made by [_crop_regions] has a positive width and height
    and is not larger than the image; a box that misses the image gives no
    crop, so there are at most as many crops as boxes; and when every box is
    a rectangle within the image there is one crop per box, of the size of
    its box. *)
Theorem crop_regions_sizes (img : Image) (bboxes : list BBox) :
  (forall c, In c (_crop_regions img bboxes) ->
     0 < img_w c <= img_w img /\ 0 < img_h c <= img_h img) /\
  (List.length (_crop_regions img bboxes) <= List.length bboxes)%nat /\
  (Forall (box_in_image img) bboxes ->
   List.map (fun c => (img_w c, img_h c)) (_crop_regions img bboxes)
   = List.map (fun r => (bw r, bh r)) bboxes).
Proof.
  induction bboxes as [| r rest (IHin & IHlen & IHall)].
  - split; [intros c [] | split; [simpl; lia | reflexivity]].
  - cbn [_crop_regions].
    destruct ((Z.max 0 (bx r) <? Z.min (img_w img) (bx r + bw r))
              && (Z.max 0 (by_ r) <? Z.min (img_h img) (by_ r + bh r))) eqn:E.
    + apply andb_true_iff in E. rewrite !Z.ltb_lt in E. destruct E as [Ex Ey].
      split; [| split].
      * intros c [<- | Hc]; [cbn [crop img_w img_h]; lia | now apply IHin].
      * simpl. lia.
      * intros Hall. inversion Hall as [| ? ? Hr Hrest]; subst.
        destruct Hr as (H1 & H2 & H3 & H4 & H5 & H6).
        cbn [List.map crop img_w img_h]. rewrite (IHall Hrest).
        f_equal. f_equal; lia.
    + split; [exact IHin | split; [simpl; lia |]].
      intros Hall. inversion Hall as [| ? ? Hr Hrest]; subst.
      destruct Hr as (H1 & H2 & H3 & H4 & H5 & H6).
      apply andb_false_iff in E. rewrite !Z.ltb_ge in E. lia.
Qed.

Lemma crop_regions_sizes_witness :
  List.map (fun c => (img_w c, img_h c))
    (_crop_regions (mkImage 100 80 (Source 1)) [mkBBox 10 10 50 40; mkBBox 0 0 100 80])
  = [(50, 40); (100, 80)].
Proof.
  apply (proj2 (proj2 (crop_regions_sizes (mkImage 100 80 (Source 1))
                         [mkBBox 10 10 50 40; mkBBox 0 0 100 80]))).
  repeat constructor; simpl; lia.
Defined.

(** A box that sticks out of the image is clipped, one outside is dropped. *)
Example crop_regions_clips :
  List.map (fun c => (img_w c, img_h c))
    (_crop_regions (mkImage 100 80 (Source 1))
       [mkBBox (-10) 60 50 40; mkBBox 100 0 20 20; mkBBox 5 5 0 10])
  = [(40, 20)].
Proof. reflexivity. Qed.

Lemma round_not_zero_division (x : float) :
  PyFloat.round x <> Raise ZeroDivisionError.
Proof.
  unfold PyFloat.round. destruct (Prim2SF x); discriminate.
Qed.

(** The shape of a run of [_resize_to_valid]: it raises, or returns the
    image itself, or returns a resize of it with clamped sides. *)
Lemma resize_to_valid_cases (img : Image) (min_side max_side : Z) :
  (exists e, _resize_to_valid img min_side max_side = Raise e /\
             (e = ZeroDivisionError ->
              Z.min (img_w img) (img_h img) = 0 \/ Z.max (img_w img) (img_h img) = 0)) \/
  _resize_to_valid img min_side max_side = Ok img \/
  (exists rw rh,
     _resize_to_valid img min_side max_side
     = Ok (resize img (Z.max min_side (Z.min rw max_side))
                      (Z.max min_side (Z.min rh max_side)))).
Proof.
  unfold _resize_to_valid.
  destruct (Z.min (img_w img) (img_h img) <? min_side).
  - destruct (Z.eqb_spec (Z.min (img_w img) (img_h img)) 0) as [E0 | _].
    { left. eexists. split; [reflexivity | now left]. }
    destruct (max_side <? Z.max (img_w img) (img_h img)).
    + destruct (Z.eqb_spec (Z.max (img_w img) (img_h img)) 0) as [E1 | _].
      { left. eexists. split; [reflexivity | now right]. }
      match goal with |- context [negb ?c] => destruct c end; cbn [negb];
        [now (right; left) |].
      match goal with
      | |- context [PyFloat.round ?x] =>
          pose proof (round_not_zero_division x); destruct (PyFloat.round x)
      end.
      * match goal with
        | |- context [PyFloat.round ?x] =>
            pose proof (round_not_zero_division x); destruct (PyFloat.round x)
        end.
        -- right. right. eexists. eexists. reflexivity.
        -- left. eexists. split; [reflexivity | intros ->; congruence].
      * left. eexists. split; [reflexivity | intros ->; congruence].
    + match goal with |- context [negb ?c] => destruct c end; cbn [negb];
        [now (right; left) |].
      match goal with
      | |- context [PyFloat.round ?x] =>
          pose proof (round_not_zero_division x); destruct (PyFloat.round x)
      end.
      * match goal with
        | |- context [PyFloat.round ?x] =>
            pose proof (round_not_zero_division x); destruct (PyFloat.round x)
        end.
        -- right. right. eexists. eexists. reflexivity.
        -- left. eexists. split; [reflexivity | intros ->; congruence].
      * left. eexists. split; [reflexivity | intros ->; congruence].
  - destruct (max_side <? Z.max (img_w img) (img_h img)).
    + destruct (Z.eqb_spec (Z.max (img_w img) (img_h img)) 0) as [E1 | _].
      { left. eexists. split; [reflexivity | now right]. }
      match goal with |- context [negb ?c] => destruct c end; cbn [negb];
        [now (right; left) |].
      match goal with
      | |- context [PyFloat.round ?x] =>
          pose proof (round_not_zero_division x); destruct (PyFloat.round x)
      end.
      * match goal with
        | |- context [PyFloat.round ?x] =>
            pose proof (round_not_zero_division x); destruct (PyFloat.round x)
        end.
        -- right. right. eexists. eexists. reflexivity.
        -- left. eexists. split; [reflexivity | intros ->; congruence].
      * left. eexists. split; [reflexivity | intros ->; congruence].
    + right. left. reflexivity.
Qed.

Lemma resize_to_valid_noop (img : Image) (min_side max_side : Z) :
  min_side <= Z.min (img_w img) (img_h img) ->
  Z.max (img_w img) (img_h img) <= max_side ->
  _resize_to_valid img min_side max_side = Ok img.
Proof.
  intros Hmin Hmax. unfold _resize_to_valid.
  destruct (Z.ltb_spec (Z.min (img_w img) (img_h img)) min_side) as [H | _]; [lia |].
  destruct (Z.ltb_spec max_side (Z.max (img_w img) (img_h img))) as [H | _]; [lia |].
  reflexivity.
Qed.

(** X5. Whatever [_resize_to_valid] returns is the image itself or a
    bicubic resize of it whose two sides lie between the minimum and the
    maximum side; and normalizing the result again changes nothing. *)
Theorem resize_to_valid_result (img r : Image) (min_side max_side : Z) :
  min_side <= max_side ->
  _resize_to_valid img min_side max_side = Ok r ->
  (r = img \/
   (min_side <= img_w r <= max_side /\ min_side <= img_h r <= max_side /\
    raster r = Bicubic (raster img) (img_w r) (img_h r))) /\
  _resize_to_valid r min_side max_side = Ok r.
Proof.
  intros Hle Hrun.
  destruct (resize_to_valid_cases img min_side max_side)
    as [(e & He & _) | [Hsame | (rw & rh & Hres)]].
  - rewrite He in Hrun. discriminate.
  - rewrite Hsame in Hrun. injection Hrun as <-.
    split; [now left | exact Hsame].
  - rewrite Hres in Hrun. injection Hrun as <-.
    cbn [resize img_w img_h raster].
    split; [right; split; [lia | split; [lia | reflexivity]] |].
    apply resize_to_valid_noop; cbn [resize img_w img_h]; lia.
Qed.

Lemma resize_to_valid_result_witness :
  (mkImage 50 63 (Bicubic (Source 1) 50 63) = mkImage 24 30 (Source 1) \/
   (50 <= 50 <= 16000 /\ 50 <= 63 <= 16000 /\
    Bicubic (Source 1) 50 63 = Bicubic (Source 1) 50 63)) /\
  _resize_to_valid (mkImage 50 63 (Bicubic (Source 1) 50 63)) 50 16000
  = Ok (mkImage 50 63 (Bicubic (Source 1) 50 63)).
Proof.
  apply (resize_to_valid_result (mkImage 24 30 (Source 1))
           (mkImage 50 63 (Bicubic (Source 1) 50 63)) 50 16000).
  - lia.
  - vm_compute. reflexivity.
Defined.

(** X6. On an image whose sides are not negative, [_resize_to_valid] with a
    positive minimum side raises [ZeroDivisionError] exactly when one of the
    sides is 0. *)
Theorem resize_to_valid_zero_side (img : Image) (min_side max_side : Z) :
  0 < min_side -> 0 <= max_side ->
  0 <= img_w img -> 0 <= img_h img ->
  (_resize_to_valid img min_side max_side = Raise ZeroDivisionError <->
   img_w img = 0 \/ img_h img = 0).
Proof.
  intros Hmin Hmax Hw Hh. split.
  - intros Hrun.
    destruct (resize_to_valid_cases img min_side max_side)
      as [(e & He & Hzero) | [Hsame | (rw & rh & Hres)]].
    + rewrite He in Hrun. injection Hrun as ->.
      destruct (Hzero eq_refl); lia.
    + rewrite Hsame in Hrun. discriminate.
    + rewrite Hres in Hrun. discriminate.
  - intros Hzero. unfold _resize_to_valid.
    assert (E : Z.min (img_w img) (img_h img) = 0) by lia.
    rewrite E.
    destruct (Z.ltb_spec 0 min_side) as [_ | H]; [reflexivity | lia].
Qed.

Lemma resize_to_valid_zero_side_witness :
  _resize_to_valid (mkImage 0 480 (Source 3)) 50 16000 = Raise ZeroDivisionError
  <-> 0 = 0 \/ 480 = 0.
Proof.
  apply (resize_to_valid_zero_side (mkImage 0 480 (Source 3)) 50 16000);
    simpl; lia.
Defined.

(** ** Runs of [analyze_image_bytes] *)

(** A run that returns went through each of its steps. *)
Lemma analyze_image_bytes_steps (image_bytes : ImageBytes)
    (static_dir : option pystr) (enable_grid_fallback : bool)
    (min_side max_side : Z) (w w' : World) (res : AnalyzeResult) :
  analyze_image_bytes image_bytes static_dir enable_grid_fallback
    min_side max_side w = (Ok res, w') ->
  exists pil_img0 pil_img analysis objects1 w4 st,
    image_open image_bytes = Ok pil_img0 /\
    _resize_to_valid pil_img0 min_side max_side = Ok pil_img /\
    provider w (calls w) (_image_to_bytes pil_img) [CAPTION; OBJECTS] = Ok analysis /\
    caption_objects (session_of w) (crops_dir_of static_dir w) min_side max_side
      (detection_crops pil_img analysis) 0
      (List.map object_of_detection (detections analysis))
      (world_after_primary static_dir pil_img w) = (Ok objects1, w4) /\
    (if enable_grid_fallback && (List.length objects1 <? 4)%nat
     then grid_scan pil_img (session_of w) (crops_dir_of static_dir w)
            min_side max_side
            (mkGridState objects1
               (List.map bbox_of_detection (detections analysis))
               (captions_seen objects1) 0)
            grid_cells w4 = (Ok st, w')
     else g_objects st = objects1 /\ w' = w4) /\
    res = mkAnalyzeResult (session_of w)
            (u "/static/uploads/" ++ session_of w ++ u "/original.jpg")
            (an_caption analysis) (g_objects st).
Proof.
  unfold analyze_image_bytes. intros Hrun.
  apply bind_inv in Hrun. destruct Hrun as (sid & w1 & Hsid & Hrun).
  injection Hsid as <- <-.
  apply bind_inv in Hrun. destruct Hrun as (? & w2 & H2 & Hrun).
  injection H2 as _ <-.
  apply bind_inv in Hrun. destruct Hrun as (? & w3 & H3 & Hrun).
  injection H3 as _ <-.
  apply bind_inv in Hrun. destruct Hrun as (pil_img0 & w4 & Hopen & Hrun).
  unfold lift in Hopen. injection Hopen as Hopen <-.
  apply bind_inv in Hrun. destruct Hrun as (pil_img & w5 & Hresize & Hrun).
  unfold lift in Hresize. injection Hresize as Hresize <-.
  apply bind_inv in Hrun. destruct Hrun as (? & w6 & Hsave & Hrun).
  injection Hsave as _ <-.
  apply bind_inv in Hrun. destruct Hrun as (analysis & w7 & Hprimary & Hrun).
  injection Hprimary as Hprimary <-.
  apply bind_inv in Hrun. destruct Hrun as (objects1 & w8 & Hloop & Hrun).
  apply bind_inv in Hrun. destruct Hrun as (st & w9 & Hst & Hret).
  injection Hret as <- <-.
  exists pil_img0, pil_img, analysis, objects1, w8, st.
  split; [exact Hopen |]. split; [exact Hresize |]. split; [exact Hprimary |].
  split; [exact Hloop |].
  split; [| reflexivity].
  destruct (enable_grid_fallback && (List.length objects1 <? 4)%nat).
  - exact Hst.
  - injection Hst as <- <-. split; reflexivity.
Qed.

(** What the caption loop does, object by object: the object at position
    [idx + i] gets the crop at the same position when there is one, with the
    URL of the file the crop was saved to, and stays as it is otherwise; the
    provider is called once per crop. *)
Lemma caption_objects_spec (sid dir : pystr) (min_side max_side : Z)
    (crops : list Image) (objs : list DetectedObject) :
  forall (idx : nat) (w w' : World) (objs' : list DetectedObject),
    caption_objects sid dir min_side max_side crops idx objs w = (Ok objs', w') ->
    provider w' = provider w /\
    calls w' = (calls w + Nat.min (List.length objs) (List.length crops - idx))%nat /\
    List.length objs' = List.length objs /\
    (forall f, In f (files w) -> In f (files w')) /\
    (forall i o', nth_error objs' i = Some o' ->
       match nth_error crops (idx + i) with
       | Some c =>
           crop_url o' = Some (crop_url_of sid (crop_name (idx + i))) /\
           In (path_join dir (crop_name (idx + i)), _image_to_bytes c) (files w')
       | None => nth_error objs i = Some o'
       end).
Proof.
  induction objs as [| obj rest IH]; intros idx w w' objs' Hrun.
  - injection Hrun as <- <-.
    repeat split; try reflexivity; try (simpl; lia); auto.
    intros i o' H. destruct i; discriminate.
  - cbn [caption_objects] in Hrun.
    apply bind_inv in Hrun. destruct Hrun as (obj' & w1 & Hobj & Hrun).
    apply bind_inv in Hrun. destruct Hrun as (rest' & w2 & Hrest & Hret).
    injection Hret as <- <-.
    destruct (IH (S idx) w1 w2 rest' Hrest) as (Hp & Hc & Hlen & Hfiles & Hnth).
    destruct (nth_error crops idx) as [crop_img |] eqn:Ecrop.
    + (* the object has a crop *)
      apply bind_inv in Hobj. destruct Hobj as (? & wa & Hsave & Hobj).
      injection Hsave as _ <-.
      apply bind_inv in Hobj. destruct Hobj as (cfv & wb & Hres & Hobj).
      unfold lift in Hres. injection Hres as _ <-.
      apply bind_inv in Hobj. destruct Hobj as (ca & wc & Han & Hobj).
      injection Han as _ <-. injection Hobj as <- <-.
      cbn [provider calls files] in Hp, Hc, Hfiles.
      assert (Hidx : (idx < List.length crops)%nat).
      { apply nth_error_Some. congruence. }
      split; [exact Hp |].
      split; [rewrite Hc; cbn [List.length]; lia |].
      split; [simpl; now rewrite Hlen |].
      split; [intros f Hf; apply Hfiles; now right |].
      intros [| i] o' Ho'.
      * rewrite Nat.add_0_r, Ecrop. injection Ho' as <-.
        split; [reflexivity |]. apply Hfiles. now left.
      * replace (idx + S i)%nat with (S idx + i)%nat by lia.
        now apply Hnth.
    + (* no crop at this index, nor at any later one *)
      injection Hobj as <- <-.
      assert (Hidx : (List.length crops <= idx)%nat) by now apply nth_error_None.
      split; [exact Hp |].
      split; [rewrite Hc; cbn [List.length]; lia |].
      split; [simpl; now rewrite Hlen |].
      split; [exact Hfiles |].
      intros [| i] o' Ho'.
      * rewrite Nat.add_0_r, Ecrop. exact Ho'.
      * replace (idx + S i)%nat with (S idx + i)%nat by lia.
        now apply Hnth.
Qed.

(** ** The grid fallback *)

Lemma existsb_eqb_In (c : pystr) (l : list pystr) :
  existsb (PyStr.eqb c) l = true <-> In c l.
Proof.
  rewrite existsb_exists. split.
  - intros (x & Hx & E). apply ClassifierProps.pystr_eqb_eq in E. now subst x.
  - intros H. exists c. split; [exact H |]. now apply ClassifierProps.pystr_eqb_eq.
Qed.

(** One cell: the state is kept, or one pseudo-object is added whose
    caption is not blank and was not seen before. *)
Lemma grid_step_spec (pil_img : Image) (sid dir : pystr) (min_side max_side : Z)
    (st st' : GridState) (cell : Z * Z) (w w' : World) :
  grid_step pil_img sid dir min_side max_side st cell w = (Ok st', w') ->
  provider w' = provider w /\
  (forall f, In f (files w) -> In f (files w')) /\
  (st' = st \/
   exists box c crop_img,
     st' = mkGridState (g_objects st ++ [cell_object sid st box c])
             (g_bboxes st ++ [box]) (c :: g_seen st) (S (g_added st)) /\
     strip c <> [] /\ ~ In c (g_seen st) /\
     In (path_join dir (extra_name (g_added st)), _image_to_bytes crop_img)
        (files w')).
Proof.
  destruct cell as [gy gx]. unfold grid_step.
  destruct (max_extra <=? g_added st)%nat.
  { intros H. injection H as <- <-. repeat split; auto. }
  destruct ((bw (cell_box (img_w pil_img) (img_h pil_img) gy gx) <? min_side)
            || (bh (cell_box (img_w pil_img) (img_h pil_img) gy gx) <? min_side)).
  { intros H. injection H as <- <-. repeat split; auto. }
  destruct (existsb _ (g_bboxes st)).
  { intros H. injection H as <- <-. repeat split; auto. }
  intros Hrun.
  apply bind_inv in Hrun. destruct Hrun as (? & wa & Hsave & Hrun).
  injection Hsave as _ <-.
  apply bind_inv in Hrun. destruct Hrun as (efv & wb & Hres & Hrun).
  unfold lift in Hres. injection Hres as _ <-.
  apply bind_inv in Hrun. destruct Hrun as (ea & wc & Han & Hrun).
  injection Han as _ <-.
  assert (Hkeep : forall f, In f (files w) ->
                    In f ((path_join dir (u "extra_" ++ format_03d (N.of_nat (g_added st))
                                            ++ u ".jpg"),
                           _image_to_bytes
                             (crop pil_img
                                (bx (cell_box (img_w pil_img) (img_h pil_img) gy gx))
                                (by_ (cell_box (img_w pil_img) (img_h pil_img) gy gx))
                                (bx (cell_box (img_w pil_img) (img_h pil_img) gy gx)
                                 + bw (cell_box (img_w pil_img) (img_h pil_img) gy gx))
                                (by_ (cell_box (img_w pil_img) (img_h pil_img) gy gx)
                                 + bh (cell_box (img_w pil_img) (img_h pil_img) gy gx))))
                          :: files w)) by (intros f Hf; now right).
  destruct (an_caption ea) as [c |].
  2:{ injection Hrun as <- <-. split; [reflexivity |]. split; [exact Hkeep | now left]. }
  destruct (PyStr.eqb (strip c) []) eqn:Eblank.
  { injection Hrun as <- <-. split; [reflexivity |]. split; [exact Hkeep | now left]. }
  destruct (existsb (PyStr.eqb c) (g_seen st)) eqn:Eseen.
  { injection Hrun as <- <-. split; [reflexivity |]. split; [exact Hkeep | now left]. }
  injection Hrun as <- <-.
  split; [reflexivity |]. split; [exact Hkeep |].
  right. eexists. exists c. eexists.
  split; [reflexivity |].
  split.
  { intros E. apply ClassifierProps.pystr_eqb_eq in E. congruence. }
  split.
  { intros H. apply existsb_eqb_In in H. congruence. }
  left. reflexivity.
Qed.

(** The whole scan adds at most one pseudo-object per cell; their captions
    are not blank, differ from one another and from the captions seen
    before the scan; each has its crop saved under the URL it carries. *)
Lemma grid_scan_spec (pil_img : Image) (sid dir : pystr) (min_side max_side : Z)
    (cells : list (Z * Z)) :
  forall (st st' : GridState) (w w' : World),
    grid_scan pil_img sid dir min_side max_side st cells w = (Ok st', w') ->
    provider w' = provider w /\
    (forall f, In f (files w) -> In f (files w')) /\
    exists extras,
      g_objects st' = g_objects st ++ extras /\
      (List.length extras <= List.length cells)%nat /\
      Forall pseudo_object extras /\
      Forall well_formed extras /\
      NoDup (List.map caption extras) /\
      (forall e c, In e extras -> caption e = Some c -> ~ In c (g_seen st)) /\
      (forall e, In e extras ->
         exists n crop_img,
           crop_url e = Some (crop_url_of sid (extra_name n)) /\
           In (path_join dir (extra_name n), _image_to_bytes crop_img) (files w')).
Proof.
  induction cells as [| cell rest IH]; intros st st' w w' Hrun.
  - injection Hrun as <- <-.
    split; [reflexivity |]. split; [auto |].
    exists []. rewrite app_nil_r.
    repeat split; try constructor; try (simpl; lia); intros e; intros; contradiction.
  - cbn [grid_scan] in Hrun.
    apply bind_inv in Hrun. destruct Hrun as (st1 & w1 & Hstep & Hrun).
    apply grid_step_spec in Hstep. destruct Hstep as (Hp1 & Hf1 & Hcase).
    destruct (IH st1 st' w1 w' Hrun)
      as (Hp & Hf & extras & Hobjs & Hlen & Hpseudo & Hwf & Hnd & Hseen & Hfile).
    split; [now rewrite Hp |].
    split; [intros f Hin; now apply Hf, Hf1 |].
    destruct Hcase as [-> | (box & c & crop_img & -> & Hblank & Hnew & Hsaved)].
    + exists extras. repeat split; try assumption. simpl. lia.
    + cbn [g_objects g_seen] in Hobjs, Hseen.
      exists (cell_object sid st box c :: extras).
      assert (Hc : c <> []) by (intros ->; now apply Hblank).
      split; [rewrite Hobjs, <- app_assoc; reflexivity |].
      split; [simpl; lia |].
      split.
      { constructor; [| exact Hpseudo].
        repeat split. destruct c; [congruence | reflexivity]. }
      split.
      { constructor; [| exact Hwf].
        repeat split; try discriminate. destruct c; [congruence | reflexivity]. }
      split.
      { cbn [List.map]. constructor; [| exact Hnd].
        intros Hin. apply in_map_iff in Hin. destruct Hin as (e & He & Hine).
        apply (Hseen e c Hine He). now left. }
      split.
      { intros e c' [<- | Hine] Hcap.
        - injection Hcap as <-. exact Hnew.
        - intros Hin. apply (Hseen e c' Hine Hcap). now right. }
      intros e [<- | Hine]; [| now apply Hfile].
      exists (g_added st), crop_img. split; [reflexivity | now apply Hf].
Qed.


(** X7. Bytes that are not an image end [analyze_image_bytes], and
    [classify_image_bytes] after it, with [UnidentifiedImageError] before
    anything else happens: the provider is not called and no file is
    written. *)
Theorem unparsable_bytes_are_fatal (unicode_lower : pystr -> pystr) (id : N)
    (static_dir : option pystr) (flag : bool) (min_side max_side : Z)
    (w : World) :
  (exists w',
     analyze_image_bytes (NotAnImage id) static_dir flag min_side max_side w
     = (Raise UnidentifiedImageError, w') /\
     calls w' = calls w /\ files w' = files w) /\
  (exists w',
     classify_image_bytes unicode_lower (NotAnImage id) static_dir flag w
     = (Raise UnidentifiedImageError, w') /\
     calls w' = calls w /\ files w' = files w).
Proof.
  split; eexists; (split; [reflexivity | split; reflexivity]).
Qed.

(** X8. When the provider fails on the whole-image call,
    [analyze_image_bytes] raises that very error after this single call,
    with only the normalized original written; [classify_image_bytes] raises
    it as well. *)
Theorem primary_failure_is_fatal (unicode_lower : pystr -> pystr)
    (image_bytes : ImageBytes) (static_dir : option pystr) (flag : bool)
    (w : World) (pil_img0 pil_img : Image) (e : exn) :
  image_open image_bytes = Ok pil_img0 ->
  _resize_to_valid pil_img0 50 16000 = Ok pil_img ->
  provider w (calls w) (_image_to_bytes pil_img) [CAPTION; OBJECTS] = Raise e ->
  analyze_image_bytes image_bytes static_dir flag 50 16000 w
  = (Raise e, world_after_primary static_dir pil_img w) /\
  classify_image_bytes unicode_lower image_bytes static_dir flag w
  = (Raise e, world_after_primary static_dir pil_img w).
Proof.
  intros Hopen Hresize Hfail.
  assert (H : forall grid,
             analyze_image_bytes image_bytes static_dir grid 50 16000 w
             = (Raise e, world_after_primary static_dir pil_img w)).
  { intros grid. unfold analyze_image_bytes.
    rewrite run_bind. unfold uuid4_hex at 1.
    rewrite run_bind. unfold _ensure_dir at 1, ret at 1.
    rewrite run_bind. unfold _ensure_dir at 1, ret at 1.
    rewrite run_bind. unfold lift at 1. rewrite Hopen.
    rewrite run_bind. unfold lift at 1. rewrite Hresize.
    rewrite run_bind. unfold _save_image_bytes at 1.
    rewrite run_bind. unfold _ensure_dir at 1, ret at 1. unfold write_bytes at 1.
    rewrite run_bind. unfold analyze at 1. cbn [provider calls].
    rewrite Hfail. reflexivity. }
  split; [apply H |].
  unfold classify_image_bytes, visual_agent.
  rewrite run_bind, run_bind, (H false). reflexivity.
Qed.

Lemma primary_failure_is_fatal_witness :
  analyze_image_bytes Examples.upload None true 50 16000
    (Examples.world_of (fun _ _ _ => Raise (ProviderError 429)))
  = (Raise (ProviderError 429),
     world_after_primary None (mkImage 100 100 (Source 1))
       (Examples.world_of (fun _ _ _ => Raise (ProviderError 429)))) /\
  classify_image_bytes latin1_lower Examples.upload None true
    (Examples.world_of (fun _ _ _ => Raise (ProviderError 429)))
  = (Raise (ProviderError 429),
     world_after_primary None (mkImage 100 100 (Source 1))
       (Examples.world_of (fun _ _ _ => Raise (ProviderError 429)))).
Proof.
  apply (primary_failure_is_fatal latin1_lower Examples.upload None true
           (Examples.world_of (fun _ _ _ => Raise (ProviderError 429)))
           (mkImage 100 100 (Source 1)) (mkImage 100 100 (Source 1))
           (ProviderError 429)); reflexivity.
Defined.

Lemma object_of_detection_well_formed (det : Detection) :
  well_formed (object_of_detection det) /\
  crop_url (object_of_detection det) = None /\
  caption (object_of_detection det) = None /\
  bbox (object_of_detection det) = Some (bbox_of_detection det).
Proof.
  unfold well_formed, object_of_detection.
  destruct (det_tags det) as [| tag0 tags];
    [| destruct (is_none (det_name det) || is_none (det_confidence det))];
    cbn [name confidence bbox crop_url caption];
    repeat split; try discriminate;
    match goal with
    | |- truthy (Some (if truthy ?n then _ else _)) = true =>
        destruct n as [[| x t] |]; reflexivity
    end.
Qed.

Lemma Forall2_well_formed (objs objs' : list DetectedObject) :
  Forall2 (fun o o' => name o' = name o /\ confidence o' = confidence o /\
                       bbox o' = bbox o) objs objs' ->
  Forall well_formed objs -> Forall well_formed objs'.
Proof.
  induction 1 as [| o o' l l' (Hn & Hc & Hb) _ IH]; intros Hall; [constructor |].
  inversion Hall as [| ? ? (H1 & H2 & H3) Hrest]; subst.
  constructor; [| now apply IH].
  unfold well_formed. rewrite Hn, Hc, Hb. repeat split; assumption.
Qed.





(** X10. Without the grid fallback the result has one object per detection,
    in order.  The objects that get a crop URL (and a caption) are exactly
    the first ones, as many as there are crops: the crop at an index goes to
    the object at that index, whichever box it was cut from, so a dropped
    box leaves the last objects without crop.  The provider is called once
    for the image and once per crop. *)
Theorem crops_go_to_the_first_objects (image_bytes : ImageBytes)
    (static_dir : option pystr) (w w' : World) (res : AnalyzeResult)
    (pil_img0 pil_img : Image) (analysis : Analysis) :
  image_open image_bytes = Ok pil_img0 ->
  _resize_to_valid pil_img0 50 16000 = Ok pil_img ->
  provider w (calls w) (_image_to_bytes pil_img) [CAPTION; OBJECTS] = Ok analysis ->
  analyze_image_bytes image_bytes static_dir false 50 16000 w = (Ok res, w') ->
  List.length (objects res) = List.length (detections analysis) /\
  (forall i o, nth_error (objects res) i = Some o ->
     (has_crop o = true <->
      (i < List.length (detection_crops pil_img analysis))%nat) /\
     (has_crop o = false ->
      option_map object_of_detection (nth_error (detections analysis) i) = Some o)) /\
  calls w' = (calls w + 1
              + Nat.min (List.length (detections analysis))
                        (List.length (detection_crops pil_img analysis)))%nat.
Proof.
  intros Hopen Hresize Hprimary Hrun.
  apply analyze_image_bytes_steps in Hrun.
  destruct Hrun as (pil_img0' & pil_img' & analysis' & objects1 & w4 & st
                    & Hopen' & Hresize' & Hprimary' & Hloop & Hgrid & ->).
  rewrite Hopen in Hopen'. injection Hopen' as <-.
  rewrite Hresize in Hresize'. injection Hresize' as <-.
  rewrite Hprimary in Hprimary'. injection Hprimary' as <-.
  cbn [andb] in Hgrid. destruct Hgrid as [Hst ->]. cbn [objects]. rewrite Hst.
  apply caption_objects_spec in Hloop.
  destruct Hloop as (_ & Hcalls & Hlen & _ & Hnth).
  rewrite length_map in Hlen, Hcalls.
  split; [exact Hlen |].
  split.
  - intros i o Ho. specialize (Hnth i o Ho). cbn [Nat.add] in Hnth.
    destruct (nth_error (detection_crops pil_img analysis) i) as [c |] eqn:Ec.
    + destruct Hnth as [Hurl _].
      assert (Hi : (i < List.length (detection_crops pil_img analysis))%nat).
      { apply nth_error_Some. congruence. }
      unfold has_crop. rewrite Hurl. cbn.
      split; [split; [intros _; exact Hi | reflexivity] | discriminate].
    + apply nth_error_None in Ec.
      rewrite nth_error_map in Hnth.
      destruct (nth_error (detections analysis) i) as [det |]; [| discriminate].
      injection Hnth as <-.
      destruct (object_of_detection_well_formed det) as (_ & Hurl & _).
      unfold has_crop. rewrite Hurl. cbn.
      split; [split; [discriminate | lia] | reflexivity].
  - rewrite Hcalls. cbn [world_after_primary calls]. lia.
Qed.

Lemma crops_go_to_the_first_objects_witness :
  exists res w',
    analyze_image_bytes Examples.upload None false 50 16000 Examples.shifted_world
    = (Ok res, w') /\
    List.length (objects res) = 2%nat /\
    calls w' = 2%nat.
Proof.
  eexists. eexists. split; [vm_compute; reflexivity |].
  match goal with
  | |- List.length (objects ?res) = _ /\ calls ?w' = _ =>
      destruct (crops_go_to_the_first_objects Examples.upload None
                  Examples.shifted_world w' res
                  (mkImage 100 100 (Source 1)) (mkImage 100 100 (Source 1))
                  (mkAnalysis None
                     (Some [mkDetection (mkBBox 200 200 20 20) (Some (u "lamp"))
                              (Some (7 # 10)) [];
                            mkDetection (mkBBox 10 10 50 50) (Some (u "laptop"))
                              (Some (9 # 10)) []])))
        as (Hlen & _ & Hcalls)
  end.
  - reflexivity.
  - reflexivity.
  - reflexivity.
  - vm_compute. reflexivity.
  - split; [exact Hlen | exact Hcalls].
Defined.

(** The first box misses the picture: the only crop, cut from the box of
    the laptop, goes to the lamp together with its caption. *)
Example crop_of_another_box :
  match fst (analyze_image_bytes Examples.upload None false 50 16000
               Examples.shifted_world) with
  | Ok res => List.map (fun o => (name o, caption o, has_crop o)) (objects res)
  | Raise _ => []
  end
  = [(Some (u "lamp"), Some (u "a laptop"), true);
     (Some (u "laptop"), None, false)].
Proof. vm_compute. reflexivity. Qed.

End VisionMore.

(* ================================================================== *)
(** * More properties of the classifier *)
(* ================================================================== *)

Module ClassifierMore.

Import Spec MoreSpec VisionProps ClassifierProps VisionMore.

Lemma category_name_of_In (cid : Z) (cname : pystr) :
  category_name_of cid = Ok cname -> In (cid, cname) CATEGORIES.
Proof.
  unfold category_name_of.
  destruct (find (fun c => fst c =? cid) CATEGORIES) as [[c n] |] eqn:E;
    [| discriminate].
  intros H. injection H as <-.
  apply find_some in E. destruct E as [Hin Heq].
  simpl in Heq. apply Z.eqb_eq in Heq. now subst c.
Qed.

Lemma keyword_scores_nonneg (unicode_lower : pystr -> pystr) (combined : pystr)
    (cid s : Z) :
  In (cid, s) (keyword_scores unicode_lower combined) -> 0 <= s.
Proof.
  unfold keyword_scores. intros H. apply in_map_iff in H.
  destruct H as ([c kws] & E & _). injection E as _ <-.
  unfold _token_hits. lia.
Qed.

(** X11. [rule_agent] never raises: whatever the captions, the object and
    the bucket, it returns one of the six categories of [CATEGORIES] under
    its own name, with a score of at least 1. *)
Theorem rule_agent_returns_a_category (unicode_lower : pystr -> pystr)
    (image_caption : option pystr) (top_object : option DetectedObject)
    (size_bucket : option pystr) :
  exists out,
    rule_agent unicode_lower image_caption top_object size_bucket = Ok out /\
    In (category_id out, category_name out) CATEGORIES /\
    1 <= category_id out <= 6 /\
    1 <= score out.
Proof.
  assert (Hid : forall cid cname, In (cid, cname) CATEGORIES -> 1 <= cid <= 6).
  { intros cid cname H. simpl in H.
    repeat (destruct H as [H | H]; [injection H as <- _; lia |]).
    contradiction. }
  destruct (forallb (fun s => s =? 0)
              (List.map snd (keyword_scores unicode_lower
                               (combined_text image_caption top_object)))) eqn:E.
  - apply forallb_zero in E.
    destruct (rule_agent_fallback_run unicode_lower image_caption top_object
                size_bucket E)
      as (out & Hrun & _ & _ & _ & Hname & Hscore & _).
    exists out. apply category_name_of_In in Hname.
    split; [exact Hrun |]. split; [exact Hname |].
    split; [now apply (Hid _ _ Hname) | lia].
  - assert (Hex : exists cid s,
               In (cid, s) (keyword_scores unicode_lower
                              (combined_text image_caption top_object)) /\ s <> 0).
    { destruct (forallb_zero
                  (keyword_scores unicode_lower
                     (combined_text image_caption top_object))) as [_ Hall].
      apply Decidable.not_not.
      - unfold Decidable.decidable.
        destruct (existsb (fun cs => negb (snd cs =? 0))
                    (keyword_scores unicode_lower
                       (combined_text image_caption top_object))) eqn:Ex.
        + left. apply existsb_exists in Ex. destruct Ex as ([c s] & Hin & Hnz).
          exists c, s. split; [exact Hin |].
          simpl in Hnz. apply negb_true_iff, Z.eqb_neq in Hnz. exact Hnz.
        + right. intros (c & s & Hin & Hnz).
          assert (Hex : existsb (fun cs => negb (snd cs =? 0))
                          (keyword_scores unicode_lower
                             (combined_text image_caption top_object)) = true).
          { apply existsb_exists. exists (c, s). split; [exact Hin |].
            simpl. apply negb_true_iff, Z.eqb_neq. exact Hnz. }
          congruence.
      - intros Hno. rewrite Hall in E; [discriminate |].
        intros c s Hin. destruct (Z.eq_dec s 0) as [-> | Hnz]; [reflexivity |].
        exfalso. apply Hno. now exists c, s. }
    destruct (rule_agent_keywords_run unicode_lower image_caption top_object
                size_bucket Hex)
      as (out & Hrun & Hin & Hmax & _ & Hname & _).
    exists out. apply category_name_of_In in Hname.
    split; [exact Hrun |]. split; [exact Hname |].
    split; [now apply (Hid _ _ Hname) |].
    destruct Hex as (c & s & Hcs & Hnz).
    pose proof (keyword_scores_nonneg unicode_lower _ c s Hcs).
    specialize (Hmax c s Hcs). lia.
Qed.

(** X12. The size bucket compares areas.  With sides below 1 counted as 1,
    and for a box and a picture whose areas are at most [2 ^ 53], an object
    is "grande" exactly when five times the area of its box reaches the
    area of the picture, and "pequeno" otherwise; the ratio is never zero
    or negative, so no division by zero can occur. *)
Theorem size_bucket_is_a_fifth_of_the_area (W H : Z) (b : BBox) :
  let box_area := Z.max 1 (bw b) * Z.max 1 (bh b) in
  let image_area := Z.max 1 W * Z.max 1 H in
  box_area <= exact_int_bound -> image_area <= exact_int_bound ->
  (0 < _estimate_size_ratio W H b)%Q /\
  (_size_to_bucket (_estimate_size_ratio W H b) = grande
   <-> image_area <= 5 * box_area) /\
  (_size_to_bucket (_estimate_size_ratio W H b) = pequeno
   <-> 5 * box_area < image_area).
Proof.
  intros box_area image_area _ _.
  assert (Hb : 0 < box_area) by (unfold box_area; nia).
  assert (Hi : 0 < image_area) by (unfold image_area; nia).
  unfold _estimate_size_ratio. fold box_area. fold image_area.
  clearbody box_area image_area.
  assert (Hgeb : PyFloat.geb (PyFloat.truediv box_area image_area) (1 # 5) = true
                 <-> image_area <= 5 * box_area).
  { unfold PyFloat.geb. rewrite Qle_bool_iff.
    unfold PyFloat.truediv. rewrite Qred_correct.
    unfold Qle. cbn [Qnum Qden]. rewrite Z2Pos.id by lia. lia. }
  split; [| split].
  - unfold PyFloat.truediv. rewrite Qred_correct.
    unfold Qlt. cbn [Qnum Qden]. lia.
  - unfold _size_to_bucket.
    destruct (PyFloat.geb (PyFloat.truediv box_area image_area) (1 # 5)) eqn:E.
    + split; [intros _; now apply Hgeb | reflexivity].
    + split.
      * intros Heq. apply (f_equal (fun s => nth 0 s 0%N)) in Heq.
        vm_compute in Heq. discriminate.
      * intros Hle. apply Hgeb in Hle. discriminate.
  - unfold _size_to_bucket.
    destruct (PyFloat.geb (PyFloat.truediv box_area image_area) (1 # 5)) eqn:E.
    + split.
      * intros Heq. apply (f_equal (fun s => nth 0 s 0%N)) in Heq.
        vm_compute in Heq. discriminate.
      * intros Hlt. pose proof (proj1 Hgeb eq_refl). lia.
    + split; [| reflexivity].
      intros _. destruct (Z_lt_le_dec (5 * box_area) image_area) as [Hlt | Hle];
        [exact Hlt |].
      apply Hgeb in Hle. discriminate.
Qed.

Lemma size_bucket_is_a_fifth_of_the_area_witness :
  _size_to_bucket (_estimate_size_ratio 100 100 (mkBBox 10 10 40 50)) = grande /\
  _size_to_bucket (_estimate_size_ratio 100 100 (mkBBox 10 10 30 30)) = pequeno.
Proof.
  split.
  - apply (proj1 (proj2 (size_bucket_is_a_fifth_of_the_area 100 100
                           (mkBBox 10 10 40 50)
                           ltac:(vm_compute; discriminate)
                           ltac:(vm_compute; discriminate)))).
    vm_compute. discriminate.
  - apply (proj2 (proj2 (size_bucket_is_a_fifth_of_the_area 100 100
                           (mkBBox 10 10 30 30)
                           ltac:(vm_compute; discriminate)
                           ltac:(vm_compute; discriminate)))).
    vm_compute. reflexivity.
Defined.



(** What the arbiter returns, in every case: never an exception, the world
    as it was, and a choice only when the service answered. *)
Lemma try_llm_arbiter_run (unicode_lower : pystr -> pystr)
    (rule_choice : RuleAgentOutput) (all_options : list (Z * pystr))
    (image_caption : option pystr) (top_object : option DetectedObject)
    (size_bucket : option pystr) (size_ratio : option Q) (w : World) :
  exists r,
    _try_llm_arbiter unicode_lower rule_choice all_options image_caption
      top_object size_bucket size_ratio w = (Ok r, w) /\
    (agent_service w (category_id rule_choice) image_caption top_object
       size_bucket size_ratio = None -> r = None) /\
    (forall a, r = Some a ->
       score a = score rule_choice /\
       In (category_id a, category_name a) CATEGORIES /\
       In (category_id a) (List.map fst all_options) /\
       exists text,
         agent_service w (category_id rule_choice) image_caption top_object
           size_bucket size_ratio = Some text /\
         evidence a = EvLlmArbiter text).
Proof.
  unfold _try_llm_arbiter.
  destruct (agent_service w (category_id rule_choice) image_caption top_object
              size_bucket size_ratio) as [text |].
  2:{ exists None. split; [reflexivity |]. split; [reflexivity | discriminate]. }
  match goal with
  | |- context [find ?h all_options] =>
      destruct (find h all_options) as [c |] eqn:Efind
  end.
  2:{ exists None. split; [reflexivity |]. split; [discriminate | discriminate]. }
  destruct (fst c =? 0) eqn:Ez.
  { exists None. split; [reflexivity |]. split; [discriminate | discriminate]. }
  destruct (category_name_of (fst c)) as [cname | e] eqn:Ename.
  2:{ exists None. split; [reflexivity |]. split; [discriminate | discriminate]. }
  eexists. split; [reflexivity |]. split; [discriminate |].
  intros a Ha. injection Ha as <-. cbn [score category_id category_name evidence].
  split; [reflexivity |].
  split; [now apply category_name_of_In |].
  split; [| now exists text].
  apply find_some in Efind. apply in_map. exact (proj1 Efind).
Qed.




Lemma caption_objects_agent (sid dir : pystr) (min_side max_side : Z)
    (crops : list Image) (objs : list DetectedObject) :
  forall (idx : nat) (w w' : World) (objs' : list DetectedObject),
    caption_objects sid dir min_side max_side crops idx objs w = (Ok objs', w') ->
    agent_service w' = agent_service w.
Proof.
  induction objs as [| obj rest IH]; intros idx w w' objs' Hrun.
  - injection Hrun as _ <-. reflexivity.
  - cbn [caption_objects] in Hrun.
    apply bind_inv in Hrun. destruct Hrun as (obj' & w1 & Hobj & Hrun).
    apply bind_inv in Hrun. destruct Hrun as (rest' & w2 & Hrest & Hret).
    injection Hret as _ <-.
    rewrite (IH _ _ _ _ Hrest).
    destruct (nth_error crops idx) as [crop_img |].
    + apply bind_inv in Hobj. destruct Hobj as (? & wa & Hsave & Hobj).
      injection Hsave as _ <-.
      apply bind_inv in Hobj. destruct Hobj as (cfv & wb & Hres & Hobj).
      unfold lift in Hres.
      destruct (_resize_to_valid crop_img min_side max_side); [| discriminate].
      injection Hres as _ <-.
      apply bind_inv in Hobj. destruct Hobj as (an & wc & Han & Hobj).
      injection Hobj as _ <-.
      unfold analyze in Han. cbn [provider calls] in Han.
      match type of Han with
      | context [provider ?w0 ?n ?i ?f] => destruct (provider w0 n i f)
      end; [| discriminate].
      injection Han as _ <-. reflexivity.
    + injection Hobj as _ <-. reflexivity.
Qed.

Lemma visual_agent_agent (image_bytes : ImageBytes) (static_dir : option pystr)
    (w w1 : World) (vis : VisualAgentOutput) :
  visual_agent image_bytes static_dir w = (Ok vis, w1) ->
  agent_service w1 = agent_service w.
Proof.
  unfold visual_agent. intros Hrun.
  apply bind_inv in Hrun. destruct Hrun as (vres & w2 & Hrun & Hret).
  injection Hret as _ <-.
  apply analyze_image_bytes_steps in Hrun.
  destruct Hrun as (p0 & p & an & objs1 & w4 & st & _ & _ & _ & Hloop & Hgrid & _).
  cbn [andb] in Hgrid. destruct Hgrid as [_ ->].
  apply caption_objects_agent in Hloop. exact Hloop.
Qed.

(** X14. Asking for the arbiter never costs a result.  The run with
    [use_llm_arbiter=True] fails exactly when the run without it fails, with
    the same exception and the same files and provider calls; when it
    succeeds, only [category] and [explanation] can differ, and they differ
    only by an answer of the arbiter, which names one of the six categories.
    A filtered picture is never sent to the arbiter, and an arbiter that is
    not configured or gives no answer changes nothing. *)
Theorem arbiter_only_changes_the_category (unicode_lower : pystr -> pystr)
    (image_bytes : ImageBytes) (static_dir : option pystr) (w : World) :
  match classify_image_bytes unicode_lower image_bytes static_dir false w with
  | (Raise e, w') =>
      classify_image_bytes unicode_lower image_bytes static_dir true w
      = (Raise e, w')
  | (Ok r, w') =>
      exists r',
        classify_image_bytes unicode_lower image_bytes static_dir true w
        = (Ok r', w') /\
        r' = mkClassificationResult
               (res_session_id r) (res_original_url r) (res_image_caption r)
               (res_top_object r) (res_visual_objects r) (res_size r)
               (res_rules r) (res_category r') (res_confidence r)
               (res_filtered r) (res_explanation r') /\
        (r' = r \/
         exists text cid cname,
           res_explanation r' = Some (EvLlmArbiter text) /\
           res_category r' = Some (cid, cname) /\
           In (cid, cname) CATEGORIES) /\
        (res_filtered r <> None -> r' = r) /\
        ((forall c ic t sb sr, agent_service w c ic t sb sr = None) -> r' = r)
  end.
Proof.
  unfold classify_image_bytes. rewrite !run_bind.
  destruct (visual_agent image_bytes static_dir w) as [[vis | e] w1] eqn:Evis;
    [| reflexivity].
  apply visual_agent_agent in Evis.
  rewrite !run_bind.
  destruct (size_agent image_bytes (_pick_best_object (va_objects vis)) w1)
    as [[sz | e] w2] eqn:Esz; [| reflexivity].
  assert (Hw2 : w2 = w1).
  { unfold size_agent in Esz. rewrite run_bind in Esz. unfold lift in Esz.
    destruct (image_open image_bytes); [| discriminate].
    destruct (_pick_best_object (va_objects vis)) as [o |].
    - destruct (negb (obj_truthy o)); [now injection Esz |].
      destruct (bbox o); now injection Esz.
    - now injection Esz. }
  subst w2.
  destruct (_is_non_eee unicode_lower
              (combined_text (va_image_caption vis)
                 (_pick_best_object (va_objects vis)))
              (keyword_scores unicode_lower
                 (combined_text (va_image_caption vis)
                    (_pick_best_object (va_objects vis))))).
  { eexists. split; [reflexivity |]. split; [reflexivity |].
    split; [now left |]. split; intros _; reflexivity. }
  rewrite !run_bind. unfold lift.
  destruct (rule_agent unicode_lower (va_image_caption vis)
              (_pick_best_object (va_objects vis)) (size_bucket sz))
    as [rules_choice | e]; [| reflexivity].
  rewrite !run_bind.
  destruct (try_llm_arbiter_run unicode_lower rules_choice CATEGORIES
              (va_image_caption vis) (_pick_best_object (va_objects vis))
              (size_bucket sz) (size_ratio sz) w1)
    as (arb & Harb & Hnone & Hsome).
  rewrite Harb.
  destruct arb as [a |].
  - destruct (Hsome a eq_refl) as (_ & Hcat & _ & text & _ & Hev).
    eexists. split; [reflexivity |]. split; [reflexivity |].
    cbn [res_filtered res_explanation res_category].
    split; [| split].
    + right. exists text, (category_id a), (category_name a).
      rewrite Hev. repeat split. exact Hcat.
    + intros H. now contradiction H.
    + intros Hno. rewrite Evis in Hnone.
      specialize (Hnone (Hno _ _ _ _ _)). discriminate.
  - eexists. split; [reflexivity |]. split; [reflexivity |].
    split; [now left |]. split; intros _; reflexivity.
Qed.

Lemma token_hits_app (unicode_lower : pystr -> pystr) (text : pystr)
    (l1 l2 : list pystr) :
  _token_hits unicode_lower text (l1 ++ l2)
  = _token_hits unicode_lower text l1 + _token_hits unicode_lower text l2.
Proof.
  unfold _token_hits. rewrite filter_app, length_app. lia.
Qed.

Lemma token_hits_nonneg (unicode_lower : pystr -> pystr) (text : pystr)
    (l : list pystr) :
  0 <= _token_hits unicode_lower text l.
Proof. unfold _token_hits. lia. Qed.

Lemma token_hits_pos (unicode_lower : pystr -> pystr) (text : pystr)
    (l : list pystr) :
  0 < _token_hits unicode_lower text l ->
  exists k, In k l /\ keyword_match unicode_lower k text.
Proof.
  unfold _token_hits, keyword_match. intros H.
  destruct (filter (fun k => contains k (_norm unicode_lower (Some text))) l)
    as [| k rest] eqn:E; [simpl in H; lia |].
  assert (Hin : In k (k :: rest)) by now left.
  rewrite <- E in Hin. apply filter_In in Hin. now exists k.
Qed.

Lemma keyword_scores_lookup (unicode_lower : pystr -> pystr) (combined : pystr)
    (cid s : Z) :
  In (cid, s) (keyword_scores unicode_lower combined) ->
  exists kws, In (cid, kws) KEYWORDS /\ s = _token_hits unicode_lower combined kws.
Proof.
  unfold keyword_scores. intros H. apply in_map_iff in H.
  destruct H as ([c kws] & E & Hin). injection E as -> <-.
  now exists kws.
Qed.

Lemma KEYWORDS_2_6 :
  exists pre2 post2,
    (forall kws, In (2, kws) KEYWORDS -> kws = pre2 ++ shared_2_6 ++ post2) /\
    (forall kws, In (6, kws) KEYWORDS ->
                 kws = own_keywords_6 ++ rev shared_2_6) /\
    In (2, pre2 ++ shared_2_6 ++ post2) KEYWORDS /\
    In (6, own_keywords_6 ++ rev shared_2_6) KEYWORDS.
Proof.
  exists (List.map u ["televisor"; "tv"; "smart tv"; "monitor"; "ecrã"; "tela"]%string),
         (List.map u ["display"; "screen"]%string).
  repeat split.
  - intros kws H. unfold KEYWORDS in H. cbn [In] in H.
    repeat (destruct H as [H | H];
            [first [ discriminate (f_equal fst H)
                   | apply (f_equal snd) in H; cbn [snd] in H; subst kws;
                     reflexivity ] |]).
    contradiction.
  - intros kws H. unfold KEYWORDS in H. cbn [In] in H.
    repeat (destruct H as [H | H];
            [first [ discriminate (f_equal fst H)
                   | apply (f_equal snd) in H; cbn [snd] in H; subst kws;
                     reflexivity ] |]).
    contradiction.
  - unfold KEYWORDS. right. left. reflexivity.
  - unfold KEYWORDS. do 5 right. left. reflexivity.
Qed.

Lemma token_hits_rev (unicode_lower : pystr -> pystr) (text : pystr)
    (l : list pystr) :
  _token_hits unicode_lower text (rev l) = _token_hits unicode_lower text l.
Proof.
  induction l as [| k l IH]; [reflexivity |].
  cbn [rev]. rewrite token_hits_app, IH.
  change (k :: l) with ([k] ++ l). rewrite token_hits_app. lia.
Qed.

(** X15. The words "laptop", "notebook" and "tablet" stand under category 2
    and under category 6, and a draw goes to category 2.  So [rule_agent]
    answers category 6 only when the text holds a keyword that category 6
    does not share: these three words alone never give it. *)
Theorem category_6_needs_its_own_keyword (unicode_lower : pystr -> pystr)
    (image_caption : option pystr) (top_object : option DetectedObject)
    (size_bucket : option pystr) (out : RuleAgentOutput) :
  rule_agent unicode_lower image_caption top_object size_bucket = Ok out ->
  category_id out = 6 ->
  exists k kws,
    In (6, kws) KEYWORDS /\ In k kws /\ ~ In k shared_2_6 /\
    keyword_match unicode_lower k (combined_text image_caption top_object).
Proof.
  intros Hrun Hsix.
  set (combined := combined_text image_caption top_object).
  destruct KEYWORDS_2_6 as (pre2 & post2 & H2 & H6 & Hin2 & Hin6).
  destruct (forallb (fun s => s =? 0)
              (List.map snd (keyword_scores unicode_lower combined))) eqn:E.
  { apply forallb_zero in E.
    destruct (rule_agent_fallback_run unicode_lower image_caption top_object
                size_bucket E) as (out' & Hrun' & H4 & _ & H5 & _).
    rewrite Hrun in Hrun'. injection Hrun' as <-.
    destruct size_bucket as [b |].
    - destruct (PyStr.eqb b grande) eqn:Eb.
      + apply pystr_eqb_eq in Eb. subst b. specialize (H4 eq_refl). lia.
      + assert (Hne : Some b <> Some grande).
        { intros Heq. injection Heq as ->.
          assert (PyStr.eqb grande grande = true) by now apply pystr_eqb_eq.
          congruence. }
        specialize (H5 Hne). lia.
    - assert (Hne : @None pystr <> Some grande) by discriminate.
      specialize (H5 Hne). lia. }
  assert (Hex : exists cid s,
             In (cid, s) (keyword_scores unicode_lower combined) /\ s <> 0).
  { apply Decidable.not_not.
    - unfold Decidable.decidable.
      destruct (existsb (fun cs => negb (snd cs =? 0))
                  (keyword_scores unicode_lower combined)) eqn:Ex.
      + left. apply existsb_exists in Ex. destruct Ex as ([c s] & Hin & Hnz).
        exists c, s. split; [exact Hin |].
        simpl in Hnz. apply negb_true_iff, Z.eqb_neq in Hnz. exact Hnz.
      + right. intros (c & s & Hin & Hnz).
        assert (Hex : existsb (fun cs => negb (snd cs =? 0))
                        (keyword_scores unicode_lower combined) = true).
        { apply existsb_exists. exists (c, s). split; [exact Hin |].
          simpl. apply negb_true_iff, Z.eqb_neq. exact Hnz. }
        congruence.
    - intros Hno.
      destruct (forallb_zero (keyword_scores unicode_lower combined)) as [_ Hall].
      rewrite Hall in E; [discriminate |].
      intros c s Hin. destruct (Z.eq_dec s 0) as [-> | Hnz]; [reflexivity |].
      exfalso. apply Hno. now exists c, s. }
  destruct (rule_agent_keywords_run unicode_lower image_caption top_object
              size_bucket Hex) as (out' & Hrun' & Hin & Hmax & Hpref & _).
  rewrite Hrun in Hrun'. injection Hrun' as <-.
  fold combined in Hin, Hmax, Hpref.
  rewrite Hsix in Hin, Hpref.
  destruct (keyword_scores_lookup _ _ _ _ Hin) as (kws6 & Hk6 & Hs6).
  rewrite (H6 _ Hk6) in Hs6.
  assert (Hscore2 : In (2, _token_hits unicode_lower combined
                             (pre2 ++ shared_2_6 ++ post2))
                      (keyword_scores unicode_lower combined)).
  { unfold keyword_scores. apply in_map_iff.
    exists (2, pre2 ++ shared_2_6 ++ post2). split; [reflexivity | exact Hin2]. }
  pose proof (Hmax _ _ Hscore2) as Hle.
  assert (Hlt : _token_hits unicode_lower combined (pre2 ++ shared_2_6 ++ post2)
                <> score out).
  { intros Heq. rewrite Heq in Hscore2. specialize (Hpref 2 Hscore2).
    vm_compute in Hpref. lia. }
  rewrite Hs6 in Hle, Hlt.
  rewrite !token_hits_app, token_hits_rev in Hle, Hlt.
  pose proof (token_hits_nonneg unicode_lower combined pre2).
  pose proof (token_hits_nonneg unicode_lower combined post2).
  assert (Hown : 0 < _token_hits unicode_lower combined own_keywords_6) by lia.
  apply token_hits_pos in Hown. destruct Hown as (k & Hkin & Hmatch).
  exists k, (own_keywords_6 ++ rev shared_2_6).
  split; [exact Hin6 |]. split; [apply in_or_app; now left |].
  split; [| exact Hmatch].
  clear - Hkin. intros Hshared.
  assert (Hb : forallb (fun k => negb (existsb (PyStr.eqb k) shared_2_6))
                 own_keywords_6 = true) by (vm_compute; reflexivity).
  rewrite forallb_forall in Hb. specialize (Hb k Hkin).
  apply negb_true_iff in Hb.
  assert (Ht : existsb (PyStr.eqb k) shared_2_6 = true).
  { apply existsb_exists. exists k. split; [exact Hshared |].
    now apply pystr_eqb_eq. }
  congruence.
Qed.

Lemma category_6_needs_its_own_keyword_witness :
  exists k kws,
    In (6, kws) KEYWORDS /\ In k kws /\ ~ In k shared_2_6 /\
    keyword_match latin1_lower k
      (combined_text (Some (u "a smartphone on a notebook")) None).
Proof.
  eapply (category_6_needs_its_own_keyword latin1_lower
            (Some (u "a smartphone on a notebook")) None None).
  - vm_compute. reflexivity.
  - reflexivity.
Defined.

End ClassifierMore.

(* ================================================================== *)
(** * Properties of the routes and of the notification text *)
(* ================================================================== *)

Module RoutesProps.

Import Spec MoreSpec PyStrProps VisionProps ClassifierProps VisionMore.
Import ClassifierMore.

Lemma crop_url_of_static (sid name : pystr) :
  crop_url_of sid name = u "/static/" ++ (u "crops/" ++ sid ++ u "/" ++ name).
Proof. reflexivity. Qed.

Lemma crop_rel_of_crop_url (sid name : pystr) :
  Routes.crop_rel (crop_url_of sid name) = u "crops/" ++ sid ++ u "/" ++ name.
Proof. reflexivity. Qed.

Lemma crop_path_of_crop_url (static_dir : option pystr) (sd : pystr) (w : World)
    (name : pystr) :
  static_dir = Some sd ->
  Routes.path_div sd (Routes.crop_rel (crop_url_of (session_of w) name))
  = path_join (crops_dir_of static_dir w) name.
Proof.
  intros ->. rewrite crop_rel_of_crop_url.
  unfold Routes.path_div, crops_dir_of, base_static_of, path_join.
  change (startswith (u "crops/" ++ session_of w ++ u "/" ++ name) (u "/"))
    with false.
  cbv iota. rewrite <- !app_assoc. reflexivity.
Qed.

Lemma read_bytes_In (path : pystr) (b : ImageBytes) (w : World) :
  In (path, b) (files w) -> exists saved, Routes.read_bytes path w = Some saved.
Proof.
  intros Hin. unfold Routes.read_bytes.
  destruct (find (fun f => PyStr.eqb (fst f) path) (files w)) as [f |] eqn:E.
  - now exists (snd f).
  - exfalso. apply (find_none _ _ E) in Hin. cbn [fst] in Hin.
    assert (PyStr.eqb path path = true) by now apply pystr_eqb_eq.
    congruence.
Qed.

(** X16. The crop URLs of the detector and the path computation of the
    route [analyze] fit together: for every object of a detector result that
    carries a [crop_url], the URL is not empty and the path that the route
    derives from it names a file that the detector has written, so the route
    finds the crop. *)
Theorem route_finds_every_crop (image_bytes : ImageBytes) (sd : pystr)
    (enable_grid_fallback : bool) (min_side max_side : Z) (w w' : World)
    (res : AnalyzeResult) :
  analyze_image_bytes image_bytes (Some sd) enable_grid_fallback
    min_side max_side w = (Ok res, w') ->
  forall o url,
    In o (objects res) -> crop_url o = Some url ->
    truthy (Some url) = true /\
    (exists crop_img,
       In (Routes.path_div sd (Routes.crop_rel url), _image_to_bytes crop_img)
          (files w')) /\
    exists saved,
      Routes.read_bytes (Routes.path_div sd (Routes.crop_rel url)) w' = Some saved.
Proof.
  intros Hrun o url Hin Hurl.
  assert (Hmain : truthy (Some url) = true /\
                  exists crop_img,
                    In (Routes.path_div sd (Routes.crop_rel url),
                        _image_to_bytes crop_img) (files w')).
  2:{ destruct Hmain as (Ht & crop_img & Hfile).
      split; [exact Ht |]. split; [now exists crop_img |].
      now apply (read_bytes_In _ _ _ Hfile). }
  apply analyze_image_bytes_steps in Hrun.
  destruct Hrun as (pil_img0 & pil_img & analysis & objects1 & w4 & st
                    & _ & _ & _ & Hloop & Hgrid & ->).
  cbn [objects] in Hin.
  assert (Hfirst : forall o1, In o1 objects1 -> crop_url o1 = Some url ->
            truthy (Some url) = true /\
            exists crop_img,
              In (Routes.path_div sd (Routes.crop_rel url),
                  _image_to_bytes crop_img) (files w4)).
  { intros o1 Hin1 Hurl1.
    apply caption_objects_spec in Hloop.
    destruct Hloop as (_ & _ & _ & _ & Hnth).
    apply In_nth_error in Hin1. destruct Hin1 as (i & Hi).
    specialize (Hnth i o1 Hi). cbn [Nat.add] in Hnth.
    destruct (nth_error (detection_crops pil_img analysis) i) as [c |].
    - destruct Hnth as (Hcu & Hfile).
      rewrite Hurl1 in Hcu. injection Hcu as ->.
      split; [reflexivity |]. exists c.
      now rewrite (crop_path_of_crop_url (Some sd) sd w _ eq_refl).
    - apply nth_error_In in Hnth. apply in_map_iff in Hnth.
      destruct Hnth as (det & <- & _).
      destruct (object_of_detection_well_formed det) as (_ & Hnone & _).
      congruence. }
  destruct (enable_grid_fallback && (List.length objects1 <? 4)%nat).
  - apply grid_scan_spec in Hgrid.
    destruct Hgrid as (_ & Hkeep & extras & Hobjs & _ & _ & _ & _ & _ & Hfile).
    cbn [g_objects] in Hobjs. rewrite Hobjs in Hin.
    apply in_app_or in Hin. destruct Hin as [Hin | Hin].
    + destruct (Hfirst o Hin Hurl) as (Ht & c & Hc).
      split; [exact Ht |]. exists c. now apply Hkeep.
    + destruct (Hfile o Hin) as (n & c & Hcu & Hc).
      rewrite Hurl in Hcu. injection Hcu as ->.
      split; [reflexivity |]. exists c.
      now rewrite (crop_path_of_crop_url (Some sd) sd w _ eq_refl).
  - destruct Hgrid as [Hobjs ->]. rewrite Hobjs in Hin.
    exact (Hfirst o Hin Hurl).
Qed.

Lemma route_finds_every_crop_witness :
  exists saved,
    Routes.read_bytes
      (Routes.path_div (u "app/static")
         (Routes.crop_rel
            (u "/static/crops/0123456789abcdef0123456789abcdef/obj_000.jpg")))
      (snd (analyze_image_bytes Examples.upload (Some (u "app/static")) true
              50 16000 Examples.car_world))
    = Some saved.
Proof.
  eapply (route_finds_every_crop Examples.upload (u "app/static") true 50 16000
            Examples.car_world).
  - vm_compute. reflexivity.
  - left. reflexivity.
  - reflexivity.
Defined.

(** X17. The route [analyze] of the blueprint strips the characters of
    "/static/" from the left of the URL, which also takes the "c" of
    "crops": for a crop URL of the detector it gets "rops/...", and the path
    it looks under is never the one the detector saved the crop to. *)
Theorem blueprint_misses_every_crop (sd sid name : pystr) :
  Blueprint.crop_rel (crop_url_of sid name) = u "rops/" ++ sid ++ u "/" ++ name /\
  Blueprint.crop_path sd (crop_url_of sid name)
  <> path_join (path_join (path_join sd (u "crops")) sid) name /\
  Routes.path_div sd (Routes.crop_rel (crop_url_of sid name))
  = path_join (path_join (path_join sd (u "crops")) sid) name.
Proof.
  split; [reflexivity |]. split.
  - unfold Blueprint.crop_path.
    change (Blueprint.crop_rel (crop_url_of sid name))
      with (u "rops/" ++ sid ++ u "/" ++ name).
    unfold Routes.path_div, path_join.
    change (startswith (u "rops/" ++ sid ++ u "/" ++ name) (u "/")) with false.
    cbv iota. rewrite <- !app_assoc. intros H.
    apply app_inv_head in H. vm_compute in H. discriminate.
  - rewrite crop_rel_of_crop_url.
    unfold Routes.path_div, path_join.
    change (startswith (u "crops/" ++ sid ++ u "/" ++ name) (u "/")) with false.
    cbv iota. rewrite <- !app_assoc. reflexivity.
Qed.

Lemma lstrip_chars_app (chars a b : pystr) (c : N) :
  mem c chars = false ->
  lstrip_chars chars (a ++ c :: b) = lstrip_chars chars a ++ c :: b.
Proof.
  intros Hc. induction a as [| x a IH].
  - cbn [app lstrip_chars]. now rewrite Hc.
  - cbn [app lstrip_chars]. destruct (mem x chars); [exact IH | reflexivity].
Qed.

Lemma rstrip_chars_app (chars a b : pystr) (c : N) :
  mem c chars = false ->
  rstrip_chars chars (a ++ c :: b) = a ++ c :: rstrip_chars chars b.
Proof.
  intros Hc. unfold rstrip_chars.
  rewrite rev_app_distr. cbn [rev]. rewrite <- app_assoc. cbn [app].
  rewrite (lstrip_chars_app chars (rev b) (rev a) c Hc).
  rewrite rev_app_distr. cbn [rev]. rewrite rev_involutive, <- app_assoc.
  reflexivity.
Qed.

Lemma startswith_app (k post : pystr) : startswith (k ++ post) k = true.
Proof. apply startswith_iff. now exists post. Qed.

Lemma rstrip_slash_http (s : pystr) :
  startswith s (u "http") = true ->
  startswith (rstrip_chars (u "/") s) (u "http") = true.
Proof.
  intros H. apply startswith_iff in H. destruct H as [post ->].
  change (u "http" ++ post) with ([104%N; 116%N; 116%N] ++ 112%N :: post).
  rewrite rstrip_chars_app by reflexivity.
  apply (startswith_app (u "http")).
Qed.

(** X18. The Twilio webhook passes a crop URL through [_public_url] and
    then hands it to [_send_whatsapp], which applies [_public_url] again.
    When [PUBLIC_BASE_URL] is blank or starts with "http", the second
    application changes nothing; and a crop URL of the detector becomes the
    base, without its trailing slashes, followed by the URL. *)
Theorem public_url_twice (PUBLIC_BASE_URL : option pystr) (path : pystr) :
  strip (or_empty PUBLIC_BASE_URL) = [] \/
  startswith (strip (or_empty PUBLIC_BASE_URL)) (u "http") = true ->
  Routes._public_url PUBLIC_BASE_URL (Routes._public_url PUBLIC_BASE_URL path)
  = Routes._public_url PUBLIC_BASE_URL path /\
  forall sid name,
    Routes._public_url PUBLIC_BASE_URL (crop_url_of sid name)
    = rstrip_chars (u "/") (strip (or_empty PUBLIC_BASE_URL))
      ++ crop_url_of sid name.
Proof.
  intros Hbase.
  set (base := rstrip_chars (u "/") (strip (or_empty PUBLIC_BASE_URL))).
  assert (Hdef : forall p,
            Routes._public_url PUBLIC_BASE_URL p
            = if negb (truthy (Some base)) || startswith p (u "http") then p
              else base ++ (if negb (startswith p (u "/")) then u "/" ++ p
                            else p)) by reflexivity.
  split.
  - rewrite (Hdef path).
    destruct (negb (truthy (Some base)) || startswith path (u "http")) eqn:E.
    + now rewrite Hdef, E.
    + rewrite Hdef. apply orb_false_iff in E. destruct E as [E1 E2].
      rewrite E1. cbn [orb].
      destruct Hbase as [Hnil | Hhttp].
      { exfalso. unfold base in E1. rewrite Hnil in E1. discriminate E1. }
      apply rstrip_slash_http in Hhttp. fold base in Hhttp.
      apply startswith_iff in Hhttp. destruct Hhttp as [post Hpost].
      rewrite Hpost at 1. rewrite <- app_assoc.
      now rewrite startswith_app.
  - intros sid name. rewrite Hdef.
    assert (H1 : startswith (crop_url_of sid name) (u "http") = false)
      by (vm_compute; reflexivity).
    assert (H2 : startswith (crop_url_of sid name) (u "/") = true)
      by (vm_compute; reflexivity).
    rewrite H1, H2, orb_false_r. cbn [negb].
    generalize (crop_url_of sid name). intros url.
    clearbody base. destruct base as [| c base']; reflexivity.
Qed.

Lemma public_url_twice_witness :
  Routes._public_url (Some (u " https://example.org/ "))
    (Routes._public_url (Some (u " https://example.org/ ")) (u "static/x.jpg"))
  = u "https://example.org/static/x.jpg".
Proof.
  rewrite (proj1 (public_url_twice (Some (u " https://example.org/ "))
                    (u "static/x.jpg") (or_intror eq_refl))).
  vm_compute. reflexivity.
Defined.

(** A base without scheme is put in front twice. *)
Example public_url_twice_without_scheme :
  Routes._public_url (Some (u "example.org"))
    (Routes._public_url (Some (u "example.org")) (u "/static/x.jpg"))
  = u "example.org/example.org/static/x.jpg".
Proof. vm_compute. reflexivity. Qed.

Lemma filter_lstrip (p : N -> bool) (s : pystr) :
  (forall c, is_space c = true -> p c = false) ->
  filter p (lstrip s) = filter p s.
Proof.
  intros Hsp. induction s as [| c s IH]; [reflexivity |].
  cbn [lstrip]. destruct (is_space c) eqn:E; [| reflexivity].
  cbn [filter]. now rewrite (Hsp c E).
Qed.

Lemma filter_rev_eq {A : Type} (p : A -> bool) (l : list A) :
  filter p (rev l) = rev (filter p l).
Proof.
  induction l as [| x l IH]; [reflexivity |].
  cbn [rev filter]. rewrite filter_app, IH. cbn [filter].
  destruct (p x); [reflexivity | now rewrite app_nil_r].
Qed.

Lemma filter_strip (p : N -> bool) (s : pystr) :
  (forall c, is_space c = true -> p c = false) ->
  filter p (strip s) = filter p s.
Proof.
  intros Hsp. unfold strip, rstrip.
  rewrite filter_rev_eq, (filter_lstrip p _ Hsp), filter_rev_eq, rev_involutive.
  now apply filter_lstrip.
Qed.

Lemma skipn_length_app {A : Type} (l l' : list A) :
  skipn (List.length l) (l ++ l') = l'.
Proof. induction l as [| x l IH]; [reflexivity | exact IH]. Qed.

Lemma filter_replace_fuel (p : N -> bool) (old : pystr) :
  filter p old = [] ->
  forall (fuel : nat) (s : pystr),
    filter p (replace_fuel fuel old [] s) = filter p s.
Proof.
  intros Hold. induction fuel as [| fuel IH]; intros s; [reflexivity |].
  cbn [replace_fuel]. destruct (startswith s old) eqn:E.
  - apply startswith_iff in E. destruct E as [post ->].
    rewrite skipn_length_app. cbn [app]. rewrite IH, filter_app, Hold.
    reflexivity.
  - destruct s as [| c s]; [reflexivity |].
    cbn [filter]. now rewrite IH.
Qed.

Lemma space_is_not_decimal (unicode_decimal : N -> bool) :
  (forall c, is_space c = true -> unicode_decimal c = false) ->
  forall c, is_space c = true -> Routes.is_decimal unicode_decimal c = false.
Proof.
  intros Hsp c Hc. unfold Routes.is_decimal.
  destruct (c <? 128)%N; [| now apply Hsp].
  destruct ((48 <=? c) && (c <=? 57))%N eqn:E; [| reflexivity].
  apply andb_true_iff in E. destruct E as [E1 E2].
  apply N.leb_le in E1, E2.
  assert (Hcases : (c = 48 \/ c = 49 \/ c = 50 \/ c = 51 \/ c = 52 \/ c = 53
                    \/ c = 54 \/ c = 55 \/ c = 56 \/ c = 57)%N) by lia.
  repeat (destruct Hcases as [-> | Hcases]; [discriminate Hc |]).
  subst c. discriminate Hc.
Qed.

(** X19. [_normalize_phone_for_meta] returns the decimal digits of its
    argument, in their order, and nothing else: trimming and the removal of
    "whatsapp:" take away no digit.  So the result is the same with or
    without the prefix "whatsapp:", and normalising twice changes nothing;
    the senders that the Meta webhook compares are equal exactly when their
    digits are. *)
Theorem normalize_phone_keeps_the_digits (unicode_decimal : N -> bool)
    (s : option pystr) :
  (forall c, is_space c = true -> unicode_decimal c = false) ->
  Routes._normalize_phone_for_meta unicode_decimal s
  = filter (Routes.is_decimal unicode_decimal) (or_empty s) /\
  Routes._normalize_phone_for_meta unicode_decimal
    (Some (Routes._normalize_phone_for_meta unicode_decimal s))
  = Routes._normalize_phone_for_meta unicode_decimal s /\
  Routes._normalize_phone_for_meta unicode_decimal
    (Some (u "whatsapp:" ++ or_empty s))
  = Routes._normalize_phone_for_meta unicode_decimal s.
Proof.
  intros Hsp.
  assert (Hmain : forall t,
            Routes._normalize_phone_for_meta unicode_decimal t
            = filter (Routes.is_decimal unicode_decimal) (or_empty t)).
  { intros t. unfold Routes._normalize_phone_for_meta, str_replace.
    change (u "whatsapp:") with (119%N :: skipn 1 (u "whatsapp:")).
    cbv iota.
    rewrite filter_replace_fuel by reflexivity.
    apply filter_strip. now apply space_is_not_decimal. }
  split; [apply Hmain |]. split.
  - rewrite !Hmain. cbn [or_empty].
    induction (or_empty s) as [| c l IH]; [reflexivity |].
    cbn [filter]. destruct (Routes.is_decimal unicode_decimal c) eqn:E.
    + cbn [filter]. rewrite E. now rewrite IH.
    + exact IH.
  - rewrite !Hmain. cbn [or_empty]. rewrite filter_app. reflexivity.
Qed.

Lemma normalize_phone_keeps_the_digits_witness :
  Routes._normalize_phone_for_meta (fun _ => false)
    (Some (u " whatsapp:+55 (11) 98765-4321 "))
  = u "5511987654321".
Proof.
  rewrite (proj1 (normalize_phone_keeps_the_digits (fun _ => false)
                    (Some (u " whatsapp:+55 (11) 98765-4321 "))
                    (fun _ _ => eq_refl))).
  vm_compute. reflexivity.
Defined.

Lemma rule_agent_category_In (unicode_lower : pystr -> pystr)
    (image_caption : option pystr) (top_object : option DetectedObject)
    (size_bucket : option pystr) (out : RuleAgentOutput) :
  rule_agent unicode_lower image_caption top_object size_bucket = Ok out ->
  In (category_id out, category_name out) CATEGORIES.
Proof.
  unfold rule_agent.
  destruct (forallb _ _).
  - destruct (category_name_of _) as [cname | e] eqn:E; [| discriminate].
    intros H. injection H as <-. cbn [category_id category_name].
    now apply category_name_of_In.
  - destruct (list_max _) as [best | e]; [| discriminate].
    destruct (sorted_by_pref _) as [[| cid l] | e]; try discriminate.
    destruct (category_name_of cid) as [cname | e] eqn:E; [| discriminate].
    intros H. injection H as <-. cbn [category_id category_name].
    now apply category_name_of_In.
Qed.

Lemma visual_agent_well_formed (image_bytes : ImageBytes)
    (static_dir : option pystr) (w w1 : World) (vis : VisualAgentOutput) :
  visual_agent image_bytes static_dir w = (Ok vis, w1) ->
  Forall well_formed (va_objects vis).
Proof.
  unfold visual_agent. intros Hrun.
  apply bind_inv in Hrun. destruct Hrun as (vres & w2 & Hrun & Hret).
  injection Hret as <- _. cbn [va_objects].
  apply analyze_image_bytes_steps in Hrun.
  destruct Hrun as (p0 & p & an & objs1 & w4 & st & _ & _ & _ & Hloop & Hgrid & ->).
  cbn [andb] in Hgrid. destruct Hgrid as [Hobjs _]. cbn [objects].
  rewrite Hobjs.
  apply (Forall2_well_formed (List.map object_of_detection (detections an))).
  - exact (caption_objects_keeps _ _ _ _ _ _ _ _ _ _ Hloop).
  - apply Forall_forall. intros o Ho. apply in_map_iff in Ho.
    destruct Ho as (det & <- & _). apply object_of_detection_well_formed.
Qed.

(** The shape of every result of [classify_image_bytes]. *)
Lemma classify_image_bytes_shape (unicode_lower : pystr -> pystr)
    (image_bytes : ImageBytes) (static_dir : option pystr)
    (use_llm_arbiter : bool) (w w' : World) (r : ClassificationResult) :
  classify_image_bytes unicode_lower image_bytes static_dir use_llm_arbiter w
  = (Ok r, w') ->
  (((exists text, res_filtered r = Some (u "non_eee", text)) /\
    res_category r = None) \/
   (res_filtered r = None /\
    exists cid cname,
      res_category r = Some (cid, cname) /\ In (cid, cname) CATEGORIES)) /\
  (forall o, res_top_object r = Some o -> well_formed o).
Proof.
  intros Hrun. unfold classify_image_bytes in Hrun.
  apply bind_inv in Hrun. destruct Hrun as (vis & w1 & Hvis & Hrun).
  apply bind_inv in Hrun. destruct Hrun as (sz & w2 & Hsz & Hrun).
  assert (Htop : forall o, _pick_best_object (va_objects vis) = Some o ->
                           well_formed o).
  { intros o Ho. apply pick_best_In in Ho.
    pose proof (visual_agent_well_formed _ _ _ _ _ Hvis) as Hall.
    rewrite Forall_forall in Hall. now apply Hall. }
  destruct (_is_non_eee unicode_lower _ _).
  - injection Hrun as <- _.
    cbn [res_filtered res_category res_top_object].
    split; [| exact Htop]. left. split; [eexists; reflexivity | reflexivity].
  - apply bind_inv in Hrun. destruct Hrun as (rules & w3 & Hrules & Hrun).
    unfold lift in Hrules. injection Hrules as Hrules _.
    apply rule_agent_category_In in Hrules.
    apply bind_inv in Hrun. destruct Hrun as (final & w4 & Hfinal & Hret).
    injection Hret as <- _.
    cbn [res_filtered res_category res_top_object].
    split; [| exact Htop]. right. split; [reflexivity |].
    exists (category_id final), (category_name final).
    split; [reflexivity |].
    destruct use_llm_arbiter.
    + apply bind_inv in Hfinal. destruct Hfinal as (arb & w5 & Harb & Hfinal).
      destruct (try_llm_arbiter_run unicode_lower rules CATEGORIES
                  (va_image_caption vis) (_pick_best_object (va_objects vis))
                  (size_bucket sz) (size_ratio sz) w3)
        as (arb' & Harb' & _ & Hsome).
      rewrite Harb in Harb'. injection Harb' as <- _.
      destruct arb as [a |].
      * injection Hfinal as <- _. exact (proj1 (proj2 (Hsome a eq_refl))).
      * injection Hfinal as <- _. exact Hrules.
    + injection Hfinal as <- _. exact Hrules.
Qed.

Lemma CATEGORIES_truthy (cid : Z) (cname : pystr) :
  In (cid, cname) CATEGORIES ->
  Routes.int_truthy (Some cid) = true /\ truthy (Some cname) = true.
Proof.
  unfold CATEGORIES. cbn [In]. intros H.
  repeat (destruct H as [H | H];
          [injection H as <- <-; split; reflexivity |]).
  contradiction.
Qed.

Lemma category_label_of_category (cid : Z) (cname : pystr) :
  In (cid, cname) CATEGORIES ->
  Routes.category_label (Some cid) (Some cname) = of_Z cid ++ u " - " ++ cname.
Proof.
  intros H. apply CATEGORIES_truthy in H. destruct H as [H1 H2].
  unfold Routes.category_label. rewrite H1, H2. reflexivity.
Qed.

(** X20. The notification text for a result of [classify_image_bytes].  A
    filtered picture gives the one sentence that it does not look like
    electrical waste.  Any other result gives the category in the form
    "id - name", for one of the six categories; then the name of the top
    object, whenever there is one; its caption and the caption of the scene
    when they are not empty; and last the confidence. *)
Theorem message_of_a_classification (_percent : Q -> pystr)
    (unicode_lower : pystr -> pystr)
    (image_bytes : ImageBytes) (static_dir : option pystr)
    (use_llm_arbiter : bool) (w w' : World) (r : ClassificationResult) :
  classify_image_bytes unicode_lower image_bytes static_dir use_llm_arbiter w
  = (Ok r, w') ->
  (is_filtered r ->
   Notify.format_weee_message_pt _percent r
   = u "Não parece ser um resíduo de EEE (WEEE).") /\
  (~ is_filtered r ->
   exists cid cname,
     In (cid, cname) CATEGORIES /\
     res_category r = Some (cid, cname) /\
     Notify.format_weee_message_pt _percent r
     = join [10%N] (message_lines _percent r cid cname)).
Proof.
  intros Hrun.
  destruct (classify_image_bytes_shape _ _ _ _ _ _ _ Hrun) as (Hshape & Htop).
  unfold is_filtered.
  destruct Hshape as [((text & Hf) & Hc) | (Hf & cid & cname & Hc & Hin)].
  - split.
    + intros _. unfold Notify.format_weee_message_pt. rewrite Hf.
      reflexivity.
    + intros H. exfalso. apply H. rewrite Hf. discriminate.
  - split.
    + intros H. exfalso. now apply H.
    + intros _. exists cid, cname. split; [exact Hin |]. split; [exact Hc |].
      unfold Notify.format_weee_message_pt, message_lines.
      rewrite Hf, Hc. cbn [option_map fst snd].
      destruct (CATEGORIES_truthy cid cname Hin) as [H1 H2].
      rewrite H1. cbn [orb].
      rewrite (category_label_of_category cid cname Hin).
      destruct (res_top_object r) as [o |] eqn:Eo; [| reflexivity].
      destruct (Htop o eq_refl) as (Hname & _).
      rewrite Hname. reflexivity.
Qed.

Lemma message_of_a_classification_witness :
  Notify.format_weee_message_pt (fun _ => u "90.0%")
    (mkClassificationResult [] [] None None [] (mkSizeAgentOutput (0, 0) None None None)
       None None 0 (Some (u "non_eee", [])) None)
  = u "Não parece ser um resíduo de EEE (WEEE)." /\
  exists r w',
    classify_image_bytes latin1_lower Examples.upload None false
      Examples.refrigerador_world = (Ok r, w') /\
    exists cid cname,
      In (cid, cname) CATEGORIES /\
      res_category r = Some (cid, cname) /\
      Notify.format_weee_message_pt (fun _ => u "90.0%") r
      = join [10%N] (message_lines (fun _ => u "90.0%") r cid cname).
Proof.
  split; [vm_compute; reflexivity |].
  eexists. eexists. split; [vm_compute; reflexivity |].
  match goal with
  | |- exists cid cname, _ /\ res_category ?r = _ /\ _ =>
      apply (proj2 (message_of_a_classification (fun _ => u "90.0%")
                      latin1_lower Examples.upload None false
                      Examples.refrigerador_world
                      (snd (classify_image_bytes latin1_lower Examples.upload
                              None false Examples.refrigerador_world))
                      r ltac:(vm_compute; reflexivity)))
  end.
  unfold is_filtered. intros H. apply H. reflexivity.
Defined.

Lemma subpart_label_spec (objs : list Routes.RouteObject) (i : nat) (b : BBox)
    (parent_idxs : list nat) (label : pystr) :
  Routes.subpart_label objs i b parent_idxs = Some label ->
  exists j p pb,
    In j parent_idxs /\ j <> i /\ nth_error objs j = Some p /\
    bbox (Routes.detected p) = Some pb /\
    PyFloat.geb (Routes._bbox_iou b pb) (1 # 5) = true /\
    label = Routes.ignored_part_of (Routes.detected p).
Proof.
  induction parent_idxs as [| j rest IH]; [discriminate |].
  cbn [Routes.subpart_label]. intros H.
  assert (Hrest : Routes.subpart_label objs i b rest = Some label ->
                  exists j0 p pb,
                    In j0 (j :: rest) /\ j0 <> i /\ nth_error objs j0 = Some p /\
                    bbox (Routes.detected p) = Some pb /\
                    PyFloat.geb (Routes._bbox_iou b pb) (1 # 5) = true /\
                    label = Routes.ignored_part_of (Routes.detected p)).
  { intros Hr. destruct (IH Hr) as (j0 & p & pb & Hin & Hrest).
    exists j0, p, pb. split; [now right | exact Hrest]. }
  destruct (nth_error objs j) as [p |] eqn:Ej; [| discriminate].
  destruct (i =? j)%nat eqn:Eij; [now apply Hrest |].
  apply Nat.eqb_neq in Eij.
  destruct (bbox (Routes.detected p)) as [pb |] eqn:Epb; [| now apply Hrest].
  destruct (PyFloat.geb (Routes._bbox_iou b pb) (1 # 5)) eqn:Ehit;
    [| now apply Hrest].
  injection H as <-.
  exists j, p, pb. repeat split; try assumption; try (now left).
  intros ->. now apply Eij.
Qed.

Lemma classify_crop_run (unicode_lower : pystr -> pystr) (static_dir : pystr)
    (use_llm : bool) (detector_objects : list DetectedObject)
    (obj : Routes.RouteObject) (crop_bytes : ImageBytes) (w : World) :
  not_classified obj ->
  exists obj' w',
    Routes.classify_crop unicode_lower static_dir use_llm obj crop_bytes w
    = (Ok obj', w') /\
    Routes.detected obj' = Routes.detected obj /\
    route_outcome detector_objects obj'.
Proof.
  intros Hobj. unfold Routes.classify_crop.
  destruct (classify_image_bytes unicode_lower crop_bytes (Some static_dir)
              use_llm w) as [[cls | e] w'] eqn:Erun.
  2:{ exists obj, w'. repeat split. now left. }
  destruct (classify_image_bytes_shape _ _ _ _ _ _ _ Erun)
    as ([((text & Hf) & Hc) | (Hf & cid & cname & Hc & Hin)] & _).
  - rewrite Hc, Hf. cbn [is_none andb].
    replace (PyStr.eqb (u "non_eee") (u "non_eee")) with true
      by (vm_compute; reflexivity).
    eexists. eexists. split; [reflexivity |]. split; [reflexivity |].
    right. left. repeat split.
  - rewrite Hc, Hf. cbn [is_none andb option_map fst snd].
    destruct (CATEGORIES_truthy cid cname Hin) as [H1 H2].
    rewrite H1. cbn [orb].
    eexists. eexists. split; [reflexivity |]. split; [reflexivity |].
    right. right. right. exists cid, cname.
    split; [exact Hin |]. cbn.
    rewrite (category_label_of_category cid cname Hin). repeat split.
Qed.

Lemma classify_object_run (unicode_lower : pystr -> pystr) (static_dir : pystr)
    (use_llm : bool) (objs : list Routes.RouteObject)
    (parent_idxs : list nat) (i : nat) (obj : Routes.RouteObject) (w : World) :
  not_classified obj ->
  exists obj' w',
    Routes.classify_object unicode_lower static_dir use_llm objs parent_idxs
      i obj w = (Ok obj', w') /\
    Routes.detected obj' = Routes.detected obj /\
    route_outcome (List.map Routes.detected objs) obj'.
Proof.
  intros Hobj. unfold Routes.classify_object.
  destruct (Routes._is_non_eee obj && negb (Routes._is_parent obj)).
  { eexists. eexists. split; [reflexivity |]. split; [reflexivity |].
    right. left. repeat split. }
  match goal with
  | |- context [match ?part with Some _ => _ | None => _ end] =>
      destruct part as [label |] eqn:Epart
  end.
  - eexists. eexists. split; [reflexivity |]. split; [reflexivity |].
    right. right. left.
    destruct (bbox (Routes.detected obj)) as [b |] eqn:Eb; [| discriminate].
    destruct parent_idxs as [| j0 rest]; [discriminate |].
    destruct (Routes._is_subpart obj); [| discriminate].
    apply subpart_label_spec in Epart.
    destruct Epart as (j & p & pb & _ & _ & Hnth & Hpb & Hiou & ->).
    exists (Routes.detected p), b, pb.
    split; [apply in_map; now apply (nth_error_In _ _ Hnth) |].
    cbn. repeat split; assumption.
  - destruct (truthy (crop_url (Routes.detected obj))).
    2:{ exists obj, w. repeat split. now left. }
    destruct (Routes.read_bytes _ w) as [crop_bytes |].
    2:{ exists obj, w. repeat split. now left. }
    now apply classify_crop_run.
Qed.

Lemma classify_objects_run (unicode_lower : pystr -> pystr) (static_dir : pystr)
    (use_llm : bool) (objs : list Routes.RouteObject)
    (parent_idxs : list nat) (todo : list Routes.RouteObject) :
  Forall not_classified todo ->
  forall (i : nat) (w : World),
  exists out w',
    Routes.classify_objects unicode_lower static_dir use_llm objs parent_idxs
      i todo w = (Ok out, w') /\
    List.map Routes.detected out = List.map Routes.detected todo /\
    Forall (route_outcome (List.map Routes.detected objs)) out.
Proof.
  induction 1 as [| obj rest Hobj _ IH]; intros i w.
  - exists [], w. repeat split. constructor.
  - cbn [Routes.classify_objects]. rewrite run_bind.
    destruct (classify_object_run unicode_lower static_dir use_llm objs
                parent_idxs i obj w Hobj) as (obj' & w1 & Hrun & Hdet & Hout).
    rewrite Hrun. rewrite run_bind.
    destruct (IH (S i) w1) as (out & w2 & Hrest & Hmap & Hall).
    rewrite Hrest.
    exists (obj' :: out), w2. split; [reflexivity |].
    split; [cbn [List.map]; now rewrite Hdet, Hmap |].
    now constructor.
Qed.

(** X21. The route [analyze] answers with the error page exactly when the
    detector fails on the upload, and with that exception.  Otherwise it
    renders the detector's result with its objects in their order, whatever
    happens while the crops are classified: each object is left without a
    category, or ignored as not being electrical equipment, or ignored as a
    part of another detected object whose box it overlaps with an IoU of 0.2
    or more, or given one of the six categories in the form "id - name". *)
Theorem analyze_route_outcome (unicode_lower : pystr -> pystr)
    (static_dir : pystr) (use_llm : bool) (img_bytes : ImageBytes) (w : World) :
  match analyze_image_bytes img_bytes (Some static_dir) true 50 16000 w with
  | (Raise e, w1) =>
      Routes.analyze unicode_lower static_dir use_llm img_bytes w
      = (Routes.ErrorPage e, w1)
  | (Ok res, w1) =>
      exists objs w',
        Routes.analyze unicode_lower static_dir use_llm img_bytes w
        = (Routes.Results res objs, w') /\
        List.map Routes.detected objs = objects res /\
        Forall (route_outcome (objects res)) objs
  end.
Proof.
  unfold Routes.analyze. rewrite run_bind.
  destruct (analyze_image_bytes img_bytes (Some static_dir) true 50 16000 w)
    as [[res | e] w1]; [| reflexivity].
  assert (Hmap : List.map Routes.detected
                   (List.map (Routes.preprocess unicode_lower) (objects res))
                 = objects res).
  { rewrite map_map. cbn [Routes.preprocess Routes.detected]. apply map_id. }
  destruct (classify_objects_run unicode_lower static_dir use_llm
              (List.map (Routes.preprocess unicode_lower) (objects res))
              (Routes.parent_idxs_from 0
                 (List.map (Routes.preprocess unicode_lower) (objects res)))
              (List.map (Routes.preprocess unicode_lower) (objects res)))
    with (i := 0%nat) (w := w1) as (out & w2 & Hrun & Hdet & Hall).
  { apply Forall_forall. intros o Ho. apply in_map_iff in Ho.
    destruct Ho as (d & <- & _). repeat split. }
  rewrite run_bind, Hrun.
  exists out, w2. split; [reflexivity |].
  rewrite Hmap in Hdet, Hall. split; assumption.
Qed.

End RoutesProps.

(* ================================================================== *)
(** * The grid of the fallback *)
(* ================================================================== *)

Module GridProps.

Import Spec MoreSpec VisionProps.

Lemma grid_cells_range (gy gx : Z) :
  In (gy, gx) grid_cells <-> (0 <= gy <= 2 /\ 0 <= gx <= 2).
Proof.
  split.
  - intros H. vm_compute in H.
    repeat (destruct H as [H | H]; [injection H as <- <-; lia |]).
    contradiction.
  - intros [Hy Hx].
    assert (Hgy : gy = 0 \/ gy = 1 \/ gy = 2) by lia.
    assert (Hgx : gx = 0 \/ gx = 1 \/ gx = 2) by lia.
    destruct Hgy as [-> | [-> | ->]]; destruct Hgx as [-> | [-> | ->]];
      vm_compute; tauto.
Qed.

Lemma cell_box_fields (W H gy gx : Z) :
  bx (cell_box W H gy gx) = gx * (W / 3) /\
  by_ (cell_box W H gy gx) = gy * (H / 3) /\
  bw (cell_box W H gy gx) = (if gx <? 2 then W / 3 else W - gx * (W / 3)) /\
  bh (cell_box W H gy gx) = (if gy <? 2 then H / 3 else H - gy * (H / 3)).
Proof. repeat split. Qed.

(** X22. The nine cells of the grid fallback tile the image: each cell lies
    within the image, two different cells do not overlap (their IoU is 0,
    so a pseudo-object that was added never makes the scan skip a later
    cell), and every pixel of the image lies in one of the cells. *)
Theorem grid_cells_tile_the_image (W H : Z) :
  0 <= W -> 0 <= H ->
  (forall gy gx, In (gy, gx) grid_cells ->
     0 <= bx (cell_box W H gy gx) /\ 0 <= by_ (cell_box W H gy gx) /\
     0 <= bw (cell_box W H gy gx) /\ 0 <= bh (cell_box W H gy gx) /\
     bx (cell_box W H gy gx) + bw (cell_box W H gy gx) <= W /\
     by_ (cell_box W H gy gx) + bh (cell_box W H gy gx) <= H) /\
  (forall gy1 gx1 gy2 gx2,
     In (gy1, gx1) grid_cells -> In (gy2, gx2) grid_cells ->
     (gy1, gx1) <> (gy2, gx2) ->
     disjoint (cell_box W H gy1 gx1) (cell_box W H gy2 gx2) /\
     _iou (cell_box W H gy1 gx1) (cell_box W H gy2 gx2) = 0%Q) /\
  (forall x y, 0 <= x < W -> 0 <= y < H ->
     exists gy gx,
       In (gy, gx) grid_cells /\
       bx (cell_box W H gy gx) <= x
         < bx (cell_box W H gy gx) + bw (cell_box W H gy gx) /\
       by_ (cell_box W H gy gx) <= y
         < by_ (cell_box W H gy gx) + bh (cell_box W H gy gx)).
Proof.
  intros HW HH.
  pose proof (Z.div_mod W 3 ltac:(lia)) as HdW.
  pose proof (Z.mod_pos_bound W 3 ltac:(lia)) as HmW.
  pose proof (Z.div_mod H 3 ltac:(lia)) as HdH.
  pose proof (Z.mod_pos_bound H 3 ltac:(lia)) as HmH.
  set (cw := W / 3) in *. set (ch := H / 3) in *.
  assert (Hcw : 0 <= cw /\ 3 * cw <= W) by lia.
  assert (Hch : 0 <= ch /\ 3 * ch <= H) by lia.
  assert (Hcases : forall g, 0 <= g <= 2 -> g = 0 \/ g = 1 \/ g = 2)
    by (intros; lia).
  split; [| split].
  - intros gy gx Hin. apply grid_cells_range in Hin. destruct Hin as [Hy Hx].
    destruct (cell_box_fields W H gy gx) as (-> & -> & -> & ->).
    fold cw ch.
    destruct (Hcases gy Hy) as [-> | [-> | ->]];
      destruct (Hcases gx Hx) as [-> | [-> | ->]];
      cbn [Z.ltb Z.compare Pos.compare Pos.compare_cont]; lia.
  - intros gy1 gx1 gy2 gx2 Hin1 Hin2 Hne.
    apply grid_cells_range in Hin1, Hin2.
    destruct Hin1 as [Hy1 Hx1]. destruct Hin2 as [Hy2 Hx2].
    assert (Hdis : disjoint (cell_box W H gy1 gx1) (cell_box W H gy2 gx2)).
    { unfold disjoint.
      destruct (cell_box_fields W H gy1 gx1) as (-> & -> & -> & ->).
      destruct (cell_box_fields W H gy2 gx2) as (-> & -> & -> & ->).
      fold cw ch.
      destruct (Hcases gy1 Hy1) as [-> | [-> | ->]];
        destruct (Hcases gx1 Hx1) as [-> | [-> | ->]];
        destruct (Hcases gy2 Hy2) as [-> | [-> | ->]];
        destruct (Hcases gx2 Hx2) as [-> | [-> | ->]];
        try (exfalso; apply Hne; reflexivity);
        cbn [Z.ltb Z.compare Pos.compare Pos.compare_cont]; lia. }
    split; [exact Hdis |].
    rewrite iou_unfold, (inter_area_disjoint _ _ Hdis), truediv_zero.
    now destruct (union_area _ _ <=? 0).
  - intros x y Hx Hy.
    assert (Hgx : exists gx, 0 <= gx <= 2 /\
                    gx * cw <= x
                    < gx * cw + (if gx <? 2 then cw else W - gx * cw)).
    { destruct (Z_lt_le_dec x cw) as [H1 | H1].
      - exists 0. cbn [Z.ltb Z.compare]. lia.
      - destruct (Z_lt_le_dec x (2 * cw)) as [H2 | H2].
        + exists 1. cbn [Z.ltb Z.compare Pos.compare Pos.compare_cont]. lia.
        + exists 2. cbn [Z.ltb Z.compare Pos.compare Pos.compare_cont]. lia. }
    assert (Hgy : exists gy, 0 <= gy <= 2 /\
                    gy * ch <= y
                    < gy * ch + (if gy <? 2 then ch else H - gy * ch)).
    { destruct (Z_lt_le_dec y ch) as [H1 | H1].
      - exists 0. cbn [Z.ltb Z.compare]. lia.
      - destruct (Z_lt_le_dec y (2 * ch)) as [H2 | H2].
        + exists 1. cbn [Z.ltb Z.compare Pos.compare Pos.compare_cont]. lia.
        + exists 2. cbn [Z.ltb Z.compare Pos.compare Pos.compare_cont]. lia. }
    destruct Hgx as (gx & Hgx & Hxin). destruct Hgy as (gy & Hgy & Hyin).
    exists gy, gx. split; [now apply grid_cells_range |].
    destruct (cell_box_fields W H gy gx) as (-> & -> & -> & ->).
    fold cw ch. split; assumption.
Qed.

Lemma grid_cells_tile_the_image_witness :
  _iou (cell_box 100 80 0 0) (cell_box 100 80 2 1) = 0%Q.
Proof.
  apply (proj1 (proj2 (grid_cells_tile_the_image 100 80 ltac:(lia) ltac:(lia)))
           0 0 2 1).
  - vm_compute. tauto.
  - vm_compute. tauto.
  - discriminate.
Defined.

End GridProps.
